(** * Sunbeam orchestration steps: capacity planning, topology persistence,
      expect/respond sessions and skip checks

    A shallow embedding of the parts of [sunbeam/commands/openstack.py] and
    [sunbeam/commands/juju.py] that decide the planning rules, the
    database-topology guard, the interactive registration and machine
    enrolment sessions, the skip checks built on the juju command line and the
    background status task of the deployment steps.

    Python values are modelled as follows: [int] as [Z], [str] as [string],
    a [dict] with string keys as [gmap string _], a [set] of strings as
    [gset string], a raised exception as the [Raises] outcome of a computation
    that threads the mutable world explicitly. *)

From Stdlib Require Import ZArith Lia Bool DecimalString.
From stdpp Require Import base gmap strings list.

Local Open Scope string_scope.

(** ** Python layer *)

Module Py.

(** The exceptions the embedded code raises, catches or lets through. *)
Inductive exn : Type :=
| ValueError (msg : string)
| AttributeError (msg : string)
| ConfigItemNotFoundException
| NodeNotExistInClusterException (msg : string)
| JujuAccountNotFound (msg : string)
| ControllerNotFoundException
| ModelNotFoundException (msg : string)
| TerraformException (msg : string)
| JujuWaitException (msg : string)
| TimeoutException (msg : string)
| CalledProcessError (text : string) (stderr : string)
| TIMEOUT (value : string)
| EOFException (value : string)
| TypeError (msg : string)
| KeyError (key : string)
| OtherException (name : string).

(** [str(e)]: the text of an exception.  For [CalledProcessError] it is the
    text Python builds from the command and the exit status, carried here as
    [text]; [stderr] is the captured error stream. *)
Definition str (e : exn) : string :=
  match e with
  | ValueError m | AttributeError m | TypeError m | EOFException m
  | NodeNotExistInClusterException m
  | JujuAccountNotFound m | ModelNotFoundException m | TerraformException m
  | JujuWaitException m | TimeoutException m => m
  | CalledProcessError text _ => text
  | KeyError k => k
  | TIMEOUT v => v
  | ConfigItemNotFoundException => EmptyString
  | ControllerNotFoundException => EmptyString
  | OtherException n => n
  end.

(** Outcome of evaluating a Python expression: a value or a raised
    exception. *)
Inductive outcome (A : Type) : Type :=
| Returns (a : A)
| Raises (e : exn).
Arguments Returns {A} a.
Arguments Raises {A} e.

(** Truthiness of a [str]: only the empty string is falsy. *)
Definition truthy (s : string) : bool :=
  match s with
  | EmptyString => false
  | String _ _ => true
  end.

(** Truthiness of a value that is [None] or a [str]. *)
Definition option_truthy (o : option string) : bool :=
  match o with
  | Some s => truthy s
  | None => false
  end.

(** [s.startswith(p)]. *)
Fixpoint startswith (p s : string) : bool :=
  match p, s with
  | EmptyString, _ => true
  | String a p', String b s' => if Ascii.eqb a b then startswith p' s' else false
  | String _ _, EmptyString => false
  end.

(** The lowest index at which [sub] occurs in [s], if any. *)
Fixpoint lowest_index (sub s : string) : option nat :=
  if startswith sub s then Some O
  else match s with
       | EmptyString => None
       | String _ s' => S <$> lowest_index sub s'
       end.

(** [s.find(sub)]: the lowest index at which [sub] occurs in [s], or
    [-1]. *)
Definition find (sub s : string) : Z :=
  match lowest_index sub s with
  | Some n => Z.of_nat n
  | None => (-1)%Z
  end.

(** [sub in s]. *)
Fixpoint contains (sub s : string) : bool :=
  startswith sub s
  || match s with
     | EmptyString => false
     | String _ s' => contains sub s'
     end.

(** [s] without its first [n] characters. *)
Fixpoint string_drop (n : nat) (s : string) : string :=
  match n, s with
  | O, _ => s
  | S n', String _ s' => string_drop n' s'
  | S _, EmptyString => EmptyString
  end.

(** [s[i:]]: a negative [i] counts from the end. *)
Definition slice_from (i : Z) (s : string) : string :=
  if (i <? 0)%Z
  then string_drop (Z.to_nat (Z.max 0 (Z.of_nat (String.length s) + i))) s
  else string_drop (Z.to_nat i) s.

(** [sub] occurs in [s] at index [n]. *)
Definition occurs_at (sub s : string) (n : nat) : Prop :=
  exists pre post, s = pre +:+ sub +:+ post /\ String.length pre = n.

(** [lo <= a <= hi] for a byte [a]. *)
Definition byte_in (lo hi : N) (a : Ascii.ascii) : bool :=
  ((lo <=? Ascii.N_of_ascii a) && (Ascii.N_of_ascii a <=? hi))%N.

(** The bytes are well-formed UTF-8: sequences of one to four bytes, none
    overlong, no surrogate, nothing above U+10FFFF. *)
Fixpoint utf8 (s : string) : bool :=
  match s with
  | EmptyString => true
  | String a s1 =>
      if byte_in 0 127 a then utf8 s1
      else
        match s1 with
        | EmptyString => false
        | String b s2 =>
            if byte_in 194 223 a then byte_in 128 191 b && utf8 s2
            else
              match s2 with
              | EmptyString => false
              | String c s3 =>
                  if byte_in 224 239 a
                  then (if byte_in 224 224 a then byte_in 160 191 b
                        else if byte_in 237 237 a then byte_in 128 159 b
                        else byte_in 128 191 b)
                       && byte_in 128 191 c && utf8 s3
                  else
                    match s3 with
                    | EmptyString => false
                    | String d s4 =>
                        byte_in 240 244 a
                        && (if byte_in 240 240 a then byte_in 144 191 b
                            else if byte_in 244 244 a then byte_in 128 143 b
                            else byte_in 128 191 b)
                        && byte_in 128 191 c && byte_in 128 191 d && utf8 s4
                    end
              end
        end
  end.

(** [b.decode()] of a [bytes] value.  A [str] is kept as its UTF-8
    encoding, so the text decoded is the bytes themselves when they are
    well-formed; otherwise [UnicodeDecodeError] is raised.  The needle
    ["ERROR"] searched in such a text is ASCII, and an ASCII byte never
    belongs to the encoding of another character: [in], and the slice taken
    from [find] on, give on the encoding the encoding of what they give on
    the characters. *)
Definition decode (b : string) : outcome string :=
  if utf8 b then Returns b else Raises (OtherException "UnicodeDecodeError").

End Py.

Export Py.

(** ** Outcome of a step phase *)

(** Modelled from the spec: [ResultType] and [Result] are declared in
    [sunbeam/jobs/common.py]; a result is a three-way tag with an optional
    message. *)
Inductive ResultType : Type := COMPLETED | FAILED | SKIPPED.

Record Result : Type := mkResult {
  result_type : ResultType;
  message : option string
}.

(** ** Capacity planner ([sunbeam/commands/openstack.py]) *)

Module Planner.

Local Open Scope Z_scope.

Definition compute_ha_scale (topology : string) (control_nodes : Z) : Z :=
  if String.eqb topology "single" || (control_nodes <? 3) then 1 else 3.

Definition compute_os_api_scale (topology : string) (control_nodes : Z)
  : outcome Z :=
  if String.eqb topology "single" then Returns 1
  else if String.eqb topology "multi" || (control_nodes <? 3)
  then Returns (Z.min control_nodes 3)
  else if String.eqb topology "large"
  then Returns (Z.min (control_nodes + 2) 7)
  else Raises (ValueError ("Unknown topology " +:+ topology)).

Definition compute_ingress_scale (topology : string) (control_nodes : Z) : Z :=
  if String.eqb topology "single" then 1 else Z.min control_nodes 3.

Definition compute_ceph_replica_scale (osds : Z) : Z := Z.min osds 3.

End Planner.

(** ** Computations over a mutable world *)

Module Monad.

(** A computation reads and updates a state and either returns a value or
    raises. *)
Definition M (S A : Type) : Type := S -> outcome A * S.

Definition ret {S A} (a : A) : M S A := fun s => (Returns a, s).

Definition raise {S A} (e : exn) : M S A := fun s => (Raises e, s).

Definition bind {S A B} (m : M S A) (k : A -> M S B) : M S B :=
  fun s => match m s with
           | (Returns a, s') => k a s'
           | (Raises e, s') => (Raises e, s')
           end.

Definition gets {S A} (f : S -> A) : M S A := fun s => (Returns (f s), s).

Definition modify {S} (f : S -> S) : M S unit := fun s => (Returns tt, f s).

Definition lift {S A} (o : outcome A) : M S A := fun s => (o, s).

(** [try: m except ...: h]: [h e = None] when no clause catches [e]. *)
Definition try_except {S A} (m : M S A) (h : exn -> option (M S A)) : M S A :=
  fun s => match m s with
           | (Returns a, s') => (Returns a, s')
           | (Raises e, s') =>
               match h e with
               | Some handler => handler s'
               | None => (Raises e, s')
               end
           end.

(** [try: m finally: fin]: [fin] runs on every way out of [m]; an exception
    raised by [fin] replaces the pending outcome. *)
Definition try_finally {S A} (m : M S A) (fin : M S unit) : M S A :=
  fun s => match m s with
           | (o, s') =>
               match fin s' with
               | (Returns _, s'') => (o, s'')
               | (Raises e, s'') => (Raises e, s'')
               end
           end.

(** Run a computation on the second component of a pair state. *)
Definition on_world {X W A} (m : M W A) : M (X * W) A :=
  fun s => match m (snd s) with
           | (o, w') => (o, (fst s, w'))
           end.

Definition get_self {X W} : M (X * W) X := gets fst.

Definition set_self {X W} (f : X -> X) : M (X * W) unit :=
  modify (fun s => (f (fst s), snd s)).

End Monad.

Export Monad.

Declare Scope py_scope.
Delimit Scope py_scope with py.
Notation "x <~ m ;; k" := (bind m (fun x => k))
  (at level 100, m at next level, right associativity) : py_scope.
Notation "m ;;; k" := (bind m (fun _ => k))
  (at level 100, right associativity) : py_scope.

(** ** The clustered key-value store *)

Module Clusterd.

(** A dictionary of strings, as the configuration items handled here are. *)
Abbreviation dict := (gmap string string).

(** A cluster member: its name, the roles it holds and its juju machine. *)
Record Node : Type := mkNode {
  name : string;
  role : list string;
  machineid : Z
}.

(** Modelled from the spec: the store client ([sunbeam/clusterd/client.py])
    is an external collaborator; it keeps the cluster members with their
    roles and configuration items by key. *)
Record Client : Type := mkClient {
  nodes : list Node;
  config : gmap string dict
}.

(** Modelled from the spec: [client.cluster.list_nodes_by_role(role)], the
    members that hold [role], in the order the store keeps them. *)
Definition list_nodes_by_role (c : Client) (r : string) : list Node :=
  filter (fun n => r ∈ role n) (nodes c).

(** Modelled from the spec: [read_config(client, key)] of
    [sunbeam/jobs/common.py]: the item stored under [key], or
    [ConfigItemNotFoundException]. *)
Definition read_config (key : string) : M Client dict :=
  fun c => match config c !! key with
           | Some v => (Returns v, c)
           | None => (Raises ConfigItemNotFoundException, c)
           end.

(** Modelled from the spec: [update_config(client, key, config)] of
    [sunbeam/jobs/common.py]: store the item under [key]. *)
Definition update_config (key : string) (v : dict) : M Client unit :=
  modify (fun c => mkClient (nodes c) (<[key := v]> (config c))).

End Clusterd.

(** ** Control-plane deployment steps ([sunbeam/commands/openstack.py]) *)

Module Openstack.

Import Clusterd.
Local Open Scope Z_scope.
Local Open Scope py_scope.

Definition OPENSTACK_MODEL : string := "openstack".
Definition OPENSTACK_DEPLOY_TIMEOUT : Z := 5400.
Definition CONFIG_KEY : string := "TerraformVarsOpenstack".
Definition TOPOLOGY_KEY : string := "Topology".

(** A background task of the event loop: still running, finished by
    itself, or cancelled. *)
Inductive task_state : Type := Pending | Finished | Cancelled.

(** What the steps read and change: the store, the RAM of the host in kB
    ([get_host_total_ram()]) and the tasks created so far, by index. *)
Record World : Type := mkWorld {
  client : Client;
  host_total_ram : Z;
  tasks : list task_state
}.

Definition with_client (f : Client -> Client) (w : World) : World :=
  mkWorld (f (client w)) (host_total_ram w) (tasks w).

Definition with_tasks (f : list task_state -> list task_state) (w : World)
  : World :=
  mkWorld (client w) (host_total_ram w) (f (tasks w)).

(** A store operation run on the world. *)
Definition on_client {A} (m : M Client A) : M World A :=
  fun w => match m (client w) with
           | (o, c') => (o, with_client (fun _ => c') w)
           end.

(** A value of a Terraform variable. *)
Inductive tfvalue : Type :=
| TBool (b : bool)
| TInt (z : Z)
| TStr (s : string)
| TDict (d : dict).

Abbreviation tfvars := (gmap string tfvalue).

(** The collaborators a run talks to, each given by what it answers:
    constants of modules outside this file ([RAM_32_GB_IN_KB],
    [microceph.APPLICATION], [CREDENTIAL_SUFFIX]), the Kubernetes helper,
    the proxy conversion, the Terraform helper and the juju helper.  The
    Terraform helper is given by whether it succeeds or raises, for the key
    and the overriding variables it is handed; the item in which it keeps
    the variables under that key is not part of the store modelled here,
    which holds the items the steps write themselves. *)
Record Ext : Type := mkExt {
  RAM_32_GB_IN_KB : Z;
  microceph_APPLICATION : string;
  CREDENTIAL_SUFFIX : string;
  get_default_storageclass : string;
  convert_proxy_to_model_configs : dict -> dict;
  get_number_of_osds : string -> outcome Z;
  update_tfvars_and_apply_tf : string -> option tfvars -> outcome unit;
  get_application_names : string -> outcome (list string);
  wait_until_active : string -> list string -> Z -> outcome unit;
  finishes_during_wait : nat -> bool
}.

(** [set(node["name"] for node in l)]. *)
Definition names (l : list Node) : gset string :=
  list_to_set (name <$> l).

Definition determine_target_topology (ext : Ext) : M World string :=
  control_nodes <~ gets (fun w => list_nodes_by_role (client w) "control") ;;
  compute_nodes <~ gets (fun w => list_nodes_by_role (client w) "compute") ;;
  let combined := names (control_nodes ++ compute_nodes)%list in
  host_total_ram <~ gets host_total_ram ;;
  if (Z.of_nat (size combined) =? 1) && (host_total_ram <? RAM_32_GB_IN_KB ext)
  then ret "single"
  else if Z.of_nat (size combined) <? 10
  then ret "multi"
  else ret "large".

(** The distinct node names over the control and compute roles. *)
Definition combined (w : World) : gset string :=
  names (list_nodes_by_role (client w) "control"
         ++ list_nodes_by_role (client w) "compute")%list.

(** The mutable attributes of a [DeployControlPlaneStep] instance. *)
Record DeployControlPlaneStep : Type := mkDeploy {
  topology : string;
  database : string;
  machine_model : string;
  proxy_settings : dict;
  force : bool;
  model : string;
  cloud : string
}.

Definition set_topology (t : string) (s : DeployControlPlaneStep) :=
  mkDeploy t (database s) (machine_model s) (proxy_settings s) (force s)
           (model s) (cloud s).

Definition set_database (d : string) (s : DeployControlPlaneStep) :=
  mkDeploy (topology s) d (machine_model s) (proxy_settings s) (force s)
           (model s) (cloud s).

Definition database_changed_message : string :=
  "Database topology cannot be changed, please destroy and re-bootstrap".

Definition single_database_large_message : string :=
  "Cannot deploy control plane to large with single database, use -f/--force to override".

(** [DeployControlPlaneStep.is_skip]. *)
Definition is_skip (ext : Ext) : M (DeployControlPlaneStep * World) Result :=
  previous_config <~
    try_except (on_world (on_client (read_config TOPOLOGY_KEY)))
      (fun e => match e with
                | ConfigItemNotFoundException => Some (ret ∅)
                | _ => None
                end) ;;
  determined_topology <~ on_world (determine_target_topology ext) ;;
  self <~ get_self ;;
  (if String.eqb (topology self) "auto"
   then set_self (set_topology determined_topology)
   else ret tt) ;;;
  self <~ get_self ;;
  (if String.eqb (database self) "auto"
   then set_self (set_database
                    (default determined_topology
                             (previous_config !! "database")))
   else ret tt) ;;;
  self <~ get_self ;;
  (if String.eqb (database self) "large"
   then set_self (set_database "multi")
   else ret tt) ;;;
  self <~ get_self ;;
  let database := previous_config !! "database" in
  if option_truthy database
     && negb (bool_decide (database = Some (Openstack.database self)))
  then ret (mkResult FAILED (Some database_changed_message))
  else
    let is_not_compatible :=
      String.eqb (Openstack.database self) "single"
      && String.eqb (topology self) "large" in
    if negb (force self) && is_not_compatible
    then ret (mkResult FAILED (Some single_database_large_message))
    else ret (mkResult COMPLETED None).

(** The topology [determine_target_topology] finds in a world. *)
Definition determined_topology (ext : Ext) (w : World) : string :=
  if (Z.of_nat (size (combined w)) =? 1)
     && (host_total_ram w <? RAM_32_GB_IN_KB ext)
  then "single"
  else if Z.of_nat (size (combined w)) <? 10 then "multi" else "large".

(** The database topology a planning run settles on: the one asked for, or
    for ["auto"] the persisted one and failing that the determined one, with
    ["large"] turned into ["multi"]. *)
Definition planned_database (determined : string) (persisted : option string)
           (requested : string) : string :=
  let chosen :=
    if String.eqb requested "auto" then default determined persisted
    else requested in
  if String.eqb chosen "large" then "multi" else chosen.

(** The configuration item persisted under the topology key, if any. *)
Definition persisted_topology (w : World) : option dict :=
  config (client w) !! TOPOLOGY_KEY.

(** The database topology persisted for the deployment, if any. *)
Definition persisted_database (w : World) : option string :=
  persisted_topology w ≫= (fun d => d !! "database").

(** What the skip check answers once the database and the topology are
    settled. *)
Definition verdict (persisted : option string) (self : DeployControlPlaneStep)
  : Result :=
  if option_truthy persisted
     && negb (bool_decide (persisted = Some (database self)))
  then mkResult FAILED (Some database_changed_message)
  else if negb (force self)
          && (String.eqb (database self) "single"
              && String.eqb (topology self) "large")
  then mkResult FAILED (Some single_database_large_message)
  else mkResult COMPLETED None.

(** The step as the skip check leaves it. *)
Definition settled (ext : Ext) (self : DeployControlPlaneStep) (w : World)
  : DeployControlPlaneStep :=
  set_database
    (planned_database (determined_topology ext w) (persisted_database w)
                      (database self))
    (set_topology
       (if String.eqb (topology self) "auto" then determined_topology ext w
        else topology self)
       self).

(** The outcome of the wait as the [try] statement of the deployment steps
    turns it: the two waiting errors become a [FAILED] result. *)
Definition waited (o : outcome unit) : outcome (option Result) :=
  match o with
  | Returns _ => Returns None
  | Raises e =>
      match e with
      | JujuWaitException _ | TimeoutException _ =>
          Returns (Some (mkResult FAILED (Some (str e))))
      | _ => Raises e
      end
  end.

(** How the status task stands when the [finally] clause is over. *)
Definition status_task_end (ext : Ext) (task : nat) : task_state :=
  if finishes_during_wait ext task then Finished else Cancelled.

(** [list.remove(x)] on a list known to hold [x]: drop its first
    occurrence. *)
Fixpoint list_remove (x : string) (l : list string) : list string :=
  match l with
  | [] => []
  | y :: l' => if String.eqb x y then l' else y :: list_remove x l'
  end.

(** [x in l] for a list of strings. *)
Definition list_in (x : string) (l : list string) : bool :=
  existsb (String.eqb x) l.

(** [DeployControlPlaneStep.get_storage_tfvars]. *)
Definition get_storage_tfvars (ext : Ext) (self : DeployControlPlaneStep)
           (storage_nodes : list Node) : outcome tfvars :=
  match storage_nodes with
  | _ :: _ =>
      match get_number_of_osds ext (machine_model self) with
      | Returns osds =>
          Returns
            (<["ceph-osd-replication-count" :=
                 TInt (Planner.compute_ceph_replica_scale osds)]>
               (<["ceph-offer-url" :=
                    TStr ("admin/" +:+ machine_model self +:+ "."
                          +:+ microceph_APPLICATION ext)]>
                  {["enable-ceph" := TBool true]}))
      | Raises e => Raises e
      end
  | [] => Returns {["enable-ceph" := TBool false]}
  end.

(** [not extra_tfvars.get("enable-ceph")]. *)
Definition ceph_disabled (v : tfvars) : bool :=
  match v !! "enable-ceph" with
  | Some (TBool b) => negb b
  | Some (TInt z) => z =? 0
  | Some (TStr s) => negb (truthy s)
  | Some (TDict d) => bool_decide (d = ∅)
  | None => true
  end.

(** Modelled from the spec: [update_status_background(self, apps, status)]
    of [sunbeam/jobs/common.py] starts the status-reporting task on the event
    loop and hands it back. *)
Definition update_status_background : M World nat :=
  fun w => (Returns (length (tasks w)), with_tasks (fun ts => (ts ++ [Pending])%list) w).

(** While the step waits, the event loop runs the other tasks; those that
    reach their end are finished when the wait is over. *)
Definition settle (finishes : nat -> bool) (ts : list task_state)
  : list task_state :=
  imap (fun i t => match t with
                   | Pending => if finishes i then Finished else Pending
                   | _ => t
                   end) ts.

(** [run_sync(self.jhelper.wait_until_active(model, apps, timeout))]. *)
Definition wait (ext : Ext) (model : string) (apps : list string)
           (timeout : Z) : M World unit :=
  fun w => (wait_until_active ext model apps timeout,
            with_tasks (settle (finishes_during_wait ext)) w).

(** [task.done()]: true once the task finished or was cancelled. *)
Definition task_done (t : nat) : M World bool :=
  gets (fun w => match tasks w !! t with
                 | Some Pending => false
                 | _ => true
                 end).

(** [task.cancel()]. *)
Definition task_cancel (t : nat) : M World unit :=
  modify (with_tasks (alter (fun st => match st with
                                       | Pending => Cancelled
                                       | _ => st
                                       end) t)).

(** The wait of both deployment steps with its handlers:
    [Some r] is the [return r] of the [except] clause, [None] the normal
    way out of the [try] statement. *)
Definition wait_for_apps (ext : Ext) (model : string) (apps : list string)
  : M World (option Result) :=
  task <~ update_status_background ;;
  try_finally
    (try_except
       (wait ext model apps OPENSTACK_DEPLOY_TIMEOUT ;;; ret None)
       (fun e => match e with
                 | JujuWaitException _ | TimeoutException _ =>
                     Some (ret (Some (mkResult FAILED (Some (str e)))))
                 | _ => None
                 end))
    (done <~ task_done task ;;
     if negb done then task_cancel task else ret tt).

(** [DeployControlPlaneStep.run]. *)
Definition run (ext : Ext) : M (DeployControlPlaneStep * World) Result :=
  self <~ get_self ;;
  on_world (on_client
    (update_config TOPOLOGY_KEY
       (<["database" := database self]> {["topology" := topology self]}))) ;;;
  control_nodes <~
    on_world (gets (fun w => list_nodes_by_role (client w) "control")) ;;
  storage_nodes <~
    on_world (gets (fun w => list_nodes_by_role (client w) "storage")) ;;
  let model_config :=
    <["workload-storage" := get_default_storageclass ext]>
      (convert_proxy_to_model_configs ext (proxy_settings self)) in
  extra_tfvars <~ lift (get_storage_tfvars ext self storage_nodes) ;;
  os_api_scale <~
    lift (Planner.compute_os_api_scale (topology self)
            (Z.of_nat (length control_nodes))) ;;
  let extra_tfvars :=
    <["ingress-scale" :=
        TInt (Planner.compute_ingress_scale (topology self)
                (Z.of_nat (length control_nodes)))]>
    (<["os-api-scale" := TInt os_api_scale]>
    (<["ha-scale" :=
        TInt (Planner.compute_ha_scale (topology self)
                (Z.of_nat (length control_nodes)))]>
    (<["many-mysql" := TBool (String.eqb (database self) "multi")]>
    (<["config" := TDict model_config]>
    (<["credential" := TStr (cloud self +:+ CREDENTIAL_SUFFIX ext)]>
    (<["cloud" := TStr (cloud self)]>
    (<["model" := TStr (model self)]> extra_tfvars))))))) in
  failed <~
    try_except
      (lift (update_tfvars_and_apply_tf ext CONFIG_KEY (Some extra_tfvars)) ;;;
       ret None)
      (fun e => match e with
                | TerraformException _ =>
                    Some (ret (Some (mkResult FAILED (Some (str e)))))
                | _ => None
                end) ;;
  match failed with
  | Some r => ret r
  | None =>
      apps <~ lift (get_application_names ext (model self)) ;;
      let apps :=
        if ceph_disabled extra_tfvars && list_in "cinder-ceph" apps
        then list_remove "cinder-ceph" apps else apps in
      returned <~ on_world (wait_for_apps ext (model self) apps) ;;
      match returned with
      | Some r => ret r
      | None => ret (mkResult COMPLETED None)
      end
  end.

(** [ReapplyOpenStackTerraformPlanStep.run]; the step has no attribute
    that changes, its model is [OPENSTACK_MODEL]. *)
Definition reapply_run (ext : Ext) : M World Result :=
  failed <~
    try_except
      (lift (update_tfvars_and_apply_tf ext CONFIG_KEY None) ;;; ret None)
      (fun e => match e with
                | TerraformException _ =>
                    Some (ret (Some (mkResult FAILED (Some (str e)))))
                | _ => None
                end) ;;
  match failed with
  | Some r => ret r
  | None =>
      storage_nodes <~ gets (fun w => list_nodes_by_role (client w) "storage") ;;
      apps <~ lift (get_application_names ext OPENSTACK_MODEL) ;;
      let apps :=
        if bool_decide (storage_nodes = []) && list_in "cinder-ceph" apps
        then list_remove "cinder-ceph" apps else apps in
      returned <~ wait_for_apps ext OPENSTACK_MODEL apps ;;
      match returned with
      | Some r => ret r
      | None => ret (mkResult COMPLETED None)
      end
  end.

(** Modelled from the spec: the plan runner ([run_plan] of
    [sunbeam/jobs/common.py]) applied to one step that has no prompts: the
    skip check comes first, and [run] is called only when the check
    returned [COMPLETED]. *)
Definition run_step (ext : Ext) : M (DeployControlPlaneStep * World) Result :=
  checked <~ is_skip ext ;;
  match result_type checked with
  | SKIPPED | FAILED => ret checked
  | COMPLETED => run ext
  end.

End Openstack.

(** ** The expect/respond library, as the steps use it *)

Module Pexpect.

Local Open Scope py_scope.

(** An entry of the list given to [expect]: a regular expression or the
    end-of-stream marker [pexpect.EOF]. *)
Inductive pattern : Type :=
| Re (source : string)
| EOF.

(** What a run reads through its successive calls of [expect], for the
    runs in which the loop of calls ends: a call matches the regular
    expression at [index] of the list after reading [incoming] from the
    stream, leaving the bytes ahead of the match in [before]; or the stream
    ends, the bytes read and not consumed going to [before]; or nothing
    matches in time and [TIMEOUT] is raised with text [value]. *)
Inductive session : Type :=
| Matched (index : nat) (incoming before : string) (rest : session)
| Eof (incoming before : string)
| TimedOut (incoming value : string).

(** A spawned process behind its terminal: what the next call of [expect]
    reads from it, and how it goes on given all that has been written to it
    by then.  What it shows may so depend on what it is sent, as it does
    when the terminal echoes. *)
Inductive process : Type :=
| Shows (index : nat) (incoming before : string) (next : string -> process)
| Ends (incoming before : string)
| Stalls (incoming value : string).

(** The process that goes through [s] whatever is written to it. *)
Fixpoint scripted (s : session) : process :=
  match s with
  | Matched index incoming b rest =>
      Shows index incoming b (fun _ => scripted rest)
  | Eof incoming b => Ends incoming b
  | TimedOut incoming value => Stalls incoming value
  end.

(** The session read from [p] by a loop that writes [reply index] after
    the match at [index], [written] having been written before. *)
Fixpoint follow (reply : nat -> string) (written : string) (p : process)
  : session :=
  match p with
  | Shows index incoming b next =>
      Matched index incoming b
              (follow reply (written +:+ reply index)
                      (next (written +:+ reply index)))
  | Ends incoming b => Eof incoming b
  | Stalls incoming value => TimedOut incoming value
  end.

(** The attributes of a [spawn] object the steps touch, and what was
    written to the process. *)
Record spawn : Type := mkSpawn {
  logfile : option string;
  logfile_read : option string;
  logfile_send : option string;
  before : string;
  stdin : string
}.

(** The machine the steps run on: its files by path, the spawned child,
    what the programs it starts answer, and the exit status a program
    leaves once closed, given what was written to it ([None] when a signal
    ended it). *)
Record Host : Type := mkHost {
  files : gmap string string;
  child : spawn;
  spawn_script : string -> list string -> process;
  exit_status : string -> list string -> string -> option Z
}.

Definition with_files (f : gmap string string -> gmap string string)
           (h : Host) : Host :=
  mkHost (f (files h)) (child h) (spawn_script h) (exit_status h).

Definition with_child (f : spawn -> spawn) (h : Host) : Host :=
  mkHost (files h) (f (child h)) (spawn_script h) (exit_status h).

Inductive direction : Type := Send | Read.

(** [f.write(data)] on the file opened at [path]. *)
Definition write (path data : string) : M Host unit :=
  modify (with_files
            (fun fs => <[path := default EmptyString (fs !! path) +:+ data]> fs)).

Definition write_to (sink : option string) (data : string) : M Host unit :=
  match sink with
  | Some path => write path data
  | None => ret tt
  end.

(** [spawn._log(s, direction)]: the common sink gets both directions, the
    second sink is chosen by the direction. *)
Definition _log (data : string) (d : direction) : M Host unit :=
  c <~ gets child ;;
  write_to (logfile c) data ;;;
  write_to (match d with Send => logfile_send c | Read => logfile_read c end)
           data.

(** [open(path, "wb+")]: the file is created or emptied. *)
Definition open_wb (path : string) : M Host unit :=
  modify (with_files (insert path EmptyString)).

(** [pexpect.spawn(command, args, timeout)]: a new child with no sink
    attached, nothing written to it yet; the process is the program
    started. *)
Definition spawn_child (command : string) (args : list string)
  : M Host process :=
  modify (with_child (fun _ => mkSpawn None None None EmptyString EmptyString)) ;;;
  gets (fun h => spawn_script h command args).

Definition set_logfile_read (path : string) : M Host unit :=
  modify (with_child (fun c =>
    mkSpawn (logfile c) (Some path) (logfile_send c) (before c) (stdin c))).

Definition set_before (b : string) : M Host unit :=
  modify (with_child (fun c =>
    mkSpawn (logfile c) (logfile_read c) (logfile_send c) b (stdin c))).

Definition linesep : string := String (Ascii.ascii_of_nat 10) EmptyString.

(** [child.sendline(s)]: the line is logged as sent, then written to the
    process. *)
Definition sendline (s : string) : M Host unit :=
  _log (s +:+ linesep) Send ;;;
  modify (with_child (fun c =>
    mkSpawn (logfile c) (logfile_read c) (logfile_send c) (before c)
            (stdin c +:+ s +:+ linesep))).

(** Position of [pexpect.EOF] in a list of patterns. *)
Fixpoint eof_index (l : list pattern) : option nat :=
  match l with
  | [] => None
  | EOF :: _ => Some O
  | Re _ :: l' => S <$> eof_index l'
  end.

(** One call [child.expect(l)] on the process as it stands: what was read
    is logged as read, [before] is set, and the index of the entry that
    matched is returned; the end of the stream is an exception unless
    [pexpect.EOF] is in the list. *)
Definition expect (l : list pattern) (p : process) : M Host nat :=
  match p with
  | Shows index incoming b _ =>
      _log incoming Read ;;; set_before b ;;; ret index
  | Ends incoming b =>
      _log incoming Read ;;; set_before b ;;;
      match eof_index l with
      | Some index => ret index
      | None => raise (EOFException "End Of File (EOF).")
      end
  | Stalls incoming value =>
      _log incoming Read ;;; raise (TIMEOUT value)
  end.

(** All that has been written to the process so far. *)
Definition written : M Host string := gets (fun h => stdin (child h)).

(** The process once [written] has been written to it, after a call of
    [expect] that returned. *)
Definition after (p : process) (written : string) : process :=
  match p with
  | Shows _ _ _ next => next written
  | Ends _ _ | Stalls _ _ => p
  end.

(** [child.close()] followed by [child.exitstatus], for the program started
    as [command] with [args]. *)
Definition close (command : string) (args : list string)
  : M Host (option Z) :=
  gets (fun h => exit_status h command args (stdin (child h))).

(** The text read from the process by a loop of [expect] calls that
    leaves at index [stop]. *)
Fixpoint read_until (stop : nat) (s : session) : string :=
  match s with
  | Matched index incoming _ rest =>
      if Nat.eqb index stop then incoming
      else incoming +:+ read_until stop rest
  | Eof incoming _ => incoming
  | TimedOut incoming _ => incoming
  end.

(** The child logs what it reads, and only that, to the file at [log]. *)
Definition read_sink (log : string) (h : Host) : Prop :=
  logfile (child h) = None
  /\ logfile_send (child h) = None
  /\ logfile_read (child h) = Some log.

(** The host after [data] has been read with [before] left at [b]. *)
Definition received (log data content b : string) (h : Host) : Host :=
  with_child (fun c => mkSpawn (logfile c) (logfile_read c) (logfile_send c)
                               b (stdin c))
             (with_files (<[log := content +:+ data]>) h).

(** The host after the line [x] has been sent. *)
Definition sent (x : string) (h : Host) : Host :=
  with_child (fun c => mkSpawn (logfile c) (logfile_read c) (logfile_send c)
                               (before c) (stdin c +:+ x +:+ linesep))
             h.

(** The text of the [TIMEOUT] exception a loop of [expect] calls that leaves
    at index [stop] runs into, if it does. *)
Fixpoint timeout_text (stop : nat) (s : session) : option string :=
  match s with
  | Matched index _ _ rest =>
      if Nat.eqb index stop then None else timeout_text stop rest
  | Eof _ _ => None
  | TimedOut _ value => Some value
  end.

(** The text in [before] when a loop of [expect] calls that leaves at index
    [stop] meets the end of the stream, if it does. *)
Fixpoint eof_text (stop : nat) (s : session) : option string :=
  match s with
  | Matched index _ b rest =>
      if Nat.eqb index stop then Some b else eof_text stop rest
  | Eof _ b => Some b
  | TimedOut _ _ => None
  end.

End Pexpect.

(** ** Parsed output of the juju command line *)

Module Json.

(** A value produced by [json.loads]; an object keeps its members in
    order. *)
#[local] Unset Elimination Schemes.
Inductive json : Type :=
| JNull
| JBool (b : bool)
| JNum (z : Z)
| JStr (s : string)
| JList (l : list json)
| JDict (d : list (string * json)).
#[local] Set Elimination Schemes.

(** [bool(j)]. *)
Definition json_truthy (j : json) : bool :=
  match j with
  | JNull => false
  | JBool b => b
  | JNum z => negb (z =? 0)%Z
  | JStr s => truthy s
  | JList l => match l with [] => false | _ => true end
  | JDict d => match d with [] => false | _ => true end
  end.

(** [j == s] for a [str] [s]. *)
Definition is_str (s : string) (j : json) : bool :=
  match j with
  | JStr t => String.eqb s t
  | _ => false
  end.

(** First member of an object under [key]. *)
Fixpoint member (key : string) (d : list (string * json)) : option json :=
  match d with
  | [] => None
  | (k, v) :: d' => if String.eqb key k then Some v else member key d'
  end.

Fixpoint chars (s : string) : list json :=
  match s with
  | EmptyString => []
  | String a s' => JStr (String a EmptyString) :: chars s'
  end.

(** [for x in j]. *)
Definition py_iter (j : json) : outcome (list json) :=
  match j with
  | JList l => Returns l
  | JDict d => Returns ((fun kv => JStr (fst kv)) <$> d)
  | JStr s => Returns (chars s)
  | _ => Raises (TypeError "object is not iterable")
  end.

(** [j.get(key, dflt)]. *)
Definition py_get_default (j : json) (key : string) (dflt : json)
  : outcome json :=
  match j with
  | JDict d => Returns (default dflt (member key d))
  | _ => Raises (AttributeError "object has no attribute 'get'")
  end.

(** [j.get(key)]. *)
Definition py_get (j : json) (key : string) : outcome json :=
  py_get_default j key JNull.

(** [j[key]] for a [str] [key]. *)
Definition py_getitem (j : json) (key : string) : outcome json :=
  match j with
  | JDict d =>
      match member key d with
      | Some v => Returns v
      | None => Raises (KeyError key)
      end
  | _ => Raises (TypeError "indices must be integers or object is not subscriptable")
  end.

(** [j.items()]. *)
Definition py_items (j : json) : outcome (list (string * json)) :=
  match j with
  | JDict d => Returns d
  | _ => Raises (AttributeError "object has no attribute 'items'")
  end.

(** [j.keys()]. *)
Definition py_keys (j : json) : outcome (list string) :=
  match j with
  | JDict d => Returns (fst <$> d)
  | _ => Raises (AttributeError "object has no attribute 'keys'")
  end.

(** [x in j] for a [str] [x]. *)
Definition py_in (x : string) (j : json) : outcome bool :=
  match j with
  | JList l => Returns (existsb (is_str x) l)
  | JDict d => Returns (existsb (fun kv => String.eqb x (fst kv)) d)
  | JStr s => Returns (contains x s)
  | _ => Raises (TypeError "argument is not iterable")
  end.

(** [[f(x) for x in l]]. *)
Fixpoint comprehension {A B} (f : A -> outcome B) (l : list A)
  : outcome (list B) :=
  match l with
  | [] => Returns []
  | x :: l' =>
      match f x with
      | Returns y =>
          match comprehension f l' with
          | Returns ys => Returns (y :: ys)
          | Raises e => Raises e
          end
      | Raises e => Raises e
      end
  end.

End Json.

(** ** Juju steps ([sunbeam/commands/juju.py]) *)

Module Juju.

Import Json Pexpect.
Local Open Scope py_scope.

Definition PEXPECT_TIMEOUT : Z := 60.

(** Modelled from the spec: the local account record of
    [sunbeam/jobs/juju.py], of which the steps read the user name and the
    password. *)
Record JujuAccount : Type := mkAccount {
  user : string;
  password : string
}.

(** What the steps ask of their surroundings: the controller model name
    ([CONTROLLER_MODEL] of [sunbeam/jobs/juju.py]), the path of the juju
    binary ([_get_juju_binary()]), the snap's common directory, the result
    of running a command and parsing its standard output as JSON, the
    account found under a directory, and the store's answers about a juju
    user and about a cluster member. *)
Record Env : Type := mkEnv {
  CONTROLLER_MODEL : string;
  juju_binary : string;
  user_common : string;
  run_json : list string -> outcome json;
  load_account : string -> outcome JujuAccount;
  get_juju_user : string -> outcome json;
  get_node_info : string -> outcome Clusterd.Node
}.

(** [str(n)] for an [int]. *)
Definition str_of_int (z : Z) : string :=
  NilZero.string_of_int (Z.to_int z).

Definition result (t : ResultType) : Result := mkResult t None.

Definition result_msg (t : ResultType) (m : string) : Result :=
  mkResult t (Some m).

(** A [try] statement either falls through with a value ([inl]) or meets a
    [return] ([inr]). *)
Definition falls {S A} (a : A) : M S (A + Result) := ret (inl a).
Definition returns {S A} (r : Result) : M S (A + Result) := ret (inr r).

(** [except subprocess.CalledProcessError as e:
     return Result(ResultType.FAILED, str(e))]. *)
Definition except_CalledProcessError {S A} (e : exn)
  : option (M S (A + Result)) :=
  match e with
  | CalledProcessError _ _ => Some (returns (result_msg FAILED (str e)))
  | _ => None
  end.

(** [JujuStepHelper._juju_cmd]. *)
Definition _juju_cmd (env : Env) (args : list string) : outcome json :=
  run_json env ([juju_binary env] ++ args ++ ["--format"; "json"])%list.

(** The loop of [JujuStepHelper.get_clouds]. *)
Fixpoint clouds_of_type (cloud_type : string) (items : list (string * json))
  : outcome (list string) :=
  match items with
  | [] => Returns []
  | (name, details) :: items' =>
      match py_getitem details "type" with
      | Returns t =>
          match clouds_of_type cloud_type items' with
          | Returns clouds =>
              Returns (if is_str cloud_type t then name :: clouds else clouds)
          | Raises e => Raises e
          end
      | Raises e => Raises e
      end
  end.

(** [JujuStepHelper.get_clouds]. *)
Definition get_clouds (env : Env) (cloud_type : string) (local : bool)
  : outcome (list string) :=
  let cmd := (["clouds"] ++ (if local then ["--client"] else []))%list in
  match _juju_cmd env cmd with
  | Returns clouds_from_juju_cmd =>
      match py_keys clouds_from_juju_cmd with
      | Returns _ =>
          match py_items clouds_from_juju_cmd with
          | Returns items => clouds_of_type cloud_type items
          | Raises e => Raises e
          end
      | Raises e => Raises e
      end
  | Raises e => Raises e
  end.

(** [JujuStepHelper.get_credentials]. *)
Definition get_credentials (env : Env) (cloud : option string) (local : bool)
  : outcome json :=
  let cmd := (["credentials"] ++ (if local then ["--client"] else [])
              ++ (match cloud with
                  | Some c => if truthy c then [c] else []
                  | None => []
                  end))%list in
  _juju_cmd env cmd.

(** [JujuStepHelper.get_controller]. *)
Definition get_controller (env : Env) (controller : string) : outcome json :=
  match _juju_cmd env ["show-controller"; controller] with
  | Returns j => py_getitem j controller
  | Raises (CalledProcessError _ _) => Raises ControllerNotFoundException
  | Raises e => Raises e
  end.

(** Look for the machine that has [ip] among its addresses, as the loops
    over [machines.items()] do. *)
Fixpoint machine_with_ip (ip : string) (items : list (string * json))
  : outcome (option string) :=
  match items with
  | [] => Returns None
  | (machine, details) :: items' =>
      match py_get details "ip-addresses" with
      | Returns addresses =>
          match py_in ip addresses with
          | Returns true => Returns (Some machine)
          | Returns false => machine_with_ip ip items'
          | Raises e => Raises e
          end
      | Raises e => Raises e
      end
  end.

(** *** AddCloudJujuStep *)

(** The cloud to add and, from its definition, the type declared for each
    cloud ([definition["clouds"][name]["type"]]). *)
Record AddCloudJujuStep : Type := mkAddCloud {
  add_cloud_cloud : string;
  add_cloud_types : list (string * string)
}.

Definition AddCloudJujuStep_is_skip (env : Env) : M AddCloudJujuStep Result :=
  self <~ gets id ;;
  cloud_type <~
    lift (match list_find (fun kv => String.eqb (add_cloud_cloud self) (fst kv))
                          (add_cloud_types self) with
          | Some (_, (_, t)) => Returns t
          | None => Raises (KeyError (add_cloud_cloud self))
          end) ;;
  tried <~
    try_except
      (juju_clouds <~ lift (get_clouds env cloud_type true) ;;
       falls juju_clouds)
      except_CalledProcessError ;;
  match tried with
  | inr r => ret r
  | inl juju_clouds =>
      if Openstack.list_in (add_cloud_cloud self) juju_clouds
      then ret (result SKIPPED)
      else ret (result COMPLETED)
  end.

(** *** AddCredentialsJujuStep *)

Record AddCredentialsJujuStep : Type := mkAddCredentials {
  add_credentials_cloud : string;
  credentials_name : string
}.

Definition AddCredentialsJujuStep_is_skip (env : Env)
  : M AddCredentialsJujuStep Result :=
  self <~ gets id ;;
  tried <~
    try_except
      (credentials <~
         lift (get_credentials env (Some (add_credentials_cloud self)) true) ;;
       falls credentials)
      except_CalledProcessError ;;
  match tried with
  | inr r => ret r
  | inl credentials =>
      client_creds <~
        lift (py_get_default credentials "client-credentials" (JDict [])) ;;
      of_cloud <~
        lift (py_get_default client_creds (add_credentials_cloud self)
                (JDict [])) ;;
      cloud_credentials <~
        lift (py_get_default of_cloud "cloud-credentials" (JDict [])) ;;
      if negb (json_truthy cloud_credentials)
      then ret (result COMPLETED)
      else
        present <~ lift (py_in (credentials_name self) cloud_credentials) ;;
        if negb present then ret (result COMPLETED)
        else ret (result SKIPPED)
  end.

(** *** BootstrapJujuStep *)

Record BootstrapJujuStep : Type := mkBootstrap {
  bootstrap_cloud : string;
  cloud_type : string;
  bootstrap_controller : string;
  juju_clouds : list string
}.

Definition set_juju_clouds (l : list string) (s : BootstrapJujuStep) :=
  mkBootstrap (bootstrap_cloud s) (cloud_type s) (bootstrap_controller s) l.

(** [repr] of a [str] that needs no escaping. *)
Definition repr (s : string) : string := "'" +:+ s +:+ "'".

Definition BootstrapJujuStep_is_skip (env : Env) : M BootstrapJujuStep Result :=
  self <~ gets id ;;
  tried <~
    try_except
      (clouds <~ lift (get_clouds env (cloud_type self) false) ;;
       modify (set_juju_clouds clouds) ;;;
       falls tt)
      except_CalledProcessError ;;
  match tried with
  | inr r => ret r
  | inl _ =>
      self <~ gets id ;;
      if negb (Openstack.list_in (bootstrap_cloud self) (juju_clouds self))
      then ret (result_msg FAILED
                  ("Cloud " +:+ bootstrap_cloud self +:+ " of type "
                   +:+ repr (cloud_type self) +:+ " not found."))
      else
        tried <~
          try_except
            (_ <~ lift (get_controller env (bootstrap_controller self)) ;;
             returns (result SKIPPED))
            (fun e => match e with
                      | ControllerNotFoundException => Some (falls tt)
                      | _ => None
                      end) ;;
        match tried with
        | inr r => ret r
        | inl _ => ret (result COMPLETED)
        end
  end.

(** *** CreateJujuUserStep and RemoveJujuUserStep *)

(** [[user.get("user-name") for user in users]]. *)
Definition user_names_of (users : json) : outcome (list json) :=
  match py_iter users with
  | Returns l => comprehension (fun user => py_get user "user-name") l
  | Raises e => Raises e
  end.

Definition CreateJujuUserStep_is_skip (env : Env) : M string Result :=
  username <~ gets id ;;
  tried <~
    try_except
      (users <~ lift (_juju_cmd env ["list-users"]) ;;
       user_names <~ lift (user_names_of users) ;;
       if existsb (is_str username) user_names
       then returns (result SKIPPED)
       else falls tt)
      except_CalledProcessError ;;
  match tried with
  | inr r => ret r
  | inl _ => ret (result COMPLETED)
  end.

Definition RemoveJujuUserStep_is_skip (env : Env) : M string Result :=
  username <~ gets id ;;
  tried <~
    try_except
      (users <~ lift (_juju_cmd env ["list-users"]) ;;
       user_names <~ lift (user_names_of users) ;;
       if negb (existsb (is_str username) user_names)
       then returns (result SKIPPED)
       else falls tt)
      except_CalledProcessError ;;
  match tried with
  | inr r => ret r
  | inl _ => ret (result COMPLETED)
  end.

(** *** The reaction to the end of the stream, shared by both loops *)

(** How an iteration of a [while True] loop ends. *)
Inductive flow : Type :=
| Continue
| Break
| Return (r : Result).

(** The branch taken at the index of [pexpect.EOF]. *)
Definition on_eof : M Host flow :=
  raw <~ gets (fun h => before (child h)) ;;
  result <~ lift (decode raw) ;;
  if contains "ERROR" result
  then
    let str_index := find "ERROR" result in
    ret (Return (result_msg FAILED (slice_from str_index result)))
  else ret Break.

(** One more turn of a loop is asked for after the last call of [expect]
    the session describes.  No loop below gets there: the end of the
    stream is answered by leaving the loop, and a timeout is raised. *)
Definition past_the_end {A} : M Host A :=
  raise (OtherException "expect called past the end of the session").

(** What [on_eof] makes of the text decoded from [before]. *)
Definition eof_outcome (text : string) : option Result :=
  if contains "ERROR" text
  then Some (result_msg FAILED (slice_from (find "ERROR" text) text))
  else None.

(** What [on_eof] makes of the bytes in [before]. *)
Definition at_eof (raw : string) : outcome (option Result) :=
  match decode raw with
  | Returns text => Returns (eof_outcome text)
  | Raises e => Raises e
  end.

(** How a loop of [expect] calls that leaves at index [stop] ends. *)
Fixpoint loop_outcome (stop : nat) (s : session) : outcome (option Result) :=
  match s with
  | Matched index _ b rest =>
      if Nat.eqb index stop then at_eof b
      else loop_outcome stop rest
  | Eof _ b => at_eof b
  | TimedOut _ value => Raises (TIMEOUT value)
  end.

(** *** RegisterJujuUserStep *)

Record RegisterJujuUserStep : Type := mkRegister {
  username : string;
  controller : string;
  data_location : string;
  replace : bool;
  registration_token : json;
  juju_account : option JujuAccount
}.

Definition set_juju_account (a : JujuAccount) (s : RegisterJujuUserStep) :=
  mkRegister (username s) (controller s) (data_location s) (replace s)
             (registration_token s) (Some a).

Definition set_registration_token (t : json) (s : RegisterJujuUserStep) :=
  mkRegister (username s) (controller s) (data_location s) (replace s)
             t (juju_account s).

Definition RegisterJujuUserStep_is_skip (env : Env)
  : M RegisterJujuUserStep Result :=
  self <~ gets id ;;
  tried <~
    try_except
      (account <~ lift (load_account env (data_location self)) ;;
       modify (set_juju_account account) ;;;
       falls account)
      (fun e => match e with
                | JujuAccountNotFound _ =>
                    Some (returns (result_msg FAILED
                                     "Account was not registered locally"))
                | _ => None
                end) ;;
  match tried with
  | inr r => ret r
  | inl account =>
      tried <~
        try_except
          (user <~ lift (_juju_cmd env ["show-user"]) ;;
           _ <~ lift (py_getitem user "user-name") ;;
           name <~ lift (py_getitem user "user-name") ;;
           if is_str (Juju.user account) name
           then returns (result SKIPPED)
           else falls tt)
          (fun e => match e with
                    | CalledProcessError _ stderr =>
                        if negb (contains "No controllers registered" stderr)
                        then Some (returns (result_msg FAILED (str e)))
                        else Some (falls tt)
                    | _ => None
                    end) ;;
      match tried with
      | inr r => ret r
      | inl _ =>
          user <~ lift (get_juju_user env (username self)) ;;
          token <~ lift (py_get user "token") ;;
          modify (set_registration_token token) ;;;
          ret (result COMPLETED)
      end
  end.

Definition new_password_re : string := "Enter a new password".
Definition confirm_password_re : string := "Confirm password".
Definition controller_name_re : string := "Enter a name for this controller".
Definition please_enter_password_re : string := "please enter password".

Definition register_expect_list : list pattern :=
  [Re new_password_re; Re confirm_password_re; Re controller_name_re;
   Re please_enter_password_re; EOF].

(** The body of the loop of [RegisterJujuUserStep.run] after [expect]. *)
Definition register_react (self : RegisterJujuUserStep) (index : nat)
  : M Host flow :=
  if Nat.eqb index 0 || Nat.eqb index 1 || Nat.eqb index 3
  then
    match juju_account self with
    | Some account => sendline (password account) ;;; ret Continue
    | None =>
        raise (AttributeError "'NoneType' object has no attribute 'password'")
    end
  else if Nat.eqb index 2
  then sendline (controller self) ;;; ret Continue
  else if Nat.eqb index 4
  then on_eof
  else ret Continue.

(** The [while True] loop of [RegisterJujuUserStep.run]: [Some r] is a
    [return r] from inside the loop, [None] is [break].  The process goes
    on from what has been written to it. *)
Fixpoint register_loop (self : RegisterJujuUserStep) (p : process)
  : M Host (option Result) :=
  index <~ expect register_expect_list p ;;
  next <~ register_react self index ;;
  match next with
  | Return r => ret (Some r)
  | Break => ret None
  | Continue =>
      match p with
      | Shows _ _ _ rest =>
          sent_so_far <~ written ;;
          register_loop self (rest sent_so_far)
      | _ => past_the_end
      end
  end.

(** What [register_react] writes to the process at [index]. *)
Definition register_reply (self : RegisterJujuUserStep) (index : nat)
  : string :=
  if Nat.eqb index 0 || Nat.eqb index 1 || Nat.eqb index 3
  then match juju_account self with
       | Some account => password account +:+ linesep
       | None => EmptyString
       end
  else if Nat.eqb index 2
  then controller self +:+ linesep
  else EmptyString.

(** What the registration loop writes to the process over a session. *)
Fixpoint register_input (password controller : string) (s : session) : string :=
  match s with
  | Matched index _ _ rest =>
      if Nat.eqb index 0 || Nat.eqb index 1 || Nat.eqb index 3
      then password +:+ linesep +:+ register_input password controller rest
      else if Nat.eqb index 2
      then controller +:+ linesep +:+ register_input password controller rest
      else if Nat.eqb index 4 then EmptyString
      else register_input password controller rest
  | _ => EmptyString
  end.

Definition register_log_file (env : Env) (self : RegisterJujuUserStep)
  : string :=
  user_common env +:+ "/" +:+ "register_juju_user_" +:+ username self
  +:+ "_" +:+ controller self +:+ ".log".

Definition no_token_message : string :=
  "No registration token found in Cluster database".

(** What [RegisterJujuUserStep.run] makes of the way its loop ends. *)
Definition register_result (o : outcome (option Result)) : outcome Result :=
  match o with
  | Returns (Some r) => Returns r
  | Returns None => Returns (result COMPLETED)
  | Raises (TIMEOUT value) => Returns (result_msg FAILED value)
  | Raises e => Raises e
  end.

(** The process of the registration command on a host. *)
Definition register_process (env : Env) (self : RegisterJujuUserStep)
           (token : string) (h : Host) : process :=
  spawn_script h (juju_binary env)
    (["register"; token] ++ (if replace self then ["--replace"] else []))%list.

(** The session the registration goes through on a host, the step
    answering as it does. *)
Definition register_session (env : Env) (self : RegisterJujuUserStep)
           (token : string) (h : Host) : session :=
  follow (register_reply self) EmptyString (register_process env self token h).

(** [RegisterJujuUserStep.run]. *)
Definition RegisterJujuUserStep_run (env : Env) (self : RegisterJujuUserStep)
  : M Host Result :=
  if negb (json_truthy (registration_token self))
  then ret (result_msg FAILED no_token_message)
  else
    let log_file := register_log_file env self in
    token <~ lift (match registration_token self with
                   | JStr t => Returns t
                   | _ => Raises (TypeError "expected str")
                   end) ;;
    let register_args :=
      (["register"; token] ++ (if replace self then ["--replace"] else []))%list in
    returned <~
      try_except
        (s <~ spawn_child (juju_binary env) register_args ;;
         open_wb log_file ;;;
         set_logfile_read log_file ;;;
         register_loop self s)
        (fun e => match e with
                  | TIMEOUT _ => Some (ret (Some (result_msg FAILED (str e))))
                  | _ => None
                  end) ;;
    match returned with
    | Some r => ret r
    | None => ret (result COMPLETED)
    end.

(** *** AddJujuMachineStep *)

Definition AddJujuMachineStep_is_skip (env : Env) : M string Result :=
  machine_ip <~ gets id ;;
  tried <~
    try_except
      (machines <~ lift (_juju_cmd env ["machines"; "-m"; CONTROLLER_MODEL env]) ;;
       machines <~ lift (py_get_default machines "machines" (JDict [])) ;;
       items <~ lift (py_items machines) ;;
       found <~ lift (machine_with_ip machine_ip items) ;;
       match found with
       | Some machine => returns (result_msg SKIPPED machine)
       | None => falls tt
       end)
      except_CalledProcessError ;;
  match tried with
  | inr r => ret r
  | inl _ => ret (result COMPLETED)
  end.

Definition auth_message_re : string :=
  "Are you sure you want to continue connecting".

Definition add_machine_expect_list : list pattern :=
  [Re auth_message_re; EOF].

Definition add_machine_react (index : nat) : M Host flow :=
  if Nat.eqb index 0
  then sendline "yes" ;;; ret Continue
  else if Nat.eqb index 1
  then on_eof
  else ret Continue.

Fixpoint add_machine_loop (p : process) : M Host (option Result) :=
  index <~ expect add_machine_expect_list p ;;
  next <~ add_machine_react index ;;
  match next with
  | Return r => ret (Some r)
  | Break => ret None
  | Continue =>
      match p with
      | Shows _ _ _ rest =>
          sent_so_far <~ written ;;
          add_machine_loop (rest sent_so_far)
      | _ => past_the_end
      end
  end.

(** What [add_machine_react] writes to the process at [index]. *)
Definition add_machine_reply (index : nat) : string :=
  if Nat.eqb index 0 then "yes" +:+ linesep else EmptyString.

Definition add_machine_log_file (env : Env) (machine_ip : string) : string :=
  user_common env +:+ "/" +:+ "add_juju_machine_" +:+ machine_ip +:+ ".log".

Definition timed_out_message : string := "TIMED OUT to add machine".

(** The process of the enrolment command on a host. *)
Definition add_machine_process (env : Env) (machine_ip : string) (h : Host)
  : process :=
  spawn_script h (juju_binary env)
    ["add-machine"; "-m"; CONTROLLER_MODEL env; "ssh:" +:+ machine_ip].

(** The session the enrolment goes through on a host. *)
Definition add_machine_session (env : Env) (machine_ip : string) (h : Host)
  : session :=
  follow add_machine_reply EmptyString (add_machine_process env machine_ip h).

(** [AddJujuMachineStep.run]. *)
Definition AddJujuMachineStep_run (env : Env) (machine_ip : string)
  : M Host Result :=
  let log_file := add_machine_log_file env machine_ip in
  try_except
    (s <~ spawn_child (juju_binary env)
            ["add-machine"; "-m"; CONTROLLER_MODEL env; "ssh:" +:+ machine_ip] ;;
     open_wb log_file ;;;
     set_logfile_read log_file ;;;
     returned <~ add_machine_loop s ;;
     match returned with
     | Some r => ret r
     | None =>
         machines <~ lift (_juju_cmd env ["machines"; "-m"; CONTROLLER_MODEL env]) ;;
         machines <~ lift (py_get_default machines "machines" (JDict [])) ;;
         items <~ lift (py_items machines) ;;
         found <~ lift (machine_with_ip machine_ip items) ;;
         match found with
         | Some machine => ret (result_msg COMPLETED machine)
         | None => ret (result_msg COMPLETED "-1")
         end
     end)
    (fun e => match e with
              | TIMEOUT _ => Some (ret (result_msg FAILED timed_out_message))
              | _ => None
              end).

(** *** RemoveJujuMachineStep *)

Record RemoveJujuMachineStep : Type := mkRemoveMachine {
  remove_machine_name : string;
  machine_id : Z
}.

Definition RemoveJujuMachineStep_is_skip (env : Env)
  : M RemoveJujuMachineStep Result :=
  self <~ gets id ;;
  tried <~
    try_except
      (node <~ lift (get_node_info env (remove_machine_name self)) ;;
       modify (fun s => mkRemoveMachine (remove_machine_name s)
                                        (Clusterd.machineid node)) ;;;
       falls tt)
      (fun e => match e with
                | NodeNotExistInClusterException _ =>
                    Some (returns (result_msg FAILED (str e)))
                | _ => None
                end) ;;
  match tried with
  | inr r => ret r
  | inl _ =>
      self <~ gets id ;;
      tried <~
        try_except
          (machines <~ lift (_juju_cmd env ["machines"; "-m"; CONTROLLER_MODEL env]) ;;
           machines <~ lift (py_get_default machines "machines" (JDict [])) ;;
           present <~ lift (py_in (str_of_int (machine_id self)) machines) ;;
           if negb present
           then returns (result SKIPPED)
           else falls tt)
          except_CalledProcessError ;;
      match tried with
      | inr r => ret r
      | inl _ => ret (result COMPLETED)
      end
  end.

(** *** BackupBootstrapUserStep *)

Definition BackupBootstrapUserStep_is_skip (env : Env) : M unit Result :=
  tried <~
    try_except
      (user <~ lift (_juju_cmd env ["show-user"]) ;;
       _ <~ lift (py_getitem user "user-name") ;;
       name <~ lift (py_getitem user "user-name") ;;
       if is_str "admin" name
       then returns (result COMPLETED)
       else falls tt)
      except_CalledProcessError ;;
  match tried with
  | inr r => ret r
  | inl _ => ret (result SKIPPED)
  end.

(** *** JujuLoginStep *)

Definition login_expect_list : list pattern :=
  [Re "^please enter password"; Re "{}"; EOF].

(** [JujuLoginStep.is_skip]: one call of [expect] on the output of
    [juju show-user]. *)
Definition JujuLoginStep_is_skip (env : Env) (account : option JujuAccount)
  : M Host Result :=
  match account with
  | None => ret (result SKIPPED)
  | Some _ =>
      let cmd := juju_binary env +:+ " " +:+ "show-user" in
      s <~ spawn_child cmd [] ;;
      tried <~
        try_except
          (index <~ expect login_expect_list s ;; falls index)
          (fun e => match e with
                    | TIMEOUT _ => Some (returns (result_msg FAILED (str e)))
                    | _ => None
                    end) ;;
      match tried with
      | inr r => ret r
      | inl index =>
          if Nat.eqb index 0 || Nat.eqb index 1
          then ret (result COMPLETED)
          else if Nat.eqb index 2
          then ret (result SKIPPED)
          else ret (result COMPLETED)
      end
  end.

Definition login_cmd (env : Env) (a : JujuAccount) : string :=
  juju_binary env +:+ " " +:+ "login" +:+ " " +:+ "--user" +:+ " " +:+ user a.

(** [JujuLoginStep.run]: the password is sent at the prompt, the end of the
    stream is awaited and the exit status decides; a stream that ends ahead
    of the prompt gets out as the exception [pexpect.EOF].  No file is
    opened and no sink attached to the process. *)
Definition JujuLoginStep_run (env : Env) (account : option JujuAccount)
  : M Host Result :=
  match account with
  | None =>
      ret (result_msg FAILED
             "Juju account was supposed to be checked for in is_skip method.")
  | Some a =>
      let cmd := login_cmd env a in
      process <~ spawn_child cmd [] ;;
      tried <~
        try_except
          (_ <~ expect [Re "^please enter password"] process ;;
           sendline (password a) ;;;
           sent_so_far <~ written ;;
           _ <~ expect [EOF] (after process sent_so_far) ;;
           exitstatus <~ close cmd [] ;;
           falls exitstatus)
          (fun e => match e with
                    | TIMEOUT _ => Some (returns (result_msg FAILED (str e)))
                    | _ => None
                    end) ;;
      match tried with
      | inr r => ret r
      | inl exitstatus =>
          if negb (bool_decide (exitstatus = Some 0%Z))
          then ret (result_msg FAILED "Failed to login to Juju Controller")
          else ret (result COMPLETED)
      end
  end.

(** *** The skip checks built on a juju query *)

(** The skip checks that run a juju command under a clause catching
    [subprocess.CalledProcessError], each with the attributes of its step. *)
Inductive skip_check : Type :=
| CheckAddCloud (self : AddCloudJujuStep)
| CheckAddCredentials (self : AddCredentialsJujuStep)
| CheckBootstrap (self : BootstrapJujuStep)
| CheckCreateJujuUser (username : string)
| CheckRemoveJujuUser (username : string)
| CheckRegisterJujuUser (self : RegisterJujuUserStep)
| CheckAddJujuMachine (machine_ip : string)
| CheckRemoveJujuMachine (self : RemoveJujuMachineStep)
| CheckBackupBootstrapUser.

(** The query of a skip check, as the arguments given to [_juju_cmd]. *)
Definition query (env : Env) (c : skip_check) : list string :=
  match c with
  | CheckAddCloud _ => ["clouds"; "--client"]
  | CheckAddCredentials self =>
      "credentials" :: "--client"
      :: (if truthy (add_credentials_cloud self)
          then [add_credentials_cloud self] else [])
  | CheckBootstrap _ => ["clouds"]
  | CheckCreateJujuUser _ | CheckRemoveJujuUser _ => ["list-users"]
  | CheckRegisterJujuUser _ | CheckBackupBootstrapUser => ["show-user"]
  | CheckAddJujuMachine _ | CheckRemoveJujuMachine _ =>
      ["machines"; "-m"; CONTROLLER_MODEL env]
  end.

(** What a skip check answers. *)
Definition check (env : Env) (c : skip_check) : outcome Result :=
  match c with
  | CheckAddCloud self => fst (AddCloudJujuStep_is_skip env self)
  | CheckAddCredentials self => fst (AddCredentialsJujuStep_is_skip env self)
  | CheckBootstrap self => fst (BootstrapJujuStep_is_skip env self)
  | CheckCreateJujuUser username => fst (CreateJujuUserStep_is_skip env username)
  | CheckRemoveJujuUser username => fst (RemoveJujuUserStep_is_skip env username)
  | CheckRegisterJujuUser self => fst (RegisterJujuUserStep_is_skip env self)
  | CheckAddJujuMachine machine_ip =>
      fst (AddJujuMachineStep_is_skip env machine_ip)
  | CheckRemoveJujuMachine self => fst (RemoveJujuMachineStep_is_skip env self)
  | CheckBackupBootstrapUser => fst (BackupBootstrapUserStep_is_skip env tt)
  end.

(** What a skip check needs to get as far as its query: the type of the
    cloud is declared, the local account is found, the node is known to the
    cluster. *)
Definition reaches_query (env : Env) (c : skip_check) : Prop :=
  match c with
  | CheckAddCloud self =>
      exists t, In (add_cloud_cloud self, t) (add_cloud_types self)
  | CheckRegisterJujuUser self =>
      exists account, load_account env (data_location self) = Returns account
  | CheckRemoveJujuMachine self =>
      exists node, get_node_info env (remove_machine_name self) = Returns node
  | _ => True
  end.

(** The failure a skip check takes for a harmless one. *)
Definition benign (c : skip_check) (stderr : string) : bool :=
  match c with
  | CheckRegisterJujuUser _ => contains "No controllers registered" stderr
  | _ => false
  end.

End Juju.

(** ** Concrete deployments, hosts and processes *)

Module Examples.

Import Clusterd Openstack Json Pexpect Juju.

(** A cluster member named [n] with both the control and the compute role. *)
Definition converged_node (n : string) : Node :=
  mkNode n ["control"; "compute"] 0.

(** A cluster with the given members and configuration items on a host with
    16 GiB of RAM. *)
Definition cluster (l : list Node) (items : gmap string dict) : World :=
  mkWorld (mkClient l items) 16777216 [].

Definition one_name : list string := ["node-1"].

Definition six_names : list string :=
  ["node-1"; "node-2"; "node-3"; "node-4"; "node-5"; "node-6"].

Definition nine_names : list string :=
  (six_names ++ ["node-7"; "node-8"; "node-9"])%list.

Definition twelve_names : list string :=
  (nine_names ++ ["node-10"; "node-11"; "node-12"])%list.

(** Collaborators that all answer, except that the applications do not get
    active in time; the threshold is 32 GiB in kB. *)
Definition slow_apps : Ext :=
  mkExt 33554432 "microceph" "-creds" "csi-rawfile-default" (fun d => d)
        (fun _ => Returns 3%Z)
        (fun _ _ => Returns tt)
        (fun _ => Returns ["keystone"; "cinder-ceph"; "nova"])
        (fun _ _ _ => Raises (TimeoutException "timed out waiting for apps"))
        (fun _ => false).

(** A deployment of one node whose persisted database topology is
    ["single"]. *)
Definition single_deployment : World :=
  cluster (converged_node <$> one_name)
          {[ TOPOLOGY_KEY := <["database" := "single"]> {["topology" := "single"]} ]}.

(** A deployment of three nodes whose persisted database topology is
    ["multi"]. *)
Definition multi_deployment : World :=
  cluster (converged_node <$> ["node-1"; "node-2"; "node-3"])
          {[ TOPOLOGY_KEY := <["database" := "multi"]> {["topology" := "multi"]} ]}.

(** A planning run that asks for the database topology [db]. *)
Definition plan (db : string) : DeployControlPlaneStep :=
  mkDeploy "auto" db "controller" ∅ false OPENSTACK_MODEL "sunbeam-microk8s".

Definition refused : exn :=
  CalledProcessError
    "Command returned non-zero exit status 1."
    "ERROR cannot connect to API: dial tcp 10.0.0.1:17070: connect: connection refused".

Definition an_account : JujuAccount := mkAccount "ubuntu" "s3cret-one".
Definition another_account : JujuAccount := mkAccount "ubuntu" "s3cret-two".

(** Surroundings in which no juju command gets through to the controller. *)
Definition unreachable : Env :=
  mkEnv "admin/controller" "/snap/openstack/current/juju/bin/juju"
        "/home/ubuntu/snap/openstack/common"
        (fun _ => Raises refused)
        (fun _ => Returns an_account)
        (fun _ => Returns (JDict [("username", JStr "ubuntu"); ("token", JStr "abc")]))
        (fun n => Returns (mkNode n ["control"] 0)).

(** Surroundings in which the clouds can be listed and every other juju
    command fails to reach the controller. *)
Definition only_clouds : Env :=
  mkEnv "admin/controller" "/snap/openstack/current/juju/bin/juju"
        "/home/ubuntu/snap/openstack/common"
        (fun cmd =>
           if bool_decide (cmd = ["/snap/openstack/current/juju/bin/juju";
                                  "clouds"; "--format"; "json"])
           then Returns (JDict [("sunbeam", JDict [("type", JStr "manual")])])
           else Raises refused)
        (fun _ => Returns an_account)
        (fun _ => Returns (JDict [("username", JStr "ubuntu"); ("token", JStr "abc")]))
        (fun n => Returns (mkNode n ["control"] 0)).

Definition bootstrap : BootstrapJujuStep :=
  mkBootstrap "sunbeam" "manual" "sunbeam-controller" [].

(** A registration with a token and a local account. *)
Definition registration (a : JujuAccount) : RegisterJujuUserStep :=
  mkRegister "ubuntu" "sunbeam-controller" "/home/ubuntu/snap/openstack/common"
             false (JStr "abc") (Some a).

(** A host on which every spawned command goes through the session [s],
    whatever is written to it. *)
Definition host (s : session) : Host :=
  mkHost ∅ (mkSpawn None None None EmptyString EmptyString)
         (fun _ _ => scripted s) (fun _ _ _ => Some 0%Z).

(** The process asks for a new password, then ends with an error. *)
Definition bad_token : session :=
  Matched 0 "Enter a new password: " EmptyString
    (Eof "juju: ERROR: bad token" "juju: ERROR: bad token").

(** The process asks for a new password, then stays silent. *)
Definition silent : session :=
  Matched 0 "Enter a new password: " EmptyString
    (TimedOut EmptyString "Timeout exceeded.").

(** The process ends at once with the byte [0xff] ahead of its error, which
    is no UTF-8. *)
Definition garbled_bytes : string :=
  String (Ascii.ascii_of_nat 255) "ERROR: bad token".

Definition garbled : session := Eof garbled_bytes garbled_bytes.

(** A host on which every spawned command is the process [p]. *)
Definition terminal (p : process) : Host :=
  mkHost ∅ (mkSpawn None None None EmptyString EmptyString) (fun _ _ => p)
         (fun _ _ _ => Some 0%Z).

(** The process asks for a new password on a terminal that echoes: the
    bytes written to it come back ahead of its last word. *)
Definition echoing : process :=
  Shows 0 "Enter a new password: " EmptyString
        (fun written => Ends (written +:+ "done") (written +:+ "done")).

End Examples.

(** ** Load-balancer annotations ([PatchLoadBalancerServicesStep]) *)

Module Kube.

Import Clusterd.
Local Open Scope py_scope.

Definition SERVICES : list string :=
  ["traefik"; "traefik-public"; "rabbitmq"; "ovn-relay"].

(** What the step reads of a Kubernetes service: [metadata.annotations],
    which may be absent, and the addresses of
    [status.loadBalancer.ingress]. *)
Record Service : Type := mkService {
  annotations : option dict;
  ingress : option (list string)
}.

(** The store and the services of the model's namespace, by name. *)
Record Cluster : Type := mkCluster {
  store : Client;
  services : gmap string Service
}.

(** The Kubernetes helper ([sunbeam/commands/k8s.py], not part of this
    file) as the step uses it: the key of the kubeconfig item, the name of
    the load-balancer annotation, and the creation of a client from a
    kubeconfig, which gives [Some msg] when it raises [ConfigError(msg)]. *)
Record KubeExt : Type := mkKubeExt {
  get_kubeconfig_key : string;
  get_loadbalancer_annotation : string;
  KubeClient : dict -> option string
}.

(** The attributes the skip check sets on the step. *)
Record PatchLoadBalancerServicesStep : Type := mkPatch {
  kubeconfig : option dict;
  kube : bool
}.

Definition on_store {A} (m : M Client A) : M Cluster A :=
  fun c => match m (store c) with
           | (o, st) => (o, mkCluster st (services c))
           end.

(** [self.kube.get(Service, name)]. *)
Definition kube_get (name : string) : M Cluster Service :=
  fun c => match services c !! name with
           | Some svc => (Returns svc, c)
           | None => (Raises (OtherException "ApiError"), c)
           end.

(** [self.kube.patch(Service, name, obj=service)]. *)
Definition kube_patch (name : string) (obj : Service) : M Cluster unit :=
  modify (fun c => mkCluster (store c) (<[name := obj]> (services c))).

(** [annotation not in service.metadata.annotations]. *)
Definition not_annotated (annotation : string) (svc : Service) : outcome bool :=
  match annotations svc with
  | Some a => Returns (bool_decide (a !! annotation = None))
  | None => Raises (TypeError "argument of type 'NoneType' is not iterable")
  end.

(** [service.status.loadBalancer.ingress[0].ip]. *)
Definition first_ingress_ip (svc : Service) : outcome string :=
  match ingress svc with
  | Some (ip :: _) => Returns ip
  | Some [] => Raises (OtherException "IndexError")
  | None => Raises (TypeError "'NoneType' object is not subscriptable")
  end.

(** The loop of [is_skip]: [Some r] is the [return r] met inside. *)
Fixpoint check_services (annotation : string) (names : list string)
  : M Cluster (option Result) :=
  match names with
  | [] => ret None
  | service_name :: rest =>
      service <~ kube_get service_name ;;
      missing <~ lift (not_annotated annotation service) ;;
      if missing then ret (Some (mkResult COMPLETED None))
      else check_services annotation rest
  end.

(** The loop of [run]. *)
Fixpoint patch_services (annotation : string) (names : list string)
  : M Cluster unit :=
  match names with
  | [] => ret tt
  | service_name :: rest =>
      service <~ kube_get service_name ;;
      missing <~ lift (not_annotated annotation service) ;;
      (if missing
       then
         loadbalancer_ip <~ lift (first_ingress_ip service) ;;
         kube_patch service_name
           (mkService
              (Some (<[annotation := loadbalancer_ip]>
                       (default ∅ (annotations service))))
              (ingress service))
       else ret tt) ;;;
      patch_services annotation rest
  end.

(** [PatchLoadBalancerServicesStep.is_skip]. *)
Definition is_skip (ext : KubeExt)
  : M (PatchLoadBalancerServicesStep * Cluster) Result :=
  tried <~
    try_except
      (cfg <~ on_world (on_store (read_config (get_kubeconfig_key ext))) ;;
       set_self (fun s => mkPatch (Some cfg) (kube s)) ;;;
       ret (inl cfg))
      (fun e => match e with
                | ConfigItemNotFoundException =>
                    Some (ret (inr (mkResult FAILED
                                      (Some "K8S kubeconfig not found"))))
                | _ => None
                end) ;;
  match tried with
  | inr r => ret r
  | inl cfg =>
      match KubeClient ext cfg with
      | Some msg => ret (mkResult FAILED (Some msg))
      | None =>
          set_self (fun s => mkPatch (kubeconfig s) true) ;;;
          found <~
            on_world (check_services (get_loadbalancer_annotation ext)
                                     SERVICES) ;;
          match found with
          | Some r => ret r
          | None => ret (mkResult SKIPPED None)
          end
      end
  end.

(** [PatchLoadBalancerServicesStep.run]; [self.kube] exists only once the
    skip check has created the client. *)
Definition run (ext : KubeExt)
  : M (PatchLoadBalancerServicesStep * Cluster) Result :=
  self <~ get_self ;;
  if kube self
  then
    on_world (patch_services (get_loadbalancer_annotation ext) SERVICES) ;;;
    ret (mkResult COMPLETED None)
  else
    raise (AttributeError
             "'PatchLoadBalancerServicesStep' object has no attribute 'kube'").

(** The service [name] carries the annotation. *)
Definition annotated (annotation : string) (c : Cluster) (name : string)
  : Prop :=
  exists svc a,
    services c !! name = Some svc /\ annotations svc = Some a
    /\ is_Some (a !! annotation).

(** From [c] to [c'] nothing happened but annotating services that lacked
    the annotation with their first ingress address. *)
Definition only_annotated (annotation : string) (c c' : Cluster) : Prop :=
  store c' = store c
  /\ forall name,
      services c' !! name = services c !! name
      \/ exists svc a ip ips,
          services c !! name = Some svc /\ annotations svc = Some a
          /\ a !! annotation = None /\ ingress svc = Some (ip :: ips)
          /\ services c' !! name
             = Some (mkService (Some (<[annotation := ip]> a)) (ingress svc)).

End Kube.

(** ** Charm URLs and channels ([JujuStepHelper], [sunbeam/commands/juju.py]) *)

Module Charm.

Import Stdlib.Strings.Ascii.

(** [s.split(sep)] for a separator of one character: the first piece and
    the pieces after it. *)
Fixpoint split_pieces (sep : Ascii.ascii) (s : string) : string * list string :=
  match s with
  | EmptyString => (EmptyString, [])
  | String a s' =>
      let (piece, pieces) := split_pieces sep s' in
      if Ascii.eqb a sep then (EmptyString, piece :: pieces)
      else (String a piece, pieces)
  end.

Definition split (sep : Ascii.ascii) (s : string) : list string :=
  let (piece, pieces) := split_pieces sep s in piece :: pieces.

Arguments split sep%_char s.

(** The text before and the text after the last [sep] of [s], when [sep]
    occurs in [s]. *)
Fixpoint rpartition (sep : Ascii.ascii) (s : string) : option (string * string) :=
  match s with
  | EmptyString => None
  | String a s' =>
      match rpartition sep s' with
      | Some (b, t) => Some (String a b, t)
      | None => if Ascii.eqb a sep then Some (EmptyString, s') else None
      end
  end.

Arguments rpartition sep%_char s.

(** [s.rsplit(sep, maxsplit=1)]. *)
Definition rsplit1 (sep : Ascii.ascii) (s : string) : list string :=
  match rpartition sep s with
  | Some (b, t) => [b; t]
  | None => [s]
  end.

Arguments rsplit1 sep%_char s.

(** [l[-1]] and [l[0]]. *)
Definition item_last (l : list string) : outcome string :=
  match last l with
  | Some x => Returns x
  | None => Raises (OtherException "IndexError")
  end.

Definition item_first (l : list string) : outcome string :=
  match l with
  | x :: _ => Returns x
  | [] => Raises (OtherException "IndexError")
  end.

Definition risks : list string := ["stable"; "candidate"; "beta"; "edge"].

(** [JujuStepHelper.normalise_channel]. *)
Definition normalise_channel (channel : string) : string :=
  if Openstack.list_in channel ["stable"; "candidate"; "beta"; "edge"]
  then "latest/" +:+ channel
  else channel.

(** [JujuStepHelper._extract_charm_name]. *)
Definition _extract_charm_name (charm_url : string) : outcome string :=
  match item_last (split "/" charm_url) with
  | Returns segment => item_first (rsplit1 "-" segment)
  | Raises e => Raises e
  end.

(** [JujuStepHelper._extract_charm_revision]. *)
Definition _extract_charm_revision (charm_url : string) : outcome string :=
  item_last (split "-" charm_url).

(** [a, b = l]. *)
Definition unpack2 (l : list string) : outcome (string * string) :=
  match l with
  | [a; b] => Returns (a, b)
  | [] => Raises (ValueError "not enough values to unpack (expected 2, got 0)")
  | [_] => Raises (ValueError "not enough values to unpack (expected 2, got 1)")
  | _ => Raises (ValueError "too many values to unpack (expected 2)")
  end.

(** [l.index(x)]. *)
Fixpoint index (x : string) (l : list string) : outcome nat :=
  match l with
  | [] => Raises (ValueError ("'" +:+ x +:+ "' is not in list"))
  | y :: l' =>
      if String.eqb x y then Returns O
      else match index x l' with
           | Returns i => Returns (S i)
           | Raises e => Raises e
           end
  end.

(** The [packaging.version] module as the comparison of tracks uses it:
    [parse] gives [None] when it raises [InvalidVersion], and [lt] is [<]
    on versions. *)
Record Packaging : Type := mkPackaging {
  Version : Type;
  parse : string -> option Version;
  lt : Version -> Version -> bool
}.

(** [JujuStepHelper.channel_update_needed]. *)
Definition channel_update_needed (version : Packaging)
           (channel new_channel : string) : outcome bool :=
  let current_channel := normalise_channel channel in
  match unpack2 (split "/" current_channel) with
  | Raises e => Raises e
  | Returns (current_track, current_risk) =>
      match unpack2 (split "/" new_channel) with
      | Raises e => Raises e
      | Returns (new_track, new_risk) =>
          if negb (String.eqb current_track new_track)
          then
            match parse version current_track with
            | None => Returns false
            | Some current =>
                match parse version new_track with
                | None => Returns false
                | Some new => Returns (lt version current new)
                end
            end
          else
            match index current_risk risks with
            | Raises e => Raises e
            | Returns i =>
                match index new_risk risks with
                | Raises e => Raises e
                | Returns j => Returns (i <? j)%nat
                end
            end
      end
  end.

(** [sep] does not occur in [s]. *)
Fixpoint free_of (sep : Ascii.ascii) (s : string) : bool :=
  match s with
  | EmptyString => true
  | String a s' => negb (Ascii.eqb a sep) && free_of sep s'
  end.

Arguments free_of sep%_char s.

(** The URL of revision [revision] of the charm [name] for [series], such
    as [ch:amd64/jammy/cinder-k8s-50]. *)
Definition charm_url (series name revision : string) : string :=
  series +:+ "/" +:+ name +:+ "-" +:+ revision.

End Charm.

(** ** The juju steps that run commands ([sunbeam/commands/juju.py]) *)

Module Commands.

Import Stdlib.Strings.Ascii Json Juju Charm.
Local Open Scope py_scope.

(** The commands run so far, and the lines of the debug log that show a
    command before it is run. *)
Record Shell : Type := mkShell {
  ran : list (list string);
  shown : list string
}.

(** What the commands answer on their standard output, given the commands
    run before; a command that exits with an error raises
    [CalledProcessError]. *)
Definition answers : Type := list (list string) -> list string -> outcome string.

(** [subprocess.run(cmd, capture_output=True, text=True, check=True)]. *)
Definition subprocess_run (answer : answers) (cmd : list string)
  : M Shell string :=
  fun sh => (answer (ran sh) cmd, mkShell (ran sh ++ [cmd])%list (shown sh)).

(** [sep.join(l)]. *)
Fixpoint join (sep : string) (l : list string) : string :=
  match l with
  | [] => EmptyString
  | [x] => x
  | x :: l' => x +:+ sep +:+ join sep l'
  end.

(** [LOG.debug(f'Running command {" ".join(cmd)}')]. *)
Definition show_command (cmd : list string) : M Shell unit :=
  modify (fun sh => mkShell (ran sh)
                            (shown sh ++ ["Running command " +:+ join " " cmd])%list).

Definition except_CalledProcessError_failed {S} (e : exn)
  : option (M S Result) :=
  match e with
  | CalledProcessError _ _ => Some (ret (result_msg FAILED (str e)))
  | _ => None
  end.

(** *** BootstrapJujuStep.run *)

(** The [--config] arguments a proxy setting adds. *)
Definition proxy_config (proxy_settings : Clusterd.dict) (key : string)
           (options : list string) : list string :=
  match proxy_settings !! key with
  | Some value =>
      concat ((fun option => ["--config"; option +:+ "=" +:+ value]) <$> options)
  | None => []
  end.

(** The command of the bootstrap. *)
Definition bootstrap_cmd (env : Env) (self : BootstrapJujuStep)
           (bootstrap_args : list string) (proxy_settings : Clusterd.dict)
  : list string :=
  ([juju_binary env; "bootstrap"]
   ++ bootstrap_args
   ++ [bootstrap_cloud self; bootstrap_controller self]
   ++ proxy_config proxy_settings "HTTP_PROXY"
        ["juju-http-proxy"; "snap-http-proxy"]
   ++ proxy_config proxy_settings "HTTPS_PROXY"
        ["juju-https-proxy"; "snap-https-proxy"]
   ++ proxy_config proxy_settings "NO_PROXY" ["juju-no-proxy"])%list.

(** The body of the loop that builds [hidden_cmd]. *)
Definition hide (arg : string) : outcome string :=
  if contains "admin-secret" arg
  then
    match unpack2 (split "=" arg) with
    | Returns (option, _) => Returns (option +:+ "=" +:+ "********")
    | Raises e => Raises e
    end
  else Returns arg.

(** [BootstrapJujuStep.run]; [bootstrap_args] and [proxy_settings] are the
    attributes of the step of these names. *)
Definition BootstrapJujuStep_run (env : Env) (answer : answers)
           (self : BootstrapJujuStep) (bootstrap_args : list string)
           (proxy_settings : Clusterd.dict) : M Shell Result :=
  try_except
    (let cmd := bootstrap_cmd env self bootstrap_args proxy_settings in
     hidden_cmd <~ lift (comprehension hide cmd) ;;
     show_command hidden_cmd ;;;
     _ <~ subprocess_run answer cmd ;;
     ret (result COMPLETED))
    except_CalledProcessError_failed.

(** *** CreateJujuUserStep.run *)

Definition registration_prefix : string := "juju register ".

Definition line_feed : Ascii.ascii := Ascii.ascii_of_nat 10.

(** The text of [s] ahead of its first line feed, when it has one: the
    group of [(.*?)\n] matched at the start of [s]. *)
Fixpoint up_to_line_feed (s : string) : option string :=
  match s with
  | EmptyString => None
  | String a s' =>
      if Ascii.eqb a line_feed then Some EmptyString
      else String a <$> up_to_line_feed s'
  end.

(** [re.search(r"juju register (.*?)\n", stdout, re.MULTILINE)] and the
    group 1 of the match: the search matches at the first occurrence of the
    prefix when a line feed follows it, and nowhere when none does, a later
    occurrence having no line feed after it either. *)
Definition search_registration_token (stdout : string) : option string :=
  match lowest_index registration_prefix stdout with
  | Some i =>
      up_to_line_feed (string_drop (i + String.length registration_prefix) stdout)
  | None => None
  end.

Definition add_user_cmd (env : Env) (username : string) : list string :=
  [juju_binary env; "add-user"; username].

Definition grant_superuser_cmd (env : Env) (username : string) : list string :=
  [juju_binary env; "grant"; username; "superuser"].

Definition grant_admin_cmd (env : Env) (username : string) : list string :=
  [juju_binary env; "grant"; username; "admin"; CONTROLLER_MODEL env].

(** [CreateJujuUserStep.run]. *)
Definition CreateJujuUserStep_run (env : Env) (answer : answers)
           (username : string) : M Shell Result :=
  try_except
    (show_command (add_user_cmd env username) ;;;
     stdout <~ subprocess_run answer (add_user_cmd env username) ;;
     token <~
       lift (match search_registration_token stdout with
             | Some token => Returns token
             | None =>
                 Raises (AttributeError
                           "'NoneType' object has no attribute 'group'")
             end) ;;
     if negb (truthy token)
     then ret (result_msg FAILED "Not able to parse registration token")
     else
       show_command (grant_superuser_cmd env username) ;;;
       _ <~ subprocess_run answer (grant_superuser_cmd env username) ;;
       show_command (grant_admin_cmd env username) ;;;
       _ <~ subprocess_run answer (grant_admin_cmd env username) ;;
       ret (result_msg COMPLETED token))
    except_CalledProcessError_failed.

(** *** RemoveJujuMachineStep.run *)

Definition no_machine_id_message : string :=
  "Not able to retrieve machine id from Cluster database".

Definition remove_machine_cmd (env : Env) (machine_id : Z) : list string :=
  [juju_binary env; "remove-machine"; "-m"; CONTROLLER_MODEL env;
   str_of_int machine_id; "--no-prompt"].

(** [RemoveJujuMachineStep.run]. *)
Definition RemoveJujuMachineStep_run (env : Env) (answer : answers)
           (self : RemoveJujuMachineStep) : M Shell Result :=
  try_except
    (if (machine_id self =? -1)%Z
     then ret (result_msg FAILED no_machine_id_message)
     else
       show_command (remove_machine_cmd env (machine_id self)) ;;;
       _ <~ subprocess_run answer (remove_machine_cmd env (machine_id self)) ;;
       ret (result COMPLETED))
    except_CalledProcessError_failed.

(** The step as [__init__] leaves it. *)
Definition new_remove_machine (name : string) : RemoveJujuMachineStep :=
  mkRemoveMachine name (-1).

(** [hidden] is [arg] as the debug log shows it. *)
Definition shown_as (arg hidden : string) : Prop :=
  (contains "admin-secret" arg = false /\ hidden = arg)
  \/ (contains "admin-secret" arg = true
      /\ exists option secret,
          arg = option +:+ "=" +:+ secret
          /\ free_of "=" option = true /\ free_of "=" secret = true
          /\ hidden = option +:+ "=********").

End Commands.

(** ** Machines, clouds and users as the juju steps read them *)

Module Listing.

Import Json Juju.

(** [ip in details.get("ip-addresses")]. *)
Definition has_ip (ip : string) (details : json) : outcome bool :=
  match py_get details "ip-addresses" with
  | Returns addresses => py_in ip addresses
  | Raises e => Raises e
  end.

(** [details["type"] == cloud_type], when [details["type"]] can be read. *)
Definition has_type (cloud_type : string) (details : json) : bool :=
  match py_getitem details "type" with
  | Returns t => is_str cloud_type t
  | Raises _ => false
  end.

(** The query of the machines of the controller model. *)
Definition machines_query (env : Env) : list string :=
  ["machines"; "-m"; CONTROLLER_MODEL env].

End Listing.

(** ** Further deployments and collaborators *)

Module Scenarios.

Import Clusterd Openstack Examples.

(** Collaborators whose Terraform apply fails; everything else answers. *)
Definition failing_apply : Ext :=
  mkExt 33554432 "microceph" "-creds" "csi-rawfile-default" (fun d => d)
        (fun _ => Returns 3%Z)
        (fun _ _ => Raises (TerraformException "terraform apply failed"))
        (fun _ => Returns ["keystone"; "cinder-ceph"; "nova"])
        (fun _ _ _ => Returns tt)
        (fun _ => false).

(** Collaborators whose count of OSDs cannot be obtained. *)
Definition no_osds : Ext :=
  mkExt 33554432 "microceph" "-creds" "csi-rawfile-default" (fun d => d)
        (fun _ => Raises (OtherException "LeaderNotFoundException"))
        (fun _ _ => Returns tt)
        (fun _ => Returns ["keystone"; "cinder-ceph"; "nova"])
        (fun _ _ _ => Returns tt)
        (fun _ => true).

(** A cluster member named [n] that only stores. *)
Definition storage_node (n : string) : Node := mkNode n ["storage"] 0.

(** A plan whose topologies are resolved. *)
Definition resolved_plan : DeployControlPlaneStep :=
  mkDeploy "multi" "multi" "controller" ∅ false OPENSTACK_MODEL "sunbeam-microk8s".

(** The MicroK8s helper ([sunbeam/commands/microk8s.py]): the key of the
    kubeconfig item and the MetalLB annotation; every kubeconfig gives a
    client. *)
Definition metallb : Kube.KubeExt :=
  Kube.mkKubeExt "Microk8sConfig" "metallb.universe.tf/loadBalancerIPs"
                 (fun _ => None).

Definition kubeconfig_item : dict := {["current-context" := "microk8s"]}.

Definition kube_store : Client :=
  mkClient [] {["Microk8sConfig" := kubeconfig_item]}.

(** A service with an address and no annotation, and one whose address is
    pinned by the annotation. *)
Definition exposed (ip : string) : Kube.Service :=
  Kube.mkService (Some ∅) (Some [ip]).

Definition pinned (ip : string) : Kube.Service :=
  Kube.mkService (Some {["metallb.universe.tf/loadBalancerIPs" := ip]})
                 (Some [ip]).

(** The services of a model of which only the first is pinned. *)
Definition fresh_services : Kube.Cluster :=
  Kube.mkCluster kube_store
    (<["traefik" := pinned "10.20.21.10"]>
       (<["traefik-public" := exposed "10.20.21.11"]>
          (<["rabbitmq" := exposed "10.20.21.12"]>
             {["ovn-relay" := exposed "10.20.21.13"]}))).

(** The services of a model, all pinned. *)
Definition pinned_services : Kube.Cluster :=
  Kube.mkCluster kube_store
    (<["traefik" := pinned "10.20.21.10"]>
       (<["traefik-public" := pinned "10.20.21.11"]>
          (<["rabbitmq" := pinned "10.20.21.12"]>
             {["ovn-relay" := pinned "10.20.21.13"]}))).

(** The step as its skip check leaves it, and as it is created. *)
Definition checked_patch : Kube.PatchLoadBalancerServicesStep :=
  Kube.mkPatch (Some kubeconfig_item) true.

Definition new_patch : Kube.PatchLoadBalancerServicesStep :=
  Kube.mkPatch None false.

(** Tracks compared as texts, which orders the release tracks such as
    ["2023.1"] and ["2023.2"]; the empty text is no version. *)
Definition by_text : Charm.Packaging :=
  Charm.mkPackaging string (fun s => if truthy s then Some s else None)
                    String.ltb.

(** What juju lists of the machines of the controller model. *)
Definition two_machines : Json.json :=
  Json.JDict
    [("machines",
      Json.JDict
        [("0", Json.JDict [("ip-addresses", Json.JList [Json.JStr "10.0.0.5"])]);
         ("1", Json.JDict [("ip-addresses", Json.JList [Json.JStr "10.0.0.6"])])])].

(** Surroundings in which every juju query gets the machine listing, the
    store knows each node as machine 1, and the user of the store has no
    token. *)
Definition enrolled : Juju.Env :=
  Juju.mkEnv "admin/controller" "/snap/openstack/current/juju/bin/juju"
             "/home/ubuntu/snap/openstack/common"
             (fun _ => Returns two_machines)
             (fun _ => Returns an_account)
             (fun _ => Returns (Json.JDict [("username", Json.JStr "ubuntu")]))
             (fun n => Returns (mkNode n ["control"] 1)).

(** Surroundings of a host that has no controller registered yet. *)
Definition first_contact : Juju.Env :=
  Juju.mkEnv "admin/controller" "/snap/openstack/current/juju/bin/juju"
             "/home/ubuntu/snap/openstack/common"
             (fun _ => Raises (CalledProcessError
                                 "Command returned non-zero exit status 1."
                                 "ERROR No controllers registered."))
             (fun _ => Returns an_account)
             (fun _ => Returns (Json.JDict [("username", Json.JStr "ubuntu")]))
             (fun n => Returns (mkNode n ["control"] 1)).

(** A registration as [__init__] leaves it. *)
Definition new_registration : Juju.RegisterJujuUserStep :=
  Juju.mkRegister "ubuntu" "sunbeam-controller"
                  "/home/ubuntu/snap/openstack/common" false Json.JNull None.

(** Its skip check done on [first_contact]. *)
Definition checked_registration : Juju.RegisterJujuUserStep :=
  Juju.mkRegister "ubuntu" "sunbeam-controller"
                  "/home/ubuntu/snap/openstack/common" false Json.JNull
                  (Some an_account).

(** The process ends without an error. *)
Definition quiet_end : Pexpect.session :=
  Pexpect.Eof "created machine 1" "created machine 1".

(** Commands that all succeed and print nothing. *)
Definition all_succeed : Commands.answers := fun _ _ => Returns EmptyString.

Definition nothing_ran : Commands.Shell := Commands.mkShell [] [].

(** Arguments of a bootstrap that set the admin secret. *)
Definition secret_args : list string := ["--config"; "admin-secret=s3cret"].

(** The same with a secret that holds an ["="]. *)
Definition odd_secret_args : list string :=
  ["--config"; "admin-secret=s3=cret"].

End Scenarios.

(** * Properties *)

(** ** Capacity planner *)

Section PlannerFacts.

Import Planner.
Local Open Scope Z_scope.

Lemma eqb_literal (a b : string) : a = b -> String.eqb a b = true.
Proof. intros ->. apply String.eqb_refl. Qed.

Lemma neqb_literal (a b : string) : a <> b -> String.eqb a b = false.
Proof. intros H. now apply String.eqb_neq. Qed.

Example api_scale_large_2 : compute_os_api_scale "large" 2 = Returns 2.
Proof. reflexivity. Qed.

Example api_scale_single_2 : compute_os_api_scale "single" 2 = Returns 1.
Proof. reflexivity. Qed.

Example ha_scale_examples :
  compute_ha_scale "single" 5 = 1 /\ compute_ha_scale "multi" 5 = 3
  /\ compute_ha_scale "multi" 2 = 1.
Proof. repeat split. Qed.

(** C1, as the rule is worded, fails: a topology that is none of the three
    names does not make the function raise when there are fewer than three
    control nodes, and ["large"] with two control nodes gives 2, not
    [min (2 + 2) 7 = 4]. *)
Lemma api_scale_unknown_topology_small :
  compute_os_api_scale "xlarge" 2 = Returns 2
  /\ compute_os_api_scale "large" 2 = Returns 2
  /\ ~ (forall topology control_nodes,
          topology <> "single" -> topology <> "multi" -> topology <> "large" ->
          exists e, compute_os_api_scale topology control_nodes = Raises e)
  /\ ~ (forall control_nodes,
          compute_os_api_scale "large" control_nodes
          = Returns (Z.min (control_nodes + 2) 7)).
Proof.
  split; [reflexivity|]. split; [reflexivity|]. split.
  - intros H. destruct (H "xlarge" 2) as [e He]; try discriminate.
  - intros H. specialize (H 2). discriminate.
Qed.

(** C1 (amended): the clauses of the API scale apply in order.  ["single"]
    gives 1; ["multi"], and ["large"] with fewer than three control nodes,
    give [min control_nodes 3]; ["large"] with three control nodes or more
    gives [min (control_nodes + 2) 7]; any other topology with three control
    nodes or more raises [ValueError] with the text "Unknown topology"
    followed by the value. *)
Theorem compute_os_api_scale_cases (topology : string) (control_nodes : Z) :
  (topology = "single" ->
     compute_os_api_scale topology control_nodes = Returns 1)
  /\ (topology = "multi" \/ (topology = "large" /\ control_nodes < 3) ->
       compute_os_api_scale topology control_nodes
       = Returns (Z.min control_nodes 3))
  /\ (topology = "large" /\ 3 <= control_nodes ->
       compute_os_api_scale topology control_nodes
       = Returns (Z.min (control_nodes + 2) 7))
  /\ (topology <> "single" /\ topology <> "multi" /\ topology <> "large"
       /\ 3 <= control_nodes ->
       compute_os_api_scale topology control_nodes
       = Raises (ValueError ("Unknown topology " +:+ topology)))
  /\ compute_os_api_scale "large" 10 = Returns 7
  /\ compute_os_api_scale "large" 3 = Returns 5
  /\ compute_os_api_scale "multi" 2 = Returns 2.
Proof.
  unfold compute_os_api_scale.
  split; [|split; [|split; [|split; [|repeat split]]]].
  - intros ->. reflexivity.
  - intros [-> | [-> Hlt]]; [reflexivity|].
    apply Z.ltb_lt in Hlt. simpl. now rewrite Hlt.
  - intros [-> Hge]. apply Z.ltb_ge in Hge. simpl. now rewrite Hge.
  - intros (Hs & Hm & Hl & Hge).
    rewrite (neqb_literal _ _ Hs), (neqb_literal _ _ Hm), (neqb_literal _ _ Hl).
    apply Z.ltb_ge in Hge. now rewrite Hge.
Qed.

End PlannerFacts.

(** ** Target topology *)

Section TopologyFacts.

Import Clusterd Openstack.
Local Open Scope Z_scope.

Variable ext : Ext.

Lemma determine_target_topology_eq (w : World) :
  determine_target_topology ext w
  = (Returns
       (if (Z.of_nat (size (combined w)) =? 1)
           && (host_total_ram w <? RAM_32_GB_IN_KB ext)
        then "single"
        else if Z.of_nat (size (combined w)) <? 10 then "multi" else "large"),
     w).
Proof.
  unfold determine_target_topology, combined, bind, gets, ret. simpl.
  destruct (_ && _); [reflexivity|].
  destruct (_ <? 10); reflexivity.
Qed.

(** C4: the target topology is ["single"] for exactly one combined node and
    host RAM below the threshold, otherwise ["multi"] below ten combined
    nodes, otherwise ["large"]; the world is only read. *)
Theorem determine_target_topology_rules (w : World) :
  let n := Z.of_nat (size (combined w)) in
  let below := host_total_ram w < RAM_32_GB_IN_KB ext in
  snd (determine_target_topology ext w) = w
  /\ (n = 1 /\ below ->
       fst (determine_target_topology ext w) = Returns "single")
  /\ (~ (n = 1 /\ below) /\ n < 10 ->
       fst (determine_target_topology ext w) = Returns "multi")
  /\ (~ (n = 1 /\ below) /\ 10 <= n ->
       fst (determine_target_topology ext w) = Returns "large")
  /\ (n = 9 -> fst (determine_target_topology ext w) = Returns "multi")
  /\ (n = 12 -> fst (determine_target_topology ext w) = Returns "large").
Proof.
  intros n below. subst n below.
  rewrite determine_target_topology_eq. simpl.
  split; [reflexivity|].
  split; [|split; [|split; [|split]]].
  - intros [H1 H2]. apply Z.eqb_eq in H1. apply Z.ltb_lt in H2.
    now rewrite H1, H2.
  - intros [Hn Hlt].
    destruct (Z.eqb_spec (Z.of_nat (size (combined w))) 1) as [E|E];
      destruct (Z.ltb_spec (host_total_ram w) (RAM_32_GB_IN_KB ext)) as [L|L];
      simpl; try (exfalso; apply Hn; split; assumption);
      apply Z.ltb_lt in Hlt; now rewrite Hlt.
  - intros [Hn Hge].
    destruct (Z.eqb_spec (Z.of_nat (size (combined w))) 1) as [E|E];
      destruct (Z.ltb_spec (host_total_ram w) (RAM_32_GB_IN_KB ext)) as [L|L];
      simpl; try (exfalso; apply Hn; split; assumption);
      apply Z.ltb_ge in Hge; now rewrite Hge.
  - intros ->. reflexivity.
  - intros ->. reflexivity.
Qed.

Lemma names_app (l l' : list Node) : names (l ++ l') = names l ∪ names l'.
Proof. unfold names. rewrite fmap_app. apply list_to_set_app_L. Qed.

Lemma size_names (l : list Node) :
  NoDup (name <$> l) -> size (names l) = length l.
Proof.
  intros H. unfold names. rewrite size_list_to_set by assumption.
  apply length_fmap.
Qed.

Lemma size_names_remove_dups (l : list Node) :
  size (names l) = length (remove_dups (name <$> l)).
Proof.
  unfold names.
  rewrite <- (size_list_to_set (C := gset string) (remove_dups (name <$> l)))
    by apply NoDup_remove_dups.
  f_equal. apply set_eq. intros x.
  rewrite !elem_of_list_to_set. symmetry. apply elem_of_remove_dups.
Qed.

Lemma filter_none {A : Type} (P : A -> Prop) `{!forall x, Decision (P x)}
      (l : list A) :
  (forall x, x ∈ l -> ~ P x) -> filter P l = [].
Proof.
  induction l as [|a l IH]; intros Hl; [reflexivity|].
  rewrite filter_cons_False by (apply Hl; left).
  apply IH. intros x Hx. apply Hl. now right.
Qed.

Lemma filter_all {A : Type} (P : A -> Prop) `{!forall x, Decision (P x)}
      (l : list A) :
  (forall x, x ∈ l -> P x) -> filter P l = l.
Proof.
  induction l as [|a l IH]; intros Hl; [reflexivity|].
  rewrite filter_cons_True by (apply Hl; left).
  f_equal. apply IH. intros x Hx. apply Hl. now right.
Qed.

(** The nodes of [l'] whose name no node of [l] bears. *)
Lemma size_names_app (l l' : list Node) :
  NoDup (name <$> l) -> NoDup (name <$> l') ->
  size (names (l ++ l'))
  = (length l + length (filter (fun k => name k ∉ (name <$> l)) l'))%nat.
Proof.
  intros Hl Hl'.
  set (only := filter (fun k => name k ∉ (name <$> l)) l').
  assert (E : names (l ++ l') = names (l ++ only)).
  { unfold names. apply set_eq. intros x.
    rewrite !elem_of_list_to_set, !fmap_app, !elem_of_app.
    split; [|intros [H|H]; [now left|right]].
    - intros [H|H]; [now left|].
      destruct (decide (x ∈ name <$> l)) as [Hin|Hout]; [now left|right].
      apply list_elem_of_fmap in H as (k & -> & Hk).
      apply list_elem_of_fmap. exists k. split; [reflexivity|].
      now apply list_elem_of_filter.
    - apply list_elem_of_fmap in H as (k & -> & Hk).
      apply list_elem_of_filter in Hk as [_ Hk].
      apply list_elem_of_fmap. now exists k. }
  rewrite E, size_names; [apply length_app|].
  rewrite fmap_app. apply NoDup_app. split; [exact Hl|]. split.
  - intros x Hx Hx'. apply list_elem_of_fmap in Hx' as (k & -> & Hk).
    now apply list_elem_of_filter in Hk as [Hk _].
  - apply (sublist_NoDup _ (name <$> l')); [exact Hl'|].
    apply fmap_sublist, sublist_filter.
Qed.

(** C10: the topology is decided by the number of distinct names over the
    control and the compute nodes.  When no two nodes of a role bear the
    same name, that number is the number of control nodes plus the number
    of compute nodes that are not control nodes: a node that holds both
    roles is counted once, a node that holds one is counted too.  So when
    the compute nodes are all control nodes it is the number of control
    nodes, six nodes that hold both roles give ["multi"], and not the
    ["large"] that the count of both lists, twelve, would give; and
    twelve nodes of which none holds both roles give ["large"]. *)
Theorem determine_target_topology_counts_names_once (w : World) :
  let control := list_nodes_by_role (client w) "control" in
  let compute := list_nodes_by_role (client w) "compute" in
  let topology_for (n : nat) :=
    if (Z.of_nat n =? 1) && (host_total_ram w <? RAM_32_GB_IN_KB ext)
    then "single"
    else if Z.of_nat n <? 10 then "multi" else "large" in
  fst (determine_target_topology ext w)
  = Returns (topology_for
               (length (remove_dups (name <$> (control ++ compute)%list))))
  /\ (NoDup (name <$> control) -> NoDup (name <$> compute) ->
      fst (determine_target_topology ext w)
      = Returns (topology_for
                   (length control
                    + length (filter (fun k => name k ∉ (name <$> control))
                                     compute))%nat))
  /\ (NoDup (name <$> control) -> NoDup (name <$> compute) ->
      (forall k, k ∈ compute -> name k ∈ (name <$> control)) ->
      fst (determine_target_topology ext w)
      = Returns (topology_for (length control))
      /\ (length control = 6%nat ->
          fst (determine_target_topology ext w) = Returns "multi"
          /\ (length compute = 6%nat ->
              topology_for (length control + length compute)%nat
              = "large")))
  /\ (NoDup (name <$> control) -> NoDup (name <$> compute) ->
      (forall k, k ∈ compute -> name k ∉ (name <$> control)) ->
      fst (determine_target_topology ext w)
      = Returns (topology_for (length control + length compute)%nat)
      /\ ((length control + length compute = 12)%nat ->
          fst (determine_target_topology ext w) = Returns "large")).
Proof.
  intros control compute topology_for.
  assert (E : fst (determine_target_topology ext w)
              = Returns (topology_for (size (combined w)))).
  { rewrite determine_target_topology_eq. reflexivity. }
  assert (B : NoDup (name <$> control) -> NoDup (name <$> compute) ->
              size (combined w)
              = (length control
                 + length (filter (fun k => name k ∉ (name <$> control))
                                  compute))%nat).
  { intros Hl Hl'. now apply size_names_app. }
  split; [|split; [|split]].
  - rewrite E. unfold combined. now rewrite size_names_remove_dups.
  - intros Hl Hl'. now rewrite E, B.
  - intros Hl Hl' Hin.
    assert (F : filter (fun k => name k ∉ (name <$> control)) compute = []).
    { apply filter_none. intros k Hk Hout. exact (Hout (Hin k Hk)). }
    rewrite E, B, F, Nat.add_0_r by assumption.
    split; [reflexivity|]. intros H6. rewrite H6. split; [reflexivity|].
    intros ->. reflexivity.
  - intros Hl Hl' Hout.
    assert (F : filter (fun k => name k ∉ (name <$> control)) compute
                = compute).
    { apply filter_all. exact Hout. }
    rewrite E, B, F by assumption.
    split; [reflexivity|]. intros ->. reflexivity.
Qed.

End TopologyFacts.

(** ** The skip check of the control-plane deployment *)

Section DeployFacts.

Import Clusterd Openstack.
Local Open Scope Z_scope.

Variable ext : Ext.

Lemma with_client_same (w : World) : with_client (fun _ => client w) w = w.
Proof. now destruct w. Qed.

Lemma on_client_read_config (key : string) (w : World) :
  on_client (read_config key) w
  = (match config (client w) !! key with
     | Some v => Returns v
     | None => Raises ConfigItemNotFoundException
     end, w).
Proof.
  unfold on_client, read_config.
  destruct (config (client w) !! key); now rewrite with_client_same.
Qed.

Lemma is_skip_eq (self : DeployControlPlaneStep) (w : World) :
  is_skip ext (self, w)
  = (Returns (verdict (persisted_database w) (settled ext self w)),
     (settled ext self w, w)).
Proof.
  unfold is_skip, settled, planned_database, persisted_database,
    persisted_topology, verdict.
  unfold bind at 1. unfold try_except, on_world. simpl.
  rewrite on_client_read_config.
  destruct (config (client w) !! TOPOLOGY_KEY) as [previous|]; simpl;
    unfold bind at 1; unfold on_world; simpl;
    rewrite determine_target_topology_eq; fold (determined_topology ext w);
    simpl.
  all: destruct self as [t d mm ps f m c]; simpl.
  all: unfold bind, get_self, set_self, gets, modify, ret; simpl.
  all: destruct (String.eqb t "auto"); simpl.
  all: destruct (String.eqb d "auto"); simpl.
  all: try rewrite lookup_empty; simpl.
  all: repeat match goal with
         | |- context [if String.eqb ?x "large" then _ else _] =>
             destruct (String.eqb x "large") eqn:?; simpl
         end.
  all: repeat match goal with
         | |- context [if ?b then _ else _] => destruct b eqn:?; simpl
         end; try reflexivity; try congruence.
Qed.

Lemma run_step_eq (self : DeployControlPlaneStep) (w : World) :
  run_step ext (self, w)
  = match result_type (verdict (persisted_database w) (settled ext self w)) with
    | COMPLETED => run ext (settled ext self w, w)
    | _ => is_skip ext (self, w)
    end.
Proof.
  unfold run_step, bind. rewrite is_skip_eq.
  destruct (result_type _); reflexivity.
Qed.

Lemma planned_database_not_large (determined : string)
      (persisted : option string) (requested : string) :
  planned_database determined persisted requested <> "large".
Proof.
  unfold planned_database.
  destruct (String.eqb _ "large") eqn:E; [discriminate|].
  now apply String.eqb_neq.
Qed.

Lemma planned_database_large (determined : string) (persisted : option string) :
  planned_database determined persisted "large" = "multi".
Proof. reflexivity. Qed.

Lemma is_skip_database_failure (self : DeployControlPlaneStep) (w : World) :
  fst (is_skip ext (self, w))
  = Returns (mkResult FAILED (Some database_changed_message))
  <-> exists db,
      persisted_database w = Some db /\ truthy db = true
      /\ planned_database (determined_topology ext w) (Some db) (database self)
         <> db.
Proof.
  rewrite is_skip_eq. simpl. unfold verdict.
  destruct (persisted_database w) as [db|] eqn:Hp; simpl.
  - destruct (truthy db) eqn:Ht; simpl.
    + case_bool_decide as Hd; simpl.
      * split.
        -- destruct (_ && _); discriminate.
        -- intros (db' & E & _ & Hne). injection E as <-.
           exfalso. apply Hne. unfold settled in Hd. simpl in Hd.
           rewrite Hp in Hd. now injection Hd as <-.
      * split; [|reflexivity].
        intros _. exists db. split; [reflexivity|]. split; [assumption|].
        intros E. apply Hd. unfold settled. simpl. rewrite Hp. now rewrite E.
    + split.
      * destruct (_ && _); discriminate.
      * intros (db' & E & Ht' & _). injection E as <-. congruence.
  - split.
    + destruct (_ && _); discriminate.
    + intros (db' & E & _). discriminate.
Qed.

(** C9: the skip check compares the persisted database topology with the
    planned one after ["large"] has been turned into ["multi"]: the planned
    value is never ["large"]; a persisted ["multi"] with ["large"] asked for
    passes the check, the step keeping ["multi"]; a persisted ["single"] with
    ["large"] asked for fails it; and the failure is returned exactly when a
    persisted, non-empty database topology differs from the planned one. *)
Theorem large_database_compared_as_multi
        (self : DeployControlPlaneStep) (w : World) :
  planned_database (determined_topology ext w) (persisted_database w)
                   (database self) <> "large"
  /\ (persisted_database w = Some "multi" -> database self = "large" ->
       fst (is_skip ext (self, w)) = Returns (mkResult COMPLETED None)
       /\ database (fst (snd (is_skip ext (self, w)))) = "multi")
  /\ (persisted_database w = Some "single" -> database self = "large" ->
       fst (is_skip ext (self, w))
       = Returns (mkResult FAILED (Some database_changed_message)))
  /\ (fst (is_skip ext (self, w))
       = Returns (mkResult FAILED (Some database_changed_message))
       <-> exists db,
           persisted_database w = Some db /\ truthy db = true
           /\ planned_database (determined_topology ext w) (Some db)
                               (database self) <> db).
Proof.
  split; [apply planned_database_not_large|].
  split; [|split; [|apply is_skip_database_failure]].
  - intros Hp Hd. rewrite is_skip_eq. simpl. unfold verdict, settled. simpl.
    rewrite Hp, Hd. simpl. rewrite andb_false_r. split; reflexivity.
  - intros Hp Hd. apply is_skip_database_failure.
    exists "single". rewrite Hd. repeat split; [assumption|discriminate].
Qed.

End DeployFacts.

(** ** The runs of the deployment steps *)

Section RunFacts.

Import Clusterd Openstack.
Local Open Scope list_scope.

Variable ext : Ext.

Lemma settle_length (f : nat -> bool) (ts : list task_state) :
  length (settle f ts) = length ts.
Proof. apply length_imap. Qed.

Lemma settle_snoc_pending (f : nat -> bool) (ts : list task_state) :
  settle f (ts ++ [Pending])
  = settle f ts ++ [if f (length ts) then Finished else Pending].
Proof.
  unfold settle. rewrite imap_app. simpl.
  now rewrite Nat.add_0_r.
Qed.

Lemma wait_for_apps_eq (model : string) (apps : list string) (w : World) :
  wait_for_apps ext model apps w
  = (waited (wait_until_active ext model apps OPENSTACK_DEPLOY_TIMEOUT),
     with_tasks
       (fun ts => settle (finishes_during_wait ext) ts
                  ++ [status_task_end ext (length ts)])
       w).
Proof.
  destruct w as [c ram ts].
  unfold wait_for_apps, bind at 1. unfold update_status_background. simpl.
  unfold try_finally, try_except, bind at 1. unfold wait at 1.
  unfold with_tasks. simpl. rewrite settle_snoc_pending.
  set (f := finishes_during_wait ext).
  assert (Hfin :
    forall o : outcome (option Result),
      (let '(o', w') :=
         (done <~ task_done (length ts) ;;
          if negb done then task_cancel (length ts) else ret tt)%py
           (mkWorld c ram
              (settle f ts ++ [if f (length ts) then Finished else Pending])) in
       match o' with
       | Returns _ => (o, w')
       | Raises e => (Raises e, w')
       end)
      = (o, mkWorld c ram (settle f ts ++ [status_task_end ext (length ts)]))).
  { intros o. unfold bind, task_done, task_cancel, gets, modify, ret,
      with_tasks, status_task_end. simpl.
    rewrite lookup_app_r by (rewrite settle_length; lia).
    rewrite settle_length, Nat.sub_diag. fold f.
    destruct (f (length ts)); simpl; [reflexivity|].
    f_equal. f_equal.
    apply list_eq. intros i.
    destruct (decide (i = length ts)) as [->|Hne].
    - rewrite list_lookup_alter.
      rewrite !lookup_app_r by (rewrite settle_length; lia).
      rewrite settle_length, Nat.sub_diag.
      now rewrite decide_True by reflexivity.
    - rewrite list_lookup_alter_ne by congruence.
      destruct (decide (i < length ts)) as [Hlt|Hge].
      + rewrite !lookup_app_l by (rewrite settle_length; lia). reflexivity.
      + rewrite !lookup_app_r by (rewrite settle_length; lia).
        rewrite settle_length.
        destruct (i - length ts)%nat as [|k] eqn:Ek; [lia|reflexivity]. }
  destruct (wait_until_active ext model apps OPENSTACK_DEPLOY_TIMEOUT)
    as [[]|e]; simpl.
  - apply (Hfin (Returns None)).
  - destruct e; simpl; try apply (Hfin (Raises _)); apply (Hfin (Returns _)).
Qed.

(** Case analysis on the innermost scrutinee, the wait being replaced by its
    closed form as soon as it is reached. *)
Ltac run_case :=
  match goal with
  | |- context [wait_for_apps ?e ?m ?a ?w] => rewrite (wait_for_apps_eq m a w)
  | |- context [match ?x with _ => _ end] =>
      lazymatch x with
      | context [match _ with _ => _ end] => fail
      | _ => destruct x eqn:?
      end
  end.

Ltac run_cases :=
  repeat run_case;
  cbv [with_tasks with_client waited client host_total_ram tasks fst snd] in *;
  simplify_eq/=.

(** The world [run] leaves: the topology item is written, and either no task
    was started or the one task started is over. *)
Lemma run_world (self : DeployControlPlaneStep) (w : World) :
  let final := snd (snd (run ext (self, w))) in
  host_total_ram final = host_total_ram w
  /\ client final
     = mkClient (nodes (client w))
         (<[TOPOLOGY_KEY := <["database" := database self]>
                              {["topology" := topology self]}]>
            (config (client w)))
  /\ (tasks final = tasks w
      \/ tasks final
         = settle (finishes_during_wait ext) (tasks w)
           ++ [status_task_end ext (length (tasks w))]).
Proof.
  cbv [run bind get_self set_self on_world on_client update_config modify
       gets lift try_except ret fst snd].
  destruct w as [c ram ts]. cbv [client with_client host_total_ram tasks].
  run_cases; auto.
Qed.

Lemma reapply_run_world (w : World) :
  let final := snd (reapply_run ext w) in
  host_total_ram final = host_total_ram w
  /\ client final = client w
  /\ (tasks final = tasks w
      \/ tasks final
         = settle (finishes_during_wait ext) (tasks w)
           ++ [status_task_end ext (length (tasks w))]).
Proof.
  cbv [reapply_run bind modify gets lift try_except ret fst snd].
  destruct w as [c ram ts]. cbv [client with_client host_total_ram tasks].
  run_cases; auto.
Qed.

Lemma status_task_end_over (task : nat) :
  status_task_end ext task = Finished \/ status_task_end ext task = Cancelled.
Proof. unfold status_task_end. destruct (finishes_during_wait ext task); auto. Qed.

Lemma started_task_over (before final : list task_state) :
  (final = before
   \/ final = settle (finishes_during_wait ext) before
              ++ [status_task_end ext (length before)]) ->
  (final = before
   \/ exists st, final = settle (finishes_during_wait ext) before ++ [st]
                 /\ (st = Finished \/ st = Cancelled))
  /\ forall i, length before <= i -> final !! i <> Some Pending.
Proof.
  intros [-> | ->]; split; auto.
  - intros i Hi. now rewrite lookup_ge_None_2.
  - right. eexists. split; [reflexivity|apply status_task_end_over].
  - intros i Hi.
    rewrite lookup_app_r by (rewrite settle_length; lia).
    rewrite settle_length.
    destruct (i - length before) as [|k]; simpl.
    + destruct (status_task_end_over (length before)) as [-> | ->]; discriminate.
    + discriminate.
Qed.

(** C8: whatever the collaborators answer, and whether [run] returns
    [COMPLETED], returns [FAILED] or lets an exception through, the status
    task it started, if it got that far, is finished or cancelled when [run]
    is over: no task created by [run] is left pending.  The same holds for
    the run of the step that reapplies the plan. *)
Theorem status_task_not_left_pending
        (self : DeployControlPlaneStep) (w : World) :
  let final := snd (snd (run ext (self, w))) in
  let final' := snd (reapply_run ext w) in
  ((tasks final = tasks w
    \/ exists st, tasks final
                  = settle (finishes_during_wait ext) (tasks w) ++ [st]
                  /\ (st = Finished \/ st = Cancelled))
   /\ forall i, length (tasks w) <= i -> tasks final !! i <> Some Pending)
  /\ ((tasks final' = tasks w
       \/ exists st, tasks final'
                     = settle (finishes_during_wait ext) (tasks w) ++ [st]
                     /\ (st = Finished \/ st = Cancelled))
      /\ forall i, length (tasks w) <= i -> tasks final' !! i <> Some Pending).
Proof.
  intros final final'. split.
  - apply started_task_over. apply (run_world self w).
  - apply started_task_over. apply (reapply_run_world w).
Qed.

(** C2: when a database topology is persisted and the planning run settles
    on another one, the skip check returns [FAILED] with the message that the
    database topology cannot be changed, it leaves the world, the persisted
    item included, as it was, and the runner stops at the check: [run], which
    is what writes the item, is not called. *)
Theorem database_topology_change_fails
        (self : DeployControlPlaneStep) (w : World) (db : string) :
  persisted_database w = Some db ->
  truthy db = true ->
  planned_database (determined_topology ext w) (Some db) (database self) <> db ->
  fst (is_skip ext (self, w))
  = Returns (mkResult FAILED
               (Some "Database topology cannot be changed, please destroy and re-bootstrap"))
  /\ snd (snd (is_skip ext (self, w))) = w
  /\ persisted_database (snd (snd (is_skip ext (self, w)))) = Some db
  /\ run_step ext (self, w) = is_skip ext (self, w)
  /\ (forall planned w',
        persisted_database (snd (snd (run ext (planned, w'))))
        = Some (database planned)).
Proof.
  intros Hp Ht Hne.
  assert (V : verdict (persisted_database w) (settled ext self w)
              = mkResult FAILED (Some database_changed_message)).
  { unfold verdict. rewrite Hp. simpl. rewrite Ht. simpl.
    rewrite bool_decide_false; [reflexivity|].
    intros E. apply Hne. unfold settled in E. simpl in E.
    rewrite Hp in E. now injection E as <-. }
  rewrite run_step_eq, !is_skip_eq, V. simpl.
  split; [reflexivity|]. split; [reflexivity|]. split; [exact Hp|].
  split; [reflexivity|].
  intros planned w'.
  destruct (run_world planned w') as (_ & Hc & _).
  unfold persisted_database, persisted_topology. rewrite Hc. simpl.
  rewrite lookup_insert_eq. simpl. apply lookup_insert_eq.
Qed.

(** The exits of the reapplying run one by one. *)
Lemma reapply_run_exits (w : World) :
  (forall m, update_tfvars_and_apply_tf ext CONFIG_KEY None
             = Raises (TerraformException m) ->
     reapply_run ext w = (Returns (mkResult FAILED (Some m)), w))
  /\ (forall apps o,
        update_tfvars_and_apply_tf ext CONFIG_KEY None = Returns tt ->
        get_application_names ext OPENSTACK_MODEL = Returns apps ->
        waited (wait_until_active ext OPENSTACK_MODEL
                  (if bool_decide (list_nodes_by_role (client w) "storage" = [])
                      && list_in "cinder-ceph" apps
                   then list_remove "cinder-ceph" apps else apps)
                  OPENSTACK_DEPLOY_TIMEOUT) = o ->
        reapply_run ext w
        = (match o with
           | Returns (Some r) => Returns r
           | Returns None => Returns (mkResult COMPLETED None)
           | Raises e => Raises e
           end,
           with_tasks
             (fun ts => settle (finishes_during_wait ext) ts
                        ++ [status_task_end ext (length ts)]) w)).
Proof.
  split.
  - intros m H. cbv [reapply_run bind lift try_except ret]. rewrite H.
    reflexivity.
  - intros apps o Ha Hn Hw.
    cbv [reapply_run bind lift try_except ret gets]. rewrite Ha, Hn.
    rewrite wait_for_apps_eq, Hw.
    destruct o as [[r|]|e]; reflexivity.
Qed.

End RunFacts.

(** ** Searching a text *)

Section TextFacts.

Lemma startswith_app (p post : string) : startswith p (p +:+ post) = true.
Proof.
  induction p as [|a p IH]; simpl; [now destruct post|].
  now rewrite Ascii.eqb_refl.
Qed.

Lemma startswith_inv (p s : string) :
  startswith p s = true -> exists post, s = p +:+ post.
Proof.
  revert s. induction p as [|a p IH]; intros s H.
  - exists s. reflexivity.
  - destruct s as [|b s]; [discriminate|]. simpl in H.
    destruct (Ascii.eqb_spec a b) as [->|]; [|discriminate].
    destruct (IH s H) as [post ->]. now exists post.
Qed.

Lemma occurs_at_0 (sub s : string) :
  occurs_at sub s 0 <-> startswith sub s = true.
Proof.
  split.
  - intros (pre & post & -> & Hl). destruct pre; [|discriminate].
    exact (startswith_app sub post).
  - intros H. destruct (startswith_inv _ _ H) as [post ->].
    now exists EmptyString, post.
Qed.

Lemma occurs_at_S (sub : string) (a : Ascii.ascii) (s : string) (n : nat) :
  occurs_at sub (String a s) (S n) <-> occurs_at sub s n.
Proof.
  split.
  - intros (pre & post & E & Hl). destruct pre as [|b pre]; [discriminate|].
    simpl in E, Hl. injection E as -> ->. injection Hl as Hl.
    now exists pre, post.
  - intros (pre & post & -> & Hl). exists (String a pre), post.
    simpl. now rewrite Hl.
Qed.

Lemma occurs_at_empty (sub : string) (n : nat) :
  occurs_at sub EmptyString n -> n = 0%nat.
Proof.
  intros (pre & post & E & Hl). destruct pre; [now simpl in Hl|discriminate].
Qed.

Lemma lowest_index_Some (sub s : string) (n : nat) :
  lowest_index sub s = Some n ->
  occurs_at sub s n /\ forall m, occurs_at sub s m -> n <= m.
Proof.
  revert n. induction s as [|a s IH]; intros n; simpl.
  - destruct (startswith sub EmptyString) eqn:E; [|discriminate].
    intros [= <-]. split; [now apply occurs_at_0|lia].
  - destruct (startswith sub (String a s)) eqn:E.
    + intros [= <-]. split; [now apply occurs_at_0|lia].
    + destruct (lowest_index sub s) as [k|]; [|discriminate].
      intros [= <-]. destruct (IH k eq_refl) as [Hk Hmin]. split.
      * now apply occurs_at_S.
      * intros [|m] Hm.
        -- apply occurs_at_0 in Hm. congruence.
        -- apply occurs_at_S in Hm. specialize (Hmin m Hm). lia.
Qed.

Lemma lowest_index_None (sub s : string) :
  lowest_index sub s = None -> forall m, ~ occurs_at sub s m.
Proof.
  induction s as [|a s IH]; simpl.
  - destruct (startswith sub EmptyString) eqn:E; [discriminate|].
    intros _ m Hm. pose proof (occurs_at_empty _ _ Hm) as ->.
    apply occurs_at_0 in Hm. congruence.
  - destruct (startswith sub (String a s)) eqn:E; [discriminate|].
    destruct (lowest_index sub s) as [k|] eqn:Ek; [discriminate|].
    intros _ [|m] Hm.
    + apply occurs_at_0 in Hm. congruence.
    + apply occurs_at_S in Hm. now apply (IH eq_refl m).
Qed.

Lemma contains_lowest_index (sub s : string) :
  contains sub s = match lowest_index sub s with Some _ => true | None => false end.
Proof.
  induction s as [|a s IH]; simpl.
  - destruct (startswith sub EmptyString); reflexivity.
  - destruct (startswith sub (String a s)); simpl; [reflexivity|].
    rewrite IH. now destruct (lowest_index sub s).
Qed.

Lemma string_drop_app (pre s : string) :
  string_drop (String.length pre) (pre +:+ s) = s.
Proof. induction pre as [|a pre IH]; simpl; [reflexivity|exact IH]. Qed.

(** [sub in s], [s.find(sub)] and [s[i:]] together: when [sub] occurs, the
    slice taken at the index found is the text from the first occurrence
    on. *)
Lemma slice_from_find (sub s pre post : string) :
  s = pre +:+ sub +:+ post ->
  (forall n, occurs_at sub s n -> String.length pre <= n) ->
  contains sub s = true /\ slice_from (find sub s) s = sub +:+ post.
Proof.
  intros E Hmin. rewrite contains_lowest_index. unfold find.
  destruct (lowest_index sub s) as [k|] eqn:Ek.
  - destruct (lowest_index_Some _ _ _ Ek) as [Hk Hle]. split; [reflexivity|].
    assert (k = String.length pre) as ->.
    { apply Nat.le_antisymm; [|now apply Hmin].
      apply Hle. now exists pre, post. }
    unfold slice_from.
    destruct (Z.ltb_spec (Z.of_nat (String.length pre)) 0) as [Hlt|_]; [lia|].
    rewrite Nat2Z.id, E. apply string_drop_app.
  - exfalso. apply (lowest_index_None _ _ Ek (String.length pre)).
    now exists pre, post.
Qed.

Lemma contains_false (sub s : string) :
  (forall n, ~ occurs_at sub s n) -> contains sub s = false.
Proof.
  intros H. rewrite contains_lowest_index.
  destruct (lowest_index sub s) as [k|] eqn:Ek; [|reflexivity].
  exfalso. apply (H k). now apply lowest_index_Some.
Qed.

Lemma contains_true (sub s : string) :
  contains sub s = true ->
  exists pre post, s = pre +:+ sub +:+ post
                   /\ (forall n, occurs_at sub s n -> String.length pre <= n)
                   /\ slice_from (find sub s) s = sub +:+ post.
Proof.
  rewrite contains_lowest_index.
  destruct (lowest_index sub s) as [k|] eqn:Ek; [intros _|discriminate].
  destruct (lowest_index_Some _ _ _ Ek) as [(pre & post & E & Hl) Hle].
  exists pre, post. subst k. split; [exact E|]. split; [exact Hle|].
  now apply (slice_from_find sub s pre post).
Qed.

End TextFacts.

(** ** Sessions with a spawned process *)

Section SessionFacts.

Import Json Pexpect Juju.

Lemma log_read (log data content : string) (h : Host) :
  read_sink log h -> files h !! log = Some content ->
  _log data Read h = (Returns tt, with_files (<[log := content +:+ data]>) h).
Proof.
  intros (H1 & H2 & H3) Hc.
  unfold _log, bind, gets, write_to. rewrite H1, H3.
  unfold ret, write, modify, with_files. simpl. now rewrite Hc.
Qed.

Lemma log_send (log data : string) (h : Host) :
  read_sink log h -> _log data Send h = (Returns tt, h).
Proof.
  intros (H1 & H2 & H3).
  unfold _log, bind, gets, write_to. now rewrite H1, H2.
Qed.

Lemma sendline_eq (log x : string) (h : Host) :
  read_sink log h -> sendline x h = (Returns tt, sent x h).
Proof.
  intros Hs. unfold sendline, bind. now rewrite (log_send log _ h Hs).
Qed.

Lemma expect_Shows (l : list pattern) (log content : string)
      (index : nat) (incoming b : string) (next : string -> process)
      (h : Host) :
  read_sink log h -> files h !! log = Some content ->
  expect l (Shows index incoming b next) h
  = (Returns index, received log incoming content b h).
Proof.
  intros Hs Hc. unfold expect, bind. now rewrite (log_read log _ content h Hs Hc).
Qed.

Lemma expect_Ends (l : list pattern) (log content : string) (index : nat)
      (incoming b : string) (h : Host) :
  read_sink log h -> files h !! log = Some content ->
  eof_index l = Some index ->
  expect l (Ends incoming b) h = (Returns index, received log incoming content b h).
Proof.
  intros Hs Hc Hi. unfold expect, bind.
  rewrite (log_read log _ content h Hs Hc). simpl. now rewrite Hi.
Qed.

Lemma expect_Stalls (l : list pattern) (log content : string)
      (incoming value : string) (h : Host) :
  read_sink log h -> files h !! log = Some content ->
  expect l (Stalls incoming value) h
  = (Raises (TIMEOUT value), with_files (<[log := content +:+ incoming]>) h).
Proof.
  intros Hs Hc. unfold expect, bind. now rewrite (log_read log _ content h Hs Hc).
Qed.

Lemma on_eof_eq (h : Host) :
  on_eof h
  = (match at_eof (before (child h)) with
     | Returns (Some r) => Returns (Return r)
     | Returns None => Returns Break
     | Raises e => Raises e
     end, h).
Proof.
  unfold on_eof, at_eof, eof_outcome, bind, gets, lift, ret.
  destruct (decode (before (child h))) as [text|e]; [|reflexivity].
  now destruct (contains "ERROR" text).
Qed.

Lemma append_cons (x : Ascii.ascii) (a b : string) :
  String x a +:+ b = String x (a +:+ b).
Proof. reflexivity. Qed.

Lemma append_assoc (a b c : string) : (a +:+ b) +:+ c = a +:+ b +:+ c.
Proof.
  induction a as [|x a IH]; [reflexivity|].
  rewrite !append_cons. now rewrite IH.
Qed.

Lemma append_empty (a : string) : a +:+ EmptyString = a.
Proof.
  induction a as [|x a IH]; [reflexivity|].
  rewrite append_cons. now rewrite IH.
Qed.

Lemma read_sink_received (log l data content b : string) (h : Host) :
  read_sink log h -> read_sink log (received l data content b h).
Proof. intros H. exact H. Qed.

Lemma read_sink_sent (log x : string) (h : Host) :
  read_sink log h -> read_sink log (sent x h).
Proof. intros H. exact H. Qed.

Lemma files_received (log data content b : string) (h : Host) :
  files (received log data content b h) = <[log := content +:+ data]> (files h).
Proof. reflexivity. Qed.

(** The way a loop leaves at the index of [pexpect.EOF]. *)
Lemma leave_at_eof (h : Host) :
  (next <~ on_eof ;;
   match next with
   | Return r => ret (Some r)
   | Break => ret None
   | Continue => past_the_end
   end)%py h
  = (at_eof (before (child h)), h).
Proof.
  unfold bind. rewrite on_eof_eq.
  now destruct (at_eof (before (child h))) as [[r|]|e].
Qed.

Section RegisterLoop.

Variable self : RegisterJujuUserStep.
Variable account : JujuAccount.
Variable log : string.
Hypothesis has_account : juju_account self = Some account.

(** The registration loop in closed form, over the session the process goes
    through: how it ends, what the log file holds and what was written to the
    process. *)
Lemma register_loop_spec (p : process) :
  forall (h : Host) (content : string),
    read_sink log h -> files h !! log = Some content ->
    exists h',
      register_loop self p h
      = (loop_outcome 4 (follow (register_reply self) (stdin (child h)) p), h')
      /\ read_sink log h'
      /\ files h'
         = <[log := content
                    +:+ read_until 4 (follow (register_reply self)
                                             (stdin (child h)) p)]> (files h)
      /\ stdin (child h')
         = stdin (child h)
           +:+ register_input (password account) (controller self)
                 (follow (register_reply self) (stdin (child h)) p).
Proof.
  induction p as [index incoming b next IH | incoming b | incoming value];
    intros h content Hs Hc.
  - change (register_loop self (Shows index incoming b next) h)
      with (bind (expect register_expect_list (Shows index incoming b next))
              (fun index =>
                 bind (register_react self index)
                   (fun step => match step with
                                | Return r => ret (Some r)
                                | Break => ret None
                                | Continue =>
                                    bind written
                                         (fun w => register_loop self (next w))
                                end)) h).
    unfold bind at 1. rewrite (expect_Shows _ log content) by assumption.
    set (h1 := received log incoming content b h).
    assert (Hs1 : read_sink log h1) by exact Hs.
    assert (Hc1 : files h1 !! log = Some (content +:+ incoming))
      by apply lookup_insert_eq.
    cbn [follow].
    set (w := stdin (child h) +:+ register_reply self index).
    assert (Hcont :
      forall x,
        register_reply self index = x +:+ linesep ->
        exists h',
          bind written (fun w => register_loop self (next w)) (sent x h1)
          = (loop_outcome 4 (follow (register_reply self) w (next w)), h')
          /\ read_sink log h'
          /\ files h'
             = <[log := content +:+ incoming
                        +:+ read_until 4 (follow (register_reply self) w
                                                 (next w))]> (files h)
          /\ stdin (child h')
             = stdin (child h) +:+ x +:+ linesep
               +:+ register_input (password account) (controller self)
                     (follow (register_reply self) w (next w))).
    { intros x Hx. subst w. rewrite Hx.
      destruct (IH (stdin (child h) +:+ x +:+ linesep) (sent x h1)
                   (content +:+ incoming))
        as (h' & I1 & I2 & I3 & I4); [exact Hs1|exact Hc1|].
      exists h'. split; [exact I1|]. split; [exact I2|]. split.
      - rewrite I3. cbn [sent h1 received files with_child with_files].
        rewrite insert_insert_eq. now rewrite append_assoc.
      - rewrite I4. cbn [sent h1 received child with_child with_files stdin].
        now rewrite !append_assoc. }
    assert (Hp : forall i, (Nat.eqb i 0 || Nat.eqb i 1 || Nat.eqb i 3) = true ->
                           register_reply self i = password account +:+ linesep).
    { intros i Hi. unfold register_reply. now rewrite Hi, has_account. }
    destruct index as [|[|[|[|[|index]]]]];
      cbn [register_input read_until loop_outcome Nat.eqb orb].
    + unfold register_react, bind at 1. cbn [Nat.eqb orb]. rewrite has_account.
      unfold bind at 1. rewrite (sendline_eq log) by exact Hs1.
      cbn [ret]. apply Hcont. now apply Hp.
    + unfold register_react, bind at 1. cbn [Nat.eqb orb]. rewrite has_account.
      unfold bind at 1. rewrite (sendline_eq log) by exact Hs1.
      cbn [ret]. apply Hcont. now apply Hp.
    + unfold register_react, bind at 1. cbn [Nat.eqb orb].
      unfold bind at 1. rewrite (sendline_eq log) by exact Hs1.
      cbn [ret]. apply Hcont. reflexivity.
    + unfold register_react, bind at 1. cbn [Nat.eqb orb]. rewrite has_account.
      unfold bind at 1. rewrite (sendline_eq log) by exact Hs1.
      cbn [ret]. apply Hcont. now apply Hp.
    + unfold register_react. cbn [Nat.eqb orb].
      unfold bind at 1. rewrite on_eof_eq.
      exists h1. rewrite append_empty.
      split; [|split; [exact Hs1|split; reflexivity]].
      unfold h1 at 1 2. cbn [received child with_child before].
      now destruct (at_eof b) as [[r|]|e].
    + unfold register_react, bind at 1, ret at 1. cbn [Nat.eqb orb].
      unfold bind, written, gets.
      assert (Hw : w = stdin (child h1)).
      { subst w. unfold register_reply. cbn [Nat.eqb orb].
        now rewrite append_empty. }
      rewrite Hw.
      destruct (IH (stdin (child h1)) h1 (content +:+ incoming))
        as (h' & I1 & I2 & I3 & I4); [exact Hs1|exact Hc1|].
      exists h'. split; [exact I1|]. split; [exact I2|]. split.
      * rewrite I3. cbn [h1 received files with_child with_files].
        rewrite insert_insert_eq. now rewrite append_assoc.
      * exact I4.
  - change (register_loop self (Ends incoming b) h)
      with (bind (expect register_expect_list (Ends incoming b))
              (fun index =>
                 bind (register_react self index)
                   (fun step => match step with
                                | Return r => ret (Some r)
                                | Break => ret None
                                | Continue => past_the_end
                                end)) h).
    unfold bind at 1.
    rewrite (expect_Ends _ log content 4) by (assumption || reflexivity).
    unfold register_react. cbn [Nat.eqb orb]. rewrite leave_at_eof.
    exists (received log incoming content b h).
    cbn [follow read_until register_input loop_outcome]. rewrite append_empty.
    split; [|split; [exact Hs|split; reflexivity]].
    reflexivity.
  - change (register_loop self (Stalls incoming value) h)
      with (bind (expect register_expect_list (Stalls incoming value))
              (fun index =>
                 bind (register_react self index)
                   (fun step => match step with
                                | Return r => ret (Some r)
                                | Break => ret None
                                | Continue => past_the_end
                                end)) h).
    unfold bind at 1.
    rewrite (expect_Stalls _ log content) by assumption.
    eexists. split; [reflexivity|].
    cbn [follow read_until register_input loop_outcome]. rewrite append_empty.
    split; [exact Hs|split; reflexivity].
Qed.

End RegisterLoop.

(** The loop of the machine enrolment in closed form. *)
Lemma add_machine_loop_spec (log : string) (p : process) :
  forall (h : Host) (content : string),
    read_sink log h -> files h !! log = Some content ->
    exists h',
      add_machine_loop p h
      = (loop_outcome 1 (follow add_machine_reply (stdin (child h)) p), h')
      /\ read_sink log h'
      /\ files h'
         = <[log := content
                    +:+ read_until 1 (follow add_machine_reply
                                             (stdin (child h)) p)]> (files h).
Proof.
  induction p as [index incoming b next IH | incoming b | incoming value];
    intros h content Hs Hc.
  - change (add_machine_loop (Shows index incoming b next) h)
      with (bind (expect add_machine_expect_list (Shows index incoming b next))
              (fun index =>
                 bind (add_machine_react index)
                   (fun step => match step with
                                | Return r => ret (Some r)
                                | Break => ret None
                                | Continue =>
                                    bind written
                                         (fun w => add_machine_loop (next w))
                                end)) h).
    unfold bind at 1. rewrite (expect_Shows _ log content) by assumption.
    set (h1 := received log incoming content b h).
    assert (Hs1 : read_sink log h1) by exact Hs.
    assert (Hc1 : files h1 !! log = Some (content +:+ incoming))
      by apply lookup_insert_eq.
    cbn [follow].
    destruct index as [|[|index]]; cbn [read_until loop_outcome Nat.eqb].
    + unfold add_machine_react, bind at 1. cbn [Nat.eqb].
      unfold bind at 1. rewrite (sendline_eq log) by exact Hs1.
      cbn [ret]. unfold bind, written, gets.
      destruct (IH (stdin (child (sent "yes" h1))) (sent "yes" h1)
                   (content +:+ incoming))
        as (h' & I1 & I2 & I3); [exact Hs1|exact Hc1|].
      exists h'. split; [exact I1|]. split; [exact I2|].
      rewrite I3. cbn [sent h1 received files with_child with_files].
      rewrite insert_insert_eq. now rewrite append_assoc.
    + unfold add_machine_react. cbn [Nat.eqb].
      unfold bind at 1. rewrite on_eof_eq.
      exists h1. split; [|split; [exact Hs1|reflexivity]].
      unfold h1 at 1 2. cbn [received child with_child before].
      now destruct (at_eof b) as [[r|]|e].
    + unfold add_machine_react, bind at 1, ret at 1. cbn [Nat.eqb].
      unfold bind, written, gets.
      assert (Hw : stdin (child h) +:+ add_machine_reply (S (S index))
                   = stdin (child h1)).
      { cbn [add_machine_reply Nat.eqb]. now rewrite append_empty. }
      rewrite Hw.
      destruct (IH (stdin (child h1)) h1 (content +:+ incoming))
        as (h' & I1 & I2 & I3); [exact Hs1|exact Hc1|].
      exists h'. split; [exact I1|]. split; [exact I2|].
      rewrite I3. cbn [h1 received files with_child with_files].
      rewrite insert_insert_eq. now rewrite append_assoc.
  - change (add_machine_loop (Ends incoming b) h)
      with (bind (expect add_machine_expect_list (Ends incoming b))
              (fun index =>
                 bind (add_machine_react index)
                   (fun step => match step with
                                | Return r => ret (Some r)
                                | Break => ret None
                                | Continue => past_the_end
                                end)) h).
    unfold bind at 1.
    rewrite (expect_Ends _ log content 1) by (assumption || reflexivity).
    unfold add_machine_react. cbn [Nat.eqb]. rewrite leave_at_eof.
    exists (received log incoming content b h).
    cbn [follow read_until loop_outcome].
    split; [|split; [exact Hs|reflexivity]].
    reflexivity.
  - change (add_machine_loop (Stalls incoming value) h)
      with (bind (expect add_machine_expect_list (Stalls incoming value))
              (fun index =>
                 bind (add_machine_react index)
                   (fun step => match step with
                                | Return r => ret (Some r)
                                | Break => ret None
                                | Continue => past_the_end
                                end)) h).
    unfold bind at 1.
    rewrite (expect_Stalls _ log content) by assumption.
    eexists. split; [reflexivity|].
    cbn [follow read_until loop_outcome].
    split; [exact Hs|reflexivity].
Qed.

Lemma loop_outcome_eof (stop : nat) (s : session) (raw : string) :
  eof_text stop s = Some raw -> loop_outcome stop s = at_eof raw.
Proof.
  induction s as [index incoming b rest IH | incoming b | incoming value];
    simpl; intros H.
  - destruct (Nat.eqb index stop); [now injection H as ->|now apply IH].
  - now injection H as ->.
  - discriminate.
Qed.

Lemma loop_outcome_timeout (stop : nat) (s : session) (value : string) :
  timeout_text stop s = Some value -> loop_outcome stop s = Raises (TIMEOUT value).
Proof.
  induction s as [index incoming b rest IH | incoming b | incoming value'];
    simpl; intros H.
  - destruct (Nat.eqb index stop); [discriminate|now apply IH].
  - discriminate.
  - now injection H as ->.
Qed.

Lemma at_eof_cases (raw : string) :
  (exists r, at_eof raw = Returns r)
  \/ at_eof raw = Raises (OtherException "UnicodeDecodeError").
Proof.
  unfold at_eof, decode. destruct (utf8 raw); eauto.
Qed.

(** A loop of [expect] calls never asks for a turn past the end of its
    session: it ends with a result, with [break], with [TIMEOUT], or with
    bytes at the end of the stream that cannot be decoded. *)
Lemma loop_outcome_cases (stop : nat) (s : session) :
  (exists r, loop_outcome stop s = Returns r)
  \/ (exists value, loop_outcome stop s = Raises (TIMEOUT value))
  \/ loop_outcome stop s = Raises (OtherException "UnicodeDecodeError").
Proof.
  induction s as [index incoming b rest IH | incoming b | incoming value];
    simpl; eauto.
  - destruct (Nat.eqb index stop); [|exact IH].
    destruct (at_eof_cases b) as [H|H]; auto.
  - destruct (at_eof_cases b) as [H|H]; auto.
Qed.

Section RegisterRun.

Variable env : Env.
Variable self : RegisterJujuUserStep.
Variable account : JujuAccount.
Variable token : string.
Hypothesis has_account : juju_account self = Some account.
Hypothesis has_token : registration_token self = JStr token.
Hypothesis token_truthy : truthy token = true.

(** [RegisterJujuUserStep.run] in closed form. *)
Lemma register_run_spec (h : Host) :
  let s := register_session env self token h in
  exists h',
    RegisterJujuUserStep_run env self h = (register_result (loop_outcome 4 s), h')
    /\ files h' = <[register_log_file env self := read_until 4 s]> (files h)
    /\ stdin (child h')
       = register_input (password account) (controller self) s
    /\ read_sink (register_log_file env self) h'.
Proof.
  intros s.
  unfold RegisterJujuUserStep_run. rewrite has_token.
  cbn [json_truthy]. rewrite token_truthy. cbn [negb].
  cbv [bind lift try_except spawn_child modify gets open_wb set_logfile_read].
  set (log := register_log_file env self).
  change (spawn_script (with_child _ h) (juju_binary env) _)
    with (register_process env self token h).
  match goal with
  | |- context [register_loop self _ ?x] => set (h0 := x)
  end.
  destruct (register_loop_spec self account log has_account
              (register_process env self token h) h0 EmptyString)
    as (h' & L1 & L2 & L3 & L4).
  { repeat split. }
  { apply lookup_insert_eq. }
  change (follow (register_reply self) (stdin (child h0))
                 (register_process env self token h)) with s in *.
  assert (Hf : files h' = <[log := read_until 4 s]> (files h)).
  { rewrite L3. cbn [h0 files with_child with_files].
    now rewrite insert_insert_eq. }
  rewrite L1.
  destruct (loop_outcome_cases 4 s) as [[r E]|[[v E]|E]];
    rewrite E; cbn [register_result].
  - exists h'. split; [|split; [exact Hf|split; [exact L4|exact L2]]].
    destruct r; reflexivity.
  - exists h'. split; [reflexivity|split; [exact Hf|split; [exact L4|exact L2]]].
  - exists h'. split; [reflexivity|split; [exact Hf|split; [exact L4|exact L2]]].
Qed.

End RegisterRun.

(** [AddJujuMachineStep.run]: the log file, and the result when the loop
    ends in a timeout or returns from inside. *)
Lemma add_machine_run_spec (env : Env) (machine_ip : string) (h : Host) :
  let s := add_machine_session env machine_ip h in
  exists o h',
    AddJujuMachineStep_run env machine_ip h = (o, h')
    /\ files h'
       = <[add_machine_log_file env machine_ip := read_until 1 s]> (files h)
    /\ (forall value, loop_outcome 1 s = Raises (TIMEOUT value) ->
         o = Returns (result_msg FAILED timed_out_message))
    /\ (forall r, loop_outcome 1 s = Returns (Some r) -> o = Returns r)
    /\ read_sink (add_machine_log_file env machine_ip) h'.
Proof.
  intros s.
  unfold AddJujuMachineStep_run.
  cbv [bind try_except spawn_child modify gets open_wb set_logfile_read].
  set (log := add_machine_log_file env machine_ip).
  change (spawn_script (with_child _ h) (juju_binary env) _)
    with (add_machine_process env machine_ip h).
  match goal with
  | |- context [add_machine_loop _ ?x] => set (h0 := x)
  end.
  destruct (add_machine_loop_spec log (add_machine_process env machine_ip h)
                                  h0 EmptyString) as (h' & L1 & L2 & L3).
  { repeat split. }
  { apply lookup_insert_eq. }
  change (follow add_machine_reply (stdin (child h0))
                 (add_machine_process env machine_ip h)) with s in *.
  assert (Hf : files h' = <[log := read_until 1 s]> (files h)).
  { rewrite L3. cbn [h0 files with_child with_files].
    now rewrite insert_insert_eq. }
  rewrite L1.
  destruct (loop_outcome_cases 1 s) as [[r E]|[[v E]|E]]; rewrite E.
  - destruct r as [r|].
    + exists (Returns r), h'. split; [reflexivity|]. split; [exact Hf|].
      split; [discriminate|]. split; [now intros r' [= ->]|exact L2].
    + cbv [lift ret].
      match goal with
      | |- exists o h'', ?run = (o, h'') /\ _ =>
          exists (fst run), h'; split
      end.
      * repeat match goal with
               | |- context [match ?x with _ => _ end] =>
                   lazymatch x with
                   | context [match _ with _ => _ end] => fail
                   | _ => destruct x eqn:?
                   end
               end; reflexivity.
      * split; [exact Hf|]. split; [discriminate|]. split; [discriminate|exact L2].
  - exists (Returns (result_msg FAILED timed_out_message)), h'.
    split; [reflexivity|]. split; [exact Hf|]. split; [reflexivity|].
    split; [discriminate|exact L2].
  - exists (Raises (OtherException "UnicodeDecodeError")), h'.
    split; [reflexivity|]. split; [exact Hf|]. split; [discriminate|].
    split; [discriminate|exact L2].
Qed.

Lemma eof_outcome_starts_with_marker (text : string) (r : Result) :
  eof_outcome text = Some r ->
  result_type r = FAILED
  /\ exists msg, message r = Some msg /\ startswith "ERROR" msg = true.
Proof.
  unfold eof_outcome. destruct (contains "ERROR" text) eqn:E; [|discriminate].
  intros [= <-]. split; [reflexivity|].
  destruct (contains_true _ _ E) as (pre & post & _ & _ & ->).
  eexists. split; reflexivity.
Qed.

End SessionFacts.

(** ** End of the stream, timeouts and the audit file *)

Section AutomatonFacts.

Import Json Pexpect Juju.

(** C3 (amended): when the registration loop meets the end of the stream
    and the bytes in [before] decode to [text], the run returns [FAILED] with
    the text from the first occurrence of "ERROR" on if the marker occurs,
    and [COMPLETED] if it does not; one of the two cases always applies. *)
Theorem register_end_of_stream
        (env : Env) (self : RegisterJujuUserStep) (account : JujuAccount)
        (token : string) (h : Host) (raw text : string) :
  juju_account self = Some account ->
  registration_token self = JStr token ->
  truthy token = true ->
  eof_text 4 (register_session env self token h) = Some raw ->
  decode raw = Returns text ->
  (forall pre post,
      text = pre +:+ "ERROR" +:+ post ->
      (forall n, occurs_at "ERROR" text n -> String.length pre <= n) ->
      fst (RegisterJujuUserStep_run env self h)
      = Returns (mkResult FAILED (Some ("ERROR" +:+ post))))
  /\ ((forall n, ~ occurs_at "ERROR" text n) ->
      fst (RegisterJujuUserStep_run env self h)
      = Returns (mkResult COMPLETED None))
  /\ ((exists pre post,
         text = pre +:+ "ERROR" +:+ post
         /\ forall n, occurs_at "ERROR" text n -> String.length pre <= n)
      \/ forall n, ~ occurs_at "ERROR" text n).
Proof.
  intros Ha Ht Htt He Hd.
  destruct (register_run_spec env self account token Ha Ht Htt h)
    as (h' & R & _ & _).
  rewrite R. cbn [fst]. rewrite (loop_outcome_eof _ _ _ He).
  unfold at_eof. rewrite Hd. unfold eof_outcome. split; [|split].
  - intros pre post E Hmin.
    destruct (slice_from_find "ERROR" text pre post E Hmin) as [-> ->].
    reflexivity.
  - intros Hno. now rewrite (contains_false _ _ Hno).
  - destruct (contains "ERROR" text) eqn:Ec.
    + left. destruct (contains_true _ _ Ec) as (pre & post & E & Hmin & _).
      now exists pre, post.
    + right. intros n Hn.
      rewrite contains_lowest_index in Ec.
      destruct (lowest_index "ERROR" text) as [k|] eqn:Ek; [discriminate|].
      now apply (lowest_index_None _ _ Ek n).
Qed.

Lemma not_marker_message (value text : string) (r : Result) :
  startswith "ERROR" value = false ->
  eof_outcome text = Some r ->
  r <> mkResult FAILED (Some value).
Proof.
  intros Hv He ->.
  destruct (eof_outcome_starts_with_marker _ _ He) as (_ & msg & Hm & Hs).
  simpl in Hm. injection Hm as <-. congruence.
Qed.

(** C7: when a call of [expect] times out, the registration run returns
    [FAILED] with the text of the [TIMEOUT] exception and the enrolment run
    returns [FAILED] with "TIMED OUT to add machine": neither is [COMPLETED]
    or [SKIPPED].  Every message of the end-of-stream path starts with
    "ERROR"; the enrolment message does not, and the registration message
    differs from all of them as soon as the text of the exception does not
    start with "ERROR". *)
Theorem timeout_fails_with_its_own_message :
  (forall (env : Env) (self : RegisterJujuUserStep) (account : JujuAccount)
          (token : string) (h : Host) (value : string),
      juju_account self = Some account ->
      registration_token self = JStr token ->
      truthy token = true ->
      timeout_text 4 (register_session env self token h) = Some value ->
      fst (RegisterJujuUserStep_run env self h)
      = Returns (mkResult FAILED (Some (str (TIMEOUT value))))
      /\ (startswith "ERROR" value = false ->
          forall text r, eof_outcome text = Some r ->
                         r <> mkResult FAILED (Some (str (TIMEOUT value)))))
  /\ (forall (env : Env) (machine_ip : string) (h : Host) (value : string),
        timeout_text 1 (add_machine_session env machine_ip h) = Some value ->
        fst (AddJujuMachineStep_run env machine_ip h)
        = Returns (mkResult FAILED (Some "TIMED OUT to add machine"))
        /\ forall text r, eof_outcome text = Some r ->
                          r <> mkResult FAILED (Some "TIMED OUT to add machine"))
  /\ (forall text r, eof_outcome text = Some r ->
                     result_type r = FAILED
                     /\ exists msg, message r = Some msg
                                    /\ startswith "ERROR" msg = true).
Proof.
  split; [|split].
  - intros env self account token h value Ha Ht Htt Hto.
    destruct (register_run_spec env self account token Ha Ht Htt h)
      as (h' & R & _ & _).
    rewrite R. cbn [fst]. rewrite (loop_outcome_timeout _ _ _ Hto).
    split; [reflexivity|].
    intros Hv text r. now apply not_marker_message.
  - intros env machine_ip h value Hto.
    destruct (add_machine_run_spec env machine_ip h)
      as (o & h' & R & _ & T & _).
    rewrite R. cbn [fst]. rewrite (T value (loop_outcome_timeout _ _ _ Hto)).
    split; [reflexivity|].
    intros text r. now apply not_marker_message.
  - apply eof_outcome_starts_with_marker.
Qed.

Lemma follow_scripted (reply : nat -> string) (s : session) :
  forall written, follow reply written (scripted s) = s.
Proof.
  induction s as [index incoming b rest IH | incoming b | incoming value];
    intros written; cbn [scripted follow]; [|reflexivity|reflexivity].
  now rewrite IH.
Qed.

(** The login check reads from its process and keeps no file. *)
Lemma login_check_keeps_no_file (env : Env) (account : option JujuAccount)
      (h : Host) :
  files (snd (JujuLoginStep_is_skip env account h)) = files h.
Proof.
  unfold JujuLoginStep_is_skip. destruct account as [a|]; [|reflexivity].
  cbv [bind try_except spawn_child modify gets ret].
  destruct (spawn_script _ _ _) as [index incoming b next|incoming b|incoming value];
    cbv [expect bind _log gets write_to set_before modify ret raise returns
         falls with_child child logfile logfile_read];
    cbn [eof_index login_expect_list fmap option_fmap option_map].
  - destruct (Nat.eqb index 0 || Nat.eqb index 1); [reflexivity|].
    destruct (Nat.eqb index 2); reflexivity.
  - reflexivity.
  - reflexivity.
Qed.

(** The login run reads from its process and writes to it, and keeps no
    file either; once the prompt has shown, the password has been written
    to the process. *)
Lemma login_run_keeps_no_file (env : Env) (account : option JujuAccount)
      (h : Host) :
  files (snd (JujuLoginStep_run env account h)) = files h
  /\ forall a index incoming b next,
      account = Some a ->
      spawn_script h (login_cmd env a) [] = Shows index incoming b next ->
      stdin (child (snd (JujuLoginStep_run env account h)))
      = password a +:+ linesep.
Proof.
  unfold JujuLoginStep_run. destruct account as [a|].
  2:{ split; [reflexivity|]. intros; discriminate. }
  cbv [bind try_except spawn_child modify gets ret].
  cbn [snd fst].
  set (h0 := with_child _ h).
  change (spawn_script h0) with (spawn_script h).
  destruct (spawn_script h (login_cmd env a) [])
    as [index incoming b next|incoming b|incoming value] eqn:Ep.
  - cbv [expect bind _log gets write_to set_before modify ret raise returns
         falls with_child child logfile logfile_read logfile_send sendline
         written after close h0 try_except].
    cbn [eof_index fmap option_fmap option_map fst snd files child stdin
         logfile logfile_read logfile_send before].
    destruct (next _) as [i' inc' b' next'|inc' b'|inc' v'];
      cbn [eof_index fmap option_fmap option_map fst snd files child stdin
           logfile logfile_read logfile_send before].
    + split.
      * destruct (negb _); reflexivity.
      * intros a' ? ? ? ? [= <-] _. destruct (negb _); reflexivity.
    + split.
      * destruct (negb _); reflexivity.
      * intros a' ? ? ? ? [= <-] _. destruct (negb _); reflexivity.
    + split; [reflexivity|]. intros a' ? ? ? ? [= <-] _. reflexivity.
  - cbv [expect bind _log gets write_to set_before modify ret raise returns
         falls with_child child logfile logfile_read logfile_send h0
         try_except].
    cbn [eof_index fmap option_fmap option_map fst snd files].
    split; [reflexivity|]. intros a' ? ? ? ? [= <-] E. congruence.
  - cbv [expect bind _log gets write_to set_before modify ret raise returns
         falls with_child child logfile logfile_read logfile_send h0
         try_except].
    cbn [eof_index fmap option_fmap option_map fst snd files].
    split; [reflexivity|]. intros a' ? ? ? ? [= <-] E. congruence.
Qed.

(** C6 (amended): the file opened for the registration, and the one
    opened for the enrolment, hold when the run is over exactly the bytes
    read from the process, and the child logs what it reads and nothing
    else.  What is sent is so written to the file only as far as the
    process shows it back: the files of two registrations that differ only
    in the account whose password is sent are the same exactly when the
    same bytes are read in both, as they are from a process that shows the
    same whatever it is sent.  The login check and the login run, which
    sends the password at the prompt, keep no file. *)
Theorem audit_file_holds_only_what_was_read :
  (forall (env : Env) (self : RegisterJujuUserStep) (token : string)
          (h : Host) (a1 a2 : JujuAccount),
      registration_token self = JStr token ->
      truthy token = true ->
      let s1 := register_session env (set_juju_account a1 self) token h in
      let s2 := register_session env (set_juju_account a2 self) token h in
      let h1 := snd (RegisterJujuUserStep_run env (set_juju_account a1 self) h) in
      let h2 := snd (RegisterJujuUserStep_run env (set_juju_account a2 self) h) in
      files h1 = <[register_log_file env self := read_until 4 s1]> (files h)
      /\ files h2 = <[register_log_file env self := read_until 4 s2]> (files h)
      /\ read_sink (register_log_file env self) h1
      /\ stdin (child h1) = register_input (password a1) (controller self) s1
      /\ stdin (child h2) = register_input (password a2) (controller self) s2
      /\ (files h1 = files h2 <-> read_until 4 s1 = read_until 4 s2)
      /\ (forall s, register_process env self token h = scripted s ->
                    s1 = s /\ s2 = s /\ files h1 = files h2))
  /\ (forall (env : Env) (machine_ip : string) (h : Host),
        let s := add_machine_session env machine_ip h in
        let h' := snd (AddJujuMachineStep_run env machine_ip h) in
        files h'
        = <[add_machine_log_file env machine_ip := read_until 1 s]> (files h)
        /\ read_sink (add_machine_log_file env machine_ip) h')
  /\ (forall (env : Env) (account : option JujuAccount) (h : Host),
        files (snd (JujuLoginStep_is_skip env account h)) = files h
        /\ files (snd (JujuLoginStep_run env account h)) = files h
        /\ forall a index incoming b next,
            account = Some a ->
            spawn_script h (login_cmd env a) [] = Shows index incoming b next ->
            stdin (child (snd (JujuLoginStep_run env account h)))
            = password a +:+ linesep).
Proof.
  split; [|split].
  - intros env self token h a1 a2 Ht Htt s1 s2 h1 h2.
    destruct (register_run_spec env (set_juju_account a1 self) a1 token
                eq_refl Ht Htt h) as (h1' & R1 & F1 & S1 & K1).
    destruct (register_run_spec env (set_juju_account a2 self) a2 token
                eq_refl Ht Htt h) as (h2' & R2 & F2 & S2 & _).
    subst h1 h2. rewrite R1, R2. cbn [snd].
    fold s1 in F1, S1. fold s2 in F2, S2.
    change (register_log_file env (set_juju_account a1 self))
      with (register_log_file env self) in *.
    change (register_log_file env (set_juju_account a2 self))
      with (register_log_file env self) in *.
    split; [exact F1|]. split; [exact F2|]. split; [exact K1|].
    split; [exact S1|]. split; [exact S2|].
    assert (Hiff : files h1' = files h2'
                   <-> read_until 4 s1 = read_until 4 s2).
    { rewrite F1, F2. split; [|now intros ->].
      intros E.
      assert (L : (<[register_log_file env self := read_until 4 s1]> (files h))
                  !! register_log_file env self
                  = (<[register_log_file env self := read_until 4 s2]> (files h))
                    !! register_log_file env self) by now rewrite E.
      rewrite !lookup_insert_eq in L. now injection L. }
    split; [exact Hiff|].
    intros s Hp.
    assert (E1 : s1 = s).
    { unfold s1, register_session.
      change (register_process env (set_juju_account a1 self) token h)
        with (register_process env self token h).
      rewrite Hp. apply follow_scripted. }
    assert (E2 : s2 = s).
    { unfold s2, register_session.
      change (register_process env (set_juju_account a2 self) token h)
        with (register_process env self token h).
      rewrite Hp. apply follow_scripted. }
    split; [exact E1|]. split; [exact E2|].
    apply Hiff. now rewrite E1, E2.
  - intros env machine_ip h s h'.
    destruct (add_machine_run_spec env machine_ip h)
      as (o & h0 & R & F & _ & _ & K).
    subst h'. rewrite R. cbn [snd]. split; [exact F|exact K].
  - intros env account h. split; [apply login_check_keeps_no_file|].
    apply login_run_keeps_no_file.
Qed.

(** The enrolment run keeps its file the same way: the file holds the bytes
    read from the process. *)
Lemma add_machine_audit_file (env : Env) (machine_ip : string) (h : Host) :
  files (snd (AddJujuMachineStep_run env machine_ip h))
  !! add_machine_log_file env machine_ip
  = Some (read_until 1 (add_machine_session env machine_ip h)).
Proof.
  destruct (add_machine_run_spec env machine_ip h) as (o & h' & R & F & _).
  rewrite R. cbn [snd]. rewrite F. apply lookup_insert_eq.
Qed.

End AutomatonFacts.

(** ** Skip checks and failing queries *)

Section SkipCheckFacts.

Import Json Pexpect Juju.

Lemma list_find_declared (cloud t : string) (l : list (string * string)) :
  In (cloud, t) l ->
  exists i t', list_find (fun kv => String.eqb cloud (fst kv)) l
               = Some (i, (cloud, t')).
Proof.
  induction l as [|[k v] l IH]; intros H; [destruct H|].
  cbn [list_find]. unfold decide. 
  destruct (String.eqb_spec cloud k) as [<-|Hne].
  - exists 0%nat, v. cbn. rewrite String.eqb_refl. reflexivity.
  - destruct H as [[= -> ->]|H]; [congruence|].
    destruct (IH H) as (i & t' & E).
    exists (S i), t'. cbn. apply String.eqb_neq in Hne. rewrite Hne.
    cbn. rewrite E. reflexivity.
Qed.

Lemma failed_query_fails (env : Env) (c : skip_check) (text stderr : string) :
  reaches_query env c ->
  _juju_cmd env (query env c) = Raises (CalledProcessError text stderr) ->
  benign c stderr = false ->
  check env c = Returns (mkResult FAILED (Some text)).
Proof.
  intros Hr Hq Hb.
  destruct c as [self|self|self|username|username|self|ip|self|];
    cbn [check query reaches_query benign] in *.
  - destruct Hr as [t Ht].
    destruct (list_find_declared _ _ _ Ht) as (i & t' & E).
    unfold AddCloudJujuStep_is_skip, bind, gets, lift, try_except. cbn [id].
    rewrite E. unfold get_clouds. cbn [app]. rewrite Hq. reflexivity.
  - unfold AddCredentialsJujuStep_is_skip, bind, gets, lift, try_except.
    cbn [id]. unfold get_credentials. cbn [app].
    destruct (truthy (add_credentials_cloud self)); cbn [app] in *;
      rewrite Hq; reflexivity.
  - unfold BootstrapJujuStep_is_skip, bind, gets, lift, try_except. cbn [id].
    unfold get_clouds. cbn [app]. rewrite Hq. reflexivity.
  - unfold CreateJujuUserStep_is_skip, bind, gets, lift, try_except.
    rewrite Hq. reflexivity.
  - unfold RemoveJujuUserStep_is_skip, bind, gets, lift, try_except.
    rewrite Hq. reflexivity.
  - destruct Hr as [account Ha].
    unfold RegisterJujuUserStep_is_skip, bind, gets, lift, try_except, modify,
      falls, ret.
    cbn [id]. rewrite Ha. cbn [set_juju_account]. rewrite Hq. cbn [negb].
    rewrite Hb. reflexivity.
  - unfold AddJujuMachineStep_is_skip, bind, gets, lift, try_except.
    rewrite Hq. reflexivity.
  - destruct Hr as [node Hn].
    unfold RemoveJujuMachineStep_is_skip, bind, gets, lift, try_except, modify,
      falls, ret.
    cbn [id]. rewrite Hn. rewrite Hq. reflexivity.
  - unfold BackupBootstrapUserStep_is_skip, bind, gets, lift, try_except.
    rewrite Hq. reflexivity.
Qed.

Lemma failed_lookup_proceeds (env : Env) (self : BootstrapJujuStep)
      (clouds : list string) (text stderr : string) :
  get_clouds env (cloud_type self) false = Returns clouds ->
  Openstack.list_in (bootstrap_cloud self) clouds = true ->
  _juju_cmd env ["show-controller"; bootstrap_controller self]
  = Raises (CalledProcessError text stderr) ->
  check env (CheckBootstrap self) = Returns (mkResult COMPLETED None).
Proof.
  intros Hc Hin Hq. cbn [check].
  unfold BootstrapJujuStep_is_skip, bind, gets, lift, try_except, modify,
    falls, ret.
  cbn [id]. rewrite Hc. cbn [set_juju_clouds juju_clouds bootstrap_cloud
                             bootstrap_controller fst snd].
  rewrite Hin. cbn [negb]. unfold get_controller. rewrite Hq. reflexivity.
Qed.

(** C5 (amended): for the skip checks of [juju.py] that run their query
    through [_juju_cmd] under a clause catching [CalledProcessError], when
    the command of the query exits with an error that the check does not take
    for a harmless one, the check returns [FAILED] with the text of the
    error, not [SKIPPED] or [COMPLETED].  The controller lookup of the
    bootstrap check is apart: whatever makes its command exit with an error,
    the check answers [COMPLETED]. *)
Theorem failed_query_fails_skip_check :
  (forall (env : Env) (c : skip_check) (text stderr : string),
      reaches_query env c ->
      _juju_cmd env (query env c) = Raises (CalledProcessError text stderr) ->
      benign c stderr = false ->
      check env c = Returns (mkResult FAILED (Some text)))
  /\ (forall (env : Env) (self : BootstrapJujuStep) (clouds : list string)
             (text stderr : string),
        get_clouds env (cloud_type self) false = Returns clouds ->
        Openstack.list_in (bootstrap_cloud self) clouds = true ->
        _juju_cmd env ["show-controller"; bootstrap_controller self]
        = Raises (CalledProcessError text stderr) ->
        check env (CheckBootstrap self) = Returns (mkResult COMPLETED None)).
Proof. split; [exact failed_query_fails|exact failed_lookup_proceeds]. Qed.

End SkipCheckFacts.

(** ** The properties at concrete deployments, hosts and processes *)

Section Instances.

Import Clusterd Openstack Json Pexpect Juju Examples.

Example one_node_low_ram :
  fst (determine_target_topology slow_apps
         (cluster (converged_node <$> one_name) ∅)) = Returns "single".
Proof. vm_compute. reflexivity. Qed.

Example nine_nodes :
  fst (determine_target_topology slow_apps
         (cluster (converged_node <$> nine_names) ∅)) = Returns "multi".
Proof. vm_compute. reflexivity. Qed.

Example twelve_nodes :
  fst (determine_target_topology slow_apps
         (cluster (converged_node <$> twelve_names) ∅)) = Returns "large".
Proof. vm_compute. reflexivity. Qed.

(** Six nodes that each hold the control and the compute role: topology
    ["multi"], where twelve nodes would give ["large"]. *)
Lemma six_converged_nodes :
  list_nodes_by_role (client (cluster (converged_node <$> six_names) ∅)) "control"
  = converged_node <$> six_names
  /\ list_nodes_by_role (client (cluster (converged_node <$> six_names) ∅)) "compute"
     = converged_node <$> six_names
  /\ NoDup (name <$> (converged_node <$> six_names))
  /\ length (converged_node <$> six_names) = 6%nat
  /\ fst (determine_target_topology slow_apps
            (cluster (converged_node <$> six_names) ∅)) = Returns "multi"
  /\ fst (determine_target_topology slow_apps
            (cluster (converged_node <$> twelve_names) ∅)) = Returns "large".
Proof.
  assert (Hc : list_nodes_by_role
                 (client (cluster (converged_node <$> six_names) ∅)) "control"
               = converged_node <$> six_names) by reflexivity.
  assert (Hk : list_nodes_by_role
                 (client (cluster (converged_node <$> six_names) ∅)) "compute"
               = converged_node <$> six_names) by reflexivity.
  assert (Hnd : NoDup (name <$> (converged_node <$> six_names))).
  { refine (bool_decide_unpack _ _). vm_compute. exact I. }
  split; [exact Hc|]. split; [exact Hk|]. split; [exact Hnd|].
  split; [reflexivity|]. split; [|vm_compute; reflexivity].
  refine (proj1 (proj2 (proj1 (proj2 (proj2
            (determine_target_topology_counts_names_once slow_apps
               (cluster (converged_node <$> six_names) ∅))))
            _ _ _) _)).
  - rewrite Hc. exact Hnd.
  - rewrite Hk. exact Hnd.
  - intros k Hin. rewrite Hk in Hin. rewrite Hc.
    now apply list_elem_of_fmap_2.
  - rewrite Hc. reflexivity.
Defined.

(** A deployment persisted with a ["single"] database for which ["multi"] is
    asked. *)
Lemma single_to_multi_fails :
  persisted_database single_deployment = Some "single"
  /\ truthy "single" = true
  /\ planned_database (determined_topology slow_apps single_deployment)
                      (Some "single") (database (plan "multi")) <> "single"
  /\ fst (is_skip slow_apps (plan "multi", single_deployment))
     = Returns (mkResult FAILED
                  (Some "Database topology cannot be changed, please destroy and re-bootstrap"))
  /\ snd (snd (is_skip slow_apps (plan "multi", single_deployment)))
     = single_deployment
  /\ persisted_database
       (snd (snd (is_skip slow_apps (plan "multi", single_deployment))))
     = Some "single"
  /\ run_step slow_apps (plan "multi", single_deployment)
     = is_skip slow_apps (plan "multi", single_deployment)
  /\ (forall planned w',
        persisted_database (snd (snd (run slow_apps (planned, w'))))
        = Some (database planned)).
Proof.
  assert (Hp : persisted_database single_deployment = Some "single")
    by (vm_compute; reflexivity).
  assert (Ht : truthy "single" = true) by reflexivity.
  assert (Hn : planned_database (determined_topology slow_apps single_deployment)
                 (Some "single") (database (plan "multi")) <> "single")
    by (vm_compute; discriminate).
  split; [exact Hp|]. split; [exact Ht|]. split; [exact Hn|].
  exact (database_topology_change_fails slow_apps (plan "multi")
           single_deployment "single" Hp Ht Hn).
Defined.

(** A deployment persisted with a ["multi"] database for which ["large"] is
    asked. *)
Lemma multi_then_large_passes :
  persisted_database multi_deployment = Some "multi"
  /\ database (plan "large") = "large"
  /\ fst (is_skip slow_apps (plan "large", multi_deployment))
     = Returns (mkResult COMPLETED None)
  /\ database (fst (snd (is_skip slow_apps (plan "large", multi_deployment))))
     = "multi".
Proof.
  assert (Hp : persisted_database multi_deployment = Some "multi")
    by (vm_compute; reflexivity).
  split; [exact Hp|]. split; [reflexivity|].
  exact (proj1 (proj2 (large_database_compared_as_multi slow_apps (plan "large")
                         multi_deployment)) Hp eq_refl).
Defined.

(** The deployment run when the applications do not get active in time: the
    run fails, and the task it started is cancelled. *)
Example run_times_out :
  fst (run slow_apps (settled slow_apps (plan "multi") multi_deployment,
                      multi_deployment))
  = Returns (mkResult FAILED (Some "timed out waiting for apps"))
  /\ tasks (snd (snd (run slow_apps
                        (settled slow_apps (plan "multi") multi_deployment,
                         multi_deployment))))
     = [Cancelled].
Proof. vm_compute. split; reflexivity. Qed.

Example reapply_times_out :
  fst (reapply_run slow_apps multi_deployment)
  = Returns (mkResult FAILED (Some "timed out waiting for apps"))
  /\ tasks (snd (reapply_run slow_apps multi_deployment)) = [Cancelled].
Proof. vm_compute. split; reflexivity. Qed.

(** The registration against a process that ends with an error after the
    marker "ERROR". *)
Lemma bad_token_fails :
  juju_account (registration an_account) = Some an_account
  /\ registration_token (registration an_account) = JStr "abc"
  /\ truthy "abc" = true
  /\ eof_text 4 (register_session unreachable (registration an_account) "abc"
                   (host bad_token))
     = Some "juju: ERROR: bad token"
  /\ decode "juju: ERROR: bad token" = Returns "juju: ERROR: bad token"
  /\ fst (RegisterJujuUserStep_run unreachable (registration an_account)
            (host bad_token))
     = Returns (mkResult FAILED (Some "ERROR: bad token")).
Proof.
  split; [reflexivity|]. split; [reflexivity|]. split; [reflexivity|].
  split; [reflexivity|]. split; [reflexivity|].
  apply (proj1 (register_end_of_stream unreachable (registration an_account)
                  an_account "abc" (host bad_token) "juju: ERROR: bad token"
                  "juju: ERROR: bad token"
                  eq_refl eq_refl eq_refl eq_refl eq_refl)
           "juju: " ": bad token" eq_refl).
  apply (lowest_index_Some "ERROR" "juju: ERROR: bad token" 6). reflexivity.
Defined.

(** C3, as worded, fails: the process ends with "ERROR" in its output, the
    output is no UTF-8, and the run returns no result: decoding the output
    raises. *)
Lemma undecodable_output_raises :
  eof_text 4 (register_session unreachable (registration an_account) "abc"
                (host garbled))
  = Some garbled_bytes
  /\ contains "ERROR" garbled_bytes = true
  /\ fst (RegisterJujuUserStep_run unreachable (registration an_account)
            (host garbled))
     = Raises (OtherException "UnicodeDecodeError")
  /\ ~ (exists r, fst (RegisterJujuUserStep_run unreachable
                         (registration an_account) (host garbled))
                  = Returns r).
Proof.
  split; [reflexivity|]. split; [reflexivity|]. split; [reflexivity|].
  intros [r H]. vm_compute in H. discriminate.
Qed.

(** Two registrations that differ in the password sent, against a process
    that shows the same whatever it is sent. *)
Lemma passwords_stay_out_of_the_file :
  registration_token (registration an_account) = JStr "abc"
  /\ truthy "abc" = true
  /\ register_process unreachable (registration an_account) "abc"
                      (host bad_token)
     = scripted bad_token
  /\ files (snd (RegisterJujuUserStep_run unreachable
                   (set_juju_account an_account (registration an_account))
                   (host bad_token)))
     = <[register_log_file unreachable (registration an_account)
         := "Enter a new password: juju: ERROR: bad token"]> ∅
  /\ files (snd (RegisterJujuUserStep_run unreachable
                   (set_juju_account an_account (registration an_account))
                   (host bad_token)))
     = files (snd (RegisterJujuUserStep_run unreachable
                     (set_juju_account another_account (registration an_account))
                     (host bad_token)))
  /\ stdin (child (snd (RegisterJujuUserStep_run unreachable
                          (set_juju_account an_account (registration an_account))
                          (host bad_token))))
     = "s3cret-one" +:+ linesep
  /\ stdin (child (snd (RegisterJujuUserStep_run unreachable
                          (set_juju_account another_account
                                            (registration an_account))
                          (host bad_token))))
     = "s3cret-two" +:+ linesep.
Proof.
  split; [reflexivity|]. split; [reflexivity|]. split; [reflexivity|].
  destruct (proj1 audit_file_holds_only_what_was_read unreachable
              (registration an_account) "abc" (host bad_token)
              an_account another_account eq_refl eq_refl)
    as (F1 & _ & _ & S1 & S2 & _ & Hs).
  destruct (Hs bad_token eq_refl) as (_ & _ & E).
  split; [exact F1|]. split; [exact E|]. split; [exact S1|exact S2].
Defined.

(** C6, as worded, fails: on a terminal that echoes, the password sent is
    read back and written to the file, the files of two registrations that
    differ only in the password differ; and the login check and the login
    run read from their process, the run sending the password, without any
    file. *)
Lemma echoed_password_reaches_the_file :
  files (snd (RegisterJujuUserStep_run unreachable
                (set_juju_account an_account (registration an_account))
                (terminal echoing)))
  !! register_log_file unreachable (registration an_account)
  = Some ("Enter a new password: " +:+ "s3cret-one" +:+ linesep +:+ "done")
  /\ files (snd (RegisterJujuUserStep_run unreachable
                   (set_juju_account an_account (registration an_account))
                   (terminal echoing)))
     <> files (snd (RegisterJujuUserStep_run unreachable
                      (set_juju_account another_account
                                        (registration an_account))
                      (terminal echoing)))
  /\ files (snd (JujuLoginStep_is_skip unreachable (Some an_account)
                   (host bad_token)))
     = ∅
  /\ fst (JujuLoginStep_run unreachable (Some an_account) (terminal echoing))
     = Returns (mkResult COMPLETED None)
  /\ stdin (child (snd (JujuLoginStep_run unreachable (Some an_account)
                          (terminal echoing))))
     = "s3cret-one" +:+ linesep
  /\ before (child (snd (JujuLoginStep_run unreachable (Some an_account)
                           (terminal echoing))))
     = "s3cret-one" +:+ linesep +:+ "done"
  /\ files (snd (JujuLoginStep_run unreachable (Some an_account)
                   (terminal echoing)))
     = ∅.
Proof.
  split; [vm_compute; reflexivity|].
  split; [|repeat split; vm_compute; reflexivity].
  intros E.
  assert (L : files (snd (RegisterJujuUserStep_run unreachable
                            (set_juju_account an_account
                                              (registration an_account))
                            (terminal echoing)))
              !! register_log_file unreachable (registration an_account)
              = files (snd (RegisterJujuUserStep_run unreachable
                              (set_juju_account another_account
                                                (registration an_account))
                              (terminal echoing)))
                !! register_log_file unreachable (registration an_account))
    by now rewrite E.
  vm_compute in L. discriminate.
Qed.

(** A registration and an enrolment against a process that stays silent. *)
Lemma silent_process_times_out :
  juju_account (registration an_account) = Some an_account
  /\ registration_token (registration an_account) = JStr "abc"
  /\ truthy "abc" = true
  /\ timeout_text 4 (register_session unreachable (registration an_account)
                       "abc" (host silent))
     = Some "Timeout exceeded."
  /\ timeout_text 1 (add_machine_session unreachable "10.0.0.2" (host silent))
     = Some "Timeout exceeded."
  /\ startswith "ERROR" "Timeout exceeded." = false
  /\ fst (RegisterJujuUserStep_run unreachable (registration an_account)
            (host silent))
     = Returns (mkResult FAILED (Some "Timeout exceeded."))
  /\ (forall text r, eof_outcome text = Some r ->
                     r <> mkResult FAILED (Some "Timeout exceeded."))
  /\ fst (AddJujuMachineStep_run unreachable "10.0.0.2" (host silent))
     = Returns (mkResult FAILED (Some "TIMED OUT to add machine")).
Proof.
  split; [reflexivity|]. split; [reflexivity|]. split; [reflexivity|].
  split; [reflexivity|]. split; [reflexivity|]. split; [reflexivity|].
  destruct timeout_fails_with_its_own_message as (Hreg & Hadd & _).
  destruct (Hreg unreachable (registration an_account) an_account "abc"
              (host silent) "Timeout exceeded." eq_refl eq_refl eq_refl eq_refl)
    as [R D].
  destruct (Hadd unreachable "10.0.0.2" (host silent) "Timeout exceeded."
              eq_refl) as [A _].
  split; [exact R|]. split; [exact (D eq_refl)|exact A].
Defined.

(** The user listing cannot reach the controller. *)
Lemma unreachable_user_listing_fails :
  reaches_query unreachable (CheckCreateJujuUser "ubuntu")
  /\ _juju_cmd unreachable (query unreachable (CheckCreateJujuUser "ubuntu"))
     = Raises refused
  /\ benign (CheckCreateJujuUser "ubuntu")
            "ERROR cannot connect to API: dial tcp 10.0.0.1:17070: connect: connection refused"
     = false
  /\ check unreachable (CheckCreateJujuUser "ubuntu")
     = Returns (mkResult FAILED (Some (str refused))).
Proof.
  split; [exact I|]. split; [reflexivity|]. split; [reflexivity|].
  exact (proj1 failed_query_fails_skip_check unreachable
           (CheckCreateJujuUser "ubuntu") _ _ I eq_refl eq_refl).
Defined.

(** C5, as worded, fails: the controller lookup of the bootstrap check
    cannot reach the controller, the command exits with an error, and the
    check answers [COMPLETED]. *)
Lemma bootstrap_check_proceeds_on_failed_lookup :
  _juju_cmd only_clouds ["show-controller"; bootstrap_controller bootstrap]
  = Raises refused
  /\ fst (BootstrapJujuStep_is_skip only_clouds bootstrap)
     = Returns (mkResult COMPLETED None)
  /\ ~ (exists m, fst (BootstrapJujuStep_is_skip only_clouds bootstrap)
                  = Returns (mkResult FAILED m)).
Proof.
  split; [reflexivity|]. split; [reflexivity|].
  intros [m H]. vm_compute in H. discriminate.
Qed.

(** A process that stays silent after its first prompt: the file holds the
    prompt, and the password that was sent is not in it. *)
Example silent_process_file :
  files (snd (RegisterJujuUserStep_run unreachable (registration an_account)
                (host silent)))
  !! register_log_file unreachable (registration an_account)
  = Some "Enter a new password: "
  /\ contains (password an_account) "Enter a new password: " = false
  /\ stdin (child (snd (RegisterJujuUserStep_run unreachable
                          (registration an_account) (host silent))))
     = password an_account +:+ linesep.
Proof. vm_compute. repeat split. Qed.

(** The login check answers [SKIPPED] when the command it spawns ends
    without either prompt, as it does when it exits with an error. *)
Example login_check_skips_at_end_of_stream :
  fst (JujuLoginStep_is_skip unreachable (Some an_account)
         (host (Eof "ERROR No controllers registered."
                    "ERROR No controllers registered.")))
  = Returns (mkResult SKIPPED None).
Proof. reflexivity. Qed.

(** The registration check lets the failure of the store through. *)
Example register_check_raises_when_store_fails :
  fst (RegisterJujuUserStep_is_skip
         (mkEnv "admin/controller" "juju" "common"
                (fun _ => Raises (CalledProcessError "exit status 1"
                                    "ERROR No controllers registered."))
                (fun _ => Returns an_account)
                (fun _ => Raises (OtherException "ClusterServiceUnavailableException"))
                (fun n => Returns (mkNode n [] 0)))
         (registration an_account))
  = Raises (OtherException "ClusterServiceUnavailableException").
Proof. reflexivity. Qed.

End Instances.

(** ** Scales, storage variables and the skip check once more *)

Section PlanningFacts.

Import Clusterd Openstack Planner.
Local Open Scope Z_scope.

Variable ext : Ext.

(** X1: with at least one control node the three scales are ordered,
    [1 <= ha <= ingress <= api <= 7], the first two staying within 3 and the
    ingress scale within the number of control nodes; without control nodes
    and away from ["single"] the ingress and API scales follow the count
    below 1 while the HA scale stays 1. *)
Theorem scales_are_ordered :
  (forall topology control_nodes api,
      1 <= control_nodes ->
      compute_os_api_scale topology control_nodes = Returns api ->
      1 <= compute_ha_scale topology control_nodes
      /\ compute_ha_scale topology control_nodes
         <= compute_ingress_scale topology control_nodes
      /\ compute_ingress_scale topology control_nodes <= api
      /\ api <= 7
      /\ compute_ingress_scale topology control_nodes <= 3
      /\ compute_ingress_scale topology control_nodes <= control_nodes)
  /\ (forall topology control_nodes,
        topology <> "single" -> control_nodes <= 0 ->
        compute_ha_scale topology control_nodes = 1
        /\ compute_ingress_scale topology control_nodes = control_nodes
        /\ compute_os_api_scale topology control_nodes = Returns control_nodes).
Proof.
  split.
  - intros topology cn api Hcn.
    unfold compute_os_api_scale, compute_ha_scale, compute_ingress_scale.
    destruct (String.eqb topology "single"); simpl.
    + intros [= <-]. lia.
    + destruct (Z.ltb_spec cn 3) as [Hlt|Hge];
        destruct (String.eqb topology "multi"); simpl;
        try (intros [= <-]; lia).
      destruct (String.eqb topology "large"); [|discriminate].
      intros [= <-]. lia.
  - intros topology cn Hs Hcn.
    unfold compute_os_api_scale, compute_ha_scale, compute_ingress_scale.
    rewrite (neqb_literal _ _ Hs). simpl.
    destruct (Z.ltb_spec cn 3) as [Hlt|Hge]; [|lia].
    rewrite orb_true_r. repeat split; f_equal; lia.
Qed.

(** X2: without storage nodes Ceph is switched off and the OSDs are not
    counted, so a count that cannot be obtained does no harm; with storage
    nodes the replication count is the number of OSDs capped at 3, and a
    count that cannot be obtained is an exception of the call.  Ceph is off
    in the variables exactly when there is no storage node. *)
Theorem storage_tfvars_follow_storage_nodes
        (self : DeployControlPlaneStep) (storage_nodes : list Node) :
  (storage_nodes = [] ->
     get_storage_tfvars ext self storage_nodes
     = Returns {["enable-ceph" := TBool false]})
  /\ (forall osds, storage_nodes <> [] ->
        get_number_of_osds ext (machine_model self) = Returns osds ->
        exists v,
          get_storage_tfvars ext self storage_nodes = Returns v
          /\ v !! "enable-ceph" = Some (TBool true)
          /\ v !! "ceph-osd-replication-count" = Some (TInt (Z.min osds 3))
          /\ v !! "ceph-offer-url"
             = Some (TStr ("admin/" +:+ machine_model self +:+ "."
                           +:+ microceph_APPLICATION ext)))
  /\ (forall e, storage_nodes <> [] ->
        get_number_of_osds ext (machine_model self) = Raises e ->
        get_storage_tfvars ext self storage_nodes = Raises e)
  /\ (forall v, get_storage_tfvars ext self storage_nodes = Returns v ->
        ceph_disabled v = bool_decide (storage_nodes = [])).
Proof.
  unfold get_storage_tfvars.
  split; [|split; [|split]].
  - intros ->. reflexivity.
  - intros osds Hne Ho. destruct storage_nodes as [|n l]; [congruence|].
    rewrite Ho. eexists. split; [reflexivity|].
    split; [|split].
    + rewrite lookup_insert_ne by discriminate.
      rewrite lookup_insert_ne by discriminate.
      apply lookup_singleton_eq.
    + apply lookup_insert_eq.
    + rewrite lookup_insert_ne by discriminate. apply lookup_insert_eq.
  - intros e Hne Ho. destruct storage_nodes as [|n l]; [congruence|].
    now rewrite Ho.
  - intros v. destruct storage_nodes as [|n l].
    + intros [= <-]. reflexivity.
    + destruct (get_number_of_osds ext (machine_model self)); [|discriminate].
      intros [= <-]. unfold ceph_disabled.
      rewrite lookup_insert_ne by discriminate.
      rewrite lookup_insert_ne by discriminate.
      rewrite lookup_singleton_eq. reflexivity.
Qed.

Lemma settled_twice (self : DeployControlPlaneStep) (w : World) :
  settled ext (settled ext self w) w = settled ext self w.
Proof.
  destruct self as [t d mm ps f m c].
  unfold settled, set_database, set_topology, planned_database. simpl.
  f_equal.
  - unfold determined_topology.
    destruct (String.eqb t "auto") eqn:Et; [|now rewrite Et].
    destruct (_ && _); [reflexivity|]. destruct (_ <? 10); reflexivity.
  - destruct (String.eqb d "auto") eqn:Ed.
    + destruct (String.eqb (default _ _) "large") eqn:El; [reflexivity|].
      destruct (String.eqb (default _ _) "auto") eqn:Ea; rewrite El;
        reflexivity.
    + destruct (String.eqb d "large") eqn:El; [reflexivity|].
      now rewrite Ed, El.
Qed.

(** X3: the skip check of the control-plane deployment settles the step
    once: called again on the step it left, in the same world, it returns
    the same result and leaves the same step and world. *)
Theorem is_skip_twice (self : DeployControlPlaneStep) (w : World) :
  is_skip ext (snd (is_skip ext (self, w))) = is_skip ext (self, w).
Proof.
  rewrite (is_skip_eq ext self w). cbn [snd].
  rewrite (is_skip_eq ext (settled ext self w) w).
  now rewrite settled_twice.
Qed.

Lemma compute_os_api_scale_unknown (topology : string) (control_nodes : Z) :
  topology <> "single" -> topology <> "multi" -> topology <> "large" ->
  3 <= control_nodes ->
  compute_os_api_scale topology control_nodes
  = Raises (ValueError ("Unknown topology " +:+ topology)).
Proof.
  intros Hs Hm Hl Hge. unfold compute_os_api_scale.
  rewrite (neqb_literal _ _ Hs), (neqb_literal _ _ Hm), (neqb_literal _ _ Hl).
  apply Z.ltb_ge in Hge. now rewrite Hge.
Qed.

(** X4: the skip check of the control-plane deployment never answers
    [SKIPPED]; it refuses a ["single"] database under a ["large"] topology
    exactly when the database guard passes and [force] is off, and with
    [force] on it answers [COMPLETED] whenever the database guard passes. *)
Theorem is_skip_single_database_large_topology
        (self : DeployControlPlaneStep) (w : World) :
  let after := fst (snd (is_skip ext (self, w))) in
  let guard_fails :=
    fst (is_skip ext (self, w))
    = Returns (mkResult FAILED (Some database_changed_message)) in
  (forall r, fst (is_skip ext (self, w)) = Returns r -> result_type r <> SKIPPED)
  /\ (fst (is_skip ext (self, w))
      = Returns (mkResult FAILED (Some single_database_large_message))
      <-> ~ guard_fails /\ force self = false
          /\ database after = "single" /\ topology after = "large")
  /\ (force self = true -> ~ guard_fails ->
      fst (is_skip ext (self, w)) = Returns (mkResult COMPLETED None)).
Proof.
  intros after guard_fails. subst after guard_fails.
  rewrite is_skip_eq. cbn [fst snd]. unfold verdict.
  assert (Hforce : force (settled ext self w) = force self) by now destruct self.
  rewrite Hforce.
  destruct (option_truthy (persisted_database w)
            && negb (bool_decide (persisted_database w
                                  = Some (database (settled ext self w)))));
    cbn [negb].
  - split; [|split].
    + now intros r [= <-].
    + split; [discriminate|]. intros [H _]. now destruct H.
    + intros _ H. now destruct H.
  - destruct (force self); cbn [negb andb].
    + split; [|split].
      * now intros r [= <-].
      * split; [discriminate|]. intros (_ & H & _). discriminate.
      * reflexivity.
    + destruct (String.eqb_spec (database (settled ext self w)) "single")
        as [Ed|Ed];
        destruct (String.eqb_spec (topology (settled ext self w)) "large")
        as [Et|Et]; cbn [andb].
      * split; [|split]; [now intros r [= <-]| |discriminate].
        split; [intros _|reflexivity].
        repeat split; try assumption. discriminate.
      * split; [|split]; [now intros r [= <-]| |discriminate].
        split; [discriminate|]. intros (_ & _ & _ & H). contradiction.
      * split; [|split]; [now intros r [= <-]| |discriminate].
        split; [discriminate|]. intros (_ & _ & H & _). contradiction.
      * split; [|split]; [now intros r [= <-]| |discriminate].
        split; [discriminate|]. intros (_ & _ & H & _). contradiction.
Qed.

Lemma planned_database_stable
      (determined determined' : string) (persisted : option string)
      (requested : string) :
  planned_database determined'
    (Some (planned_database determined persisted requested)) requested
  = planned_database determined persisted requested
  /\ planned_database determined'
       (Some (planned_database determined persisted requested)) "auto"
     = planned_database determined persisted requested.
Proof.
  pose proof (planned_database_not_large determined persisted requested) as Hnl.
  apply String.eqb_neq in Hnl.
  assert (Hdb : String.eqb requested "auto" = false ->
                planned_database determined persisted requested
                = if String.eqb requested "large" then "multi" else requested).
  { intros Ea. unfold planned_database. now rewrite Ea. }
  remember (planned_database determined persisted requested) as db eqn:Edb.
  split.
  - unfold planned_database.
    destruct (String.eqb requested "auto") eqn:Ea.
    + simpl. now rewrite Hnl.
    + symmetry. now apply Hdb.
  - unfold planned_database. simpl. now rewrite Hnl.
Qed.

(** X5: what [run] persists passes the database guard of a later check: in
    the world a run of the settled step leaves, a plan that asks for the same
    database topology, or for ["auto"], is not refused for changing it. *)
Theorem persisted_database_passes_later_check
        (self later : DeployControlPlaneStep) (w : World) :
  database later = database self \/ database later = "auto" ->
  let w' := snd (snd (run ext (settled ext self w, w))) in
  persisted_database w' = Some (database (settled ext self w))
  /\ fst (is_skip ext (later, w'))
     <> Returns (mkResult FAILED (Some database_changed_message)).
Proof.
  intros Hl w'.
  assert (Hp : persisted_database w' = Some (database (settled ext self w))).
  { destruct (run_world ext (settled ext self w) w) as (_ & Hc & _).
    unfold w', persisted_database, persisted_topology. rewrite Hc. simpl.
    rewrite lookup_insert_eq. simpl. apply lookup_insert_eq. }
  split; [exact Hp|].
  intros H. apply is_skip_database_failure in H.
  destruct H as (db & E & _ & Hne). rewrite Hp in E. injection E as <-.
  apply Hne. clear Hne.
  unfold settled. cbn [database set_database set_topology].
  destruct Hl as [-> | ->]; apply planned_database_stable.
Qed.

(** X6: [run] writes the topology item before it applies the plan: when the
    apply fails, [run] returns [FAILED] with the message of the error, no
    status task has been started, and the item is persisted all the same. *)
Theorem failed_apply_keeps_written_topology
        (self : DeployControlPlaneStep) (w : World) (msg : string) :
  (forall v, update_tfvars_and_apply_tf ext CONFIG_KEY (Some v)
             = Raises (TerraformException msg)) ->
  (exists v, get_storage_tfvars ext self (list_nodes_by_role (client w) "storage")
             = Returns v) ->
  (exists n, compute_os_api_scale (topology self)
               (Z.of_nat (length (list_nodes_by_role (client w) "control")))
             = Returns n) ->
  fst (run ext (self, w)) = Returns (mkResult FAILED (Some msg))
  /\ tasks (snd (snd (run ext (self, w)))) = tasks w
  /\ persisted_topology (snd (snd (run ext (self, w))))
     = Some (<["database" := database self]> {["topology" := topology self]}).
Proof.
  intros Ha [v Hv] [n Hn].
  destruct (run_world ext self w) as (_ & Hc & _).
  split; [|split].
  - cbv [run bind get_self set_self on_world on_client update_config modify
         gets lift try_except ret fst snd].
    destruct w as [c ram ts]. cbv [client with_client] in *.
    change (list_nodes_by_role (mkClient (nodes c) _) ?r)
      with (list_nodes_by_role c r).
    rewrite Hv, Hn, Ha. reflexivity.
  - cbv [run bind get_self set_self on_world on_client update_config modify
         gets lift try_except ret fst snd].
    destruct w as [c ram ts]. cbv [client with_client] in *.
    change (list_nodes_by_role (mkClient (nodes c) _) ?r)
      with (list_nodes_by_role c r).
    rewrite Hv, Hn, Ha. reflexivity.
  - unfold persisted_topology. rewrite Hc. apply lookup_insert_eq.
Qed.

(** X7: a topology that is none of ["single"], ["multi"], ["large"], such as
    an ["auto"] that no skip check resolved, makes [run] raise [ValueError]
    when there are three control nodes or more: the error is not turned into
    a result, nothing is applied, and the topology item is already written. *)
Theorem unresolved_topology_escapes_run
        (self : DeployControlPlaneStep) (w : World) :
  topology self <> "single" -> topology self <> "multi" ->
  topology self <> "large" ->
  3 <= Z.of_nat (length (list_nodes_by_role (client w) "control")) ->
  (exists v, get_storage_tfvars ext self (list_nodes_by_role (client w) "storage")
             = Returns v) ->
  fst (run ext (self, w))
  = Raises (ValueError ("Unknown topology " +:+ topology self))
  /\ tasks (snd (snd (run ext (self, w)))) = tasks w
  /\ persisted_topology (snd (snd (run ext (self, w))))
     = Some (<["database" := database self]> {["topology" := topology self]}).
Proof.
  intros Hs Hm Hl Hn [v Hv].
  destruct (run_world ext self w) as (_ & Hc & _).
  assert (Ha : compute_os_api_scale (topology self)
                 (Z.of_nat (length (list_nodes_by_role (client w) "control")))
               = Raises (ValueError ("Unknown topology " +:+ topology self))).
  { apply (compute_os_api_scale_unknown _ _ Hs Hm Hl Hn). }
  split; [|split].
  - cbv [run bind get_self set_self on_world on_client update_config modify
         gets lift try_except ret fst snd].
    destruct w as [c ram ts]. cbv [client with_client] in *.
    change (list_nodes_by_role (mkClient (nodes c) _) ?r)
      with (list_nodes_by_role c r).
    rewrite Hv, Ha. reflexivity.
  - cbv [run bind get_self set_self on_world on_client update_config modify
         gets lift try_except ret fst snd].
    destruct w as [c ram ts]. cbv [client with_client] in *.
    change (list_nodes_by_role (mkClient (nodes c) _) ?r)
      with (list_nodes_by_role c r).
    rewrite Hv, Ha. reflexivity.
  - unfold persisted_topology. rewrite Hc. apply lookup_insert_eq.
Qed.

End PlanningFacts.

(** ** Load-balancer annotations *)

Section KubeFacts.

Import Clusterd Kube.

Section Loops.

(** The name of the load-balancer annotation. *)
Variable lb : string.

Lemma only_annotated_refl (c : Cluster) : only_annotated lb c c.
Proof. split; [reflexivity|]. intros name. now left. Qed.

Lemma only_annotated_trans (c1 c2 c3 : Cluster) :
  only_annotated lb c1 c2 -> only_annotated lb c2 c3 ->
  only_annotated lb c1 c3.
Proof.
  intros [S1 H1] [S2 H2]. split; [congruence|].
  intros name. destruct (H2 name) as [E2|(svc & a & ip & ips & E & Ea & En & Ei & E3)].
  - rewrite E2. apply H1.
  - destruct (H1 name) as [E1|(svc' & a' & ip' & ips' & _ & _ & _ & _ & E1)].
    + right. exists svc, a, ip, ips. rewrite <- E1. auto.
    + rewrite E1 in E. injection E as <-. simpl in Ea. injection Ea as <-.
      rewrite lookup_insert_eq in En. discriminate.
Qed.

Lemma annotated_kept (c c' : Cluster) (name : string) :
  annotated lb c name -> only_annotated lb c c' -> annotated lb c' name.
Proof.
  intros (svc & a & E & Ea & Hs) [_ H].
  destruct (H name) as [E'|(svc' & a' & ip & ips & E' & Ea' & En & _)].
  - exists svc, a. rewrite E'. auto.
  - rewrite E in E'. injection E' as <-. rewrite Ea in Ea'. injection Ea' as <-.
    rewrite En in Hs. now destruct Hs.
Qed.

(** One turn of the loop of [run], and of the loop of [is_skip]. *)
Lemma patch_services_step (name : string) (rest : list string) (c : Cluster) :
  patch_services lb (name :: rest) c
  = match services c !! name with
    | None => (Raises (OtherException "ApiError"), c)
    | Some svc =>
        match not_annotated lb svc with
        | Raises e => (Raises e, c)
        | Returns false => patch_services lb rest c
        | Returns true =>
            match first_ingress_ip svc with
            | Raises e => (Raises e, c)
            | Returns ip =>
                patch_services lb rest
                  (mkCluster (store c)
                     (<[name := mkService
                                  (Some (<[lb := ip]>
                                           (default ∅ (annotations svc))))
                                  (ingress svc)]> (services c)))
            end
        end
    end.
Proof.
  cbn [patch_services]. unfold bind, kube_get, lift, kube_patch, modify, ret.
  destruct (services c !! name) as [svc|]; [|reflexivity].
  destruct (not_annotated lb svc) as [[]|]; [|reflexivity|reflexivity].
  destruct (first_ingress_ip svc); reflexivity.
Qed.

Lemma check_services_step (name : string) (rest : list string) (c : Cluster) :
  check_services lb (name :: rest) c
  = match services c !! name with
    | None => (Raises (OtherException "ApiError"), c)
    | Some svc =>
        match not_annotated lb svc with
        | Raises e => (Raises e, c)
        | Returns false => check_services lb rest c
        | Returns true => (Returns (Some (mkResult COMPLETED None)), c)
        end
    end.
Proof.
  cbn [check_services]. unfold bind, kube_get, lift, ret.
  destruct (services c !! name) as [svc|]; [|reflexivity].
  destruct (not_annotated lb svc) as [[]|]; reflexivity.
Qed.

Lemma patch_services_cons (name : string) (rest : list string) (c : Cluster) :
  (exists e, patch_services lb (name :: rest) c = (Raises e, c))
  \/ (annotated lb c name
      /\ patch_services lb (name :: rest) c = patch_services lb rest c)
  \/ (exists c1, only_annotated lb c c1 /\ annotated lb c1 name
                 /\ patch_services lb (name :: rest) c
                    = patch_services lb rest c1).
Proof.
  rewrite patch_services_step. unfold not_annotated, first_ingress_ip.
  destruct (services c !! name) as [svc|] eqn:E; [|left; eauto].
  destruct (annotations svc) as [a|] eqn:Ea; [|left; eauto].
  case_bool_decide as Hl.
  - destruct (ingress svc) as [[|ip ips]|] eqn:Ei; [left; eauto| |left; eauto].
    right. right. cbn [default].
    eexists. split; [|split; [|reflexivity]].
    + split; [reflexivity|]. intros n. cbn [services].
      destruct (decide (n = name)) as [->|Hne].
      * right. exists svc, a, ip, ips. rewrite lookup_insert_eq, Ei. auto.
      * left. now rewrite lookup_insert_ne.
    + eexists _, (<[lb := ip]> a).
      cbn [services annotations]. rewrite !lookup_insert_eq. eauto.
  - right. left. split; [|reflexivity].
    exists svc, a. repeat split; try assumption.
    destruct (a !! lb); [eauto|congruence].
Qed.

Lemma patch_services_frame (names : list string) :
  forall c, only_annotated lb c (snd (patch_services lb names c)).
Proof.
  induction names as [|name rest IH]; intros c; [apply only_annotated_refl|].
  destruct (patch_services_cons name rest c)
    as [[e ->]|[[_ ->]|(c1 & H1 & _ & ->)]].
  - apply only_annotated_refl.
  - apply IH.
  - eapply only_annotated_trans; [exact H1|apply IH].
Qed.

Lemma patch_services_annotates (names : list string) :
  forall c c', patch_services lb names c = (Returns tt, c') ->
               forall name, name ∈ names -> annotated lb c' name.
Proof.
  induction names as [|n rest IH]; intros c c' H name Hin.
  - now apply elem_of_nil in Hin.
  - destruct (patch_services_cons n rest c)
      as [[e E]|[[Ha E]|(c1 & H1 & Ha & E)]]; rewrite E in H.
    + discriminate.
    + apply elem_of_cons in Hin as [->|Hin]; [|now apply (IH c c')].
      apply (annotated_kept c); [exact Ha|].
      pose proof (patch_services_frame rest c) as F. now rewrite H in F.
    + apply elem_of_cons in Hin as [->|Hin]; [|now apply (IH c1 c')].
      apply (annotated_kept c1); [exact Ha|].
      pose proof (patch_services_frame rest c1) as F. now rewrite H in F.
Qed.

Lemma annotated_step (name : string) (c : Cluster) :
  annotated lb c name ->
  exists svc, services c !! name = Some svc
              /\ not_annotated lb svc = Returns false.
Proof.
  intros (svc & a & E & Ea & Hs). exists svc. unfold not_annotated.
  rewrite Ea. split; [exact E|].
  rewrite bool_decide_false; [reflexivity|]. destruct Hs. congruence.
Qed.

Lemma all_annotated_loops (names : list string) (c : Cluster) :
  (forall name, name ∈ names -> annotated lb c name) ->
  check_services lb names c = (Returns None, c)
  /\ patch_services lb names c = (Returns tt, c).
Proof.
  induction names as [|n rest IH]; intros H; [split; reflexivity|].
  destruct (annotated_step n c) as (svc & G & N); [apply H; left|].
  destruct IH as [I1 I2]; [intros name Hn; apply H; now right|].
  rewrite check_services_step, patch_services_step, G, N. now split.
Qed.

Lemma check_services_spec (names : list string) :
  forall c,
    snd (check_services lb names c) = c
    /\ (forall r, fst (check_services lb names c) = Returns (Some r) ->
                  r = mkResult COMPLETED None)
    /\ (fst (check_services lb names c) = Returns None ->
        forall name, name ∈ names -> annotated lb c name).
Proof.
  induction names as [|n rest IH]; intros c.
  - split; [reflexivity|]. split; [discriminate|].
    intros _ name Hin. now apply elem_of_nil in Hin.
  - rewrite check_services_step. unfold not_annotated.
    destruct (services c !! n) as [svc|] eqn:E;
      [|split; [reflexivity|split; discriminate]].
    destruct (annotations svc) as [a|] eqn:Ea;
      [|split; [reflexivity|split; discriminate]].
    case_bool_decide as Hl.
    + split; [reflexivity|]. split; [now intros r [= <-]|discriminate].
    + destruct (IH c) as (I1 & I2 & I3). split; [exact I1|].
      split; [exact I2|].
      intros H name Hin. apply elem_of_cons in Hin as [->|Hin]; [|now apply I3].
      exists svc, a. repeat split; try assumption.
      destruct (a !! lb); [eauto|congruence].
Qed.

End Loops.

Variable ext : KubeExt.

Lemma on_store_read_config (key : string) (c : Cluster) :
  on_store (read_config key) c
  = (match config (store c) !! key with
     | Some v => Returns v
     | None => Raises ConfigItemNotFoundException
     end, c).
Proof.
  unfold on_store, read_config. destruct c as [st sv]. cbn [store services].
  destruct (config st !! key); reflexivity.
Qed.

(** The skip check in closed form. *)
Lemma kube_is_skip_eq (self : PatchLoadBalancerServicesStep) (c : Cluster) :
  is_skip ext (self, c)
  = match config (store c) !! get_kubeconfig_key ext with
    | None => (Returns (mkResult FAILED (Some "K8S kubeconfig not found")),
               (self, c))
    | Some cfg =>
        match KubeClient ext cfg with
        | Some msg =>
            (Returns (mkResult FAILED (Some msg)),
             (mkPatch (Some cfg) (kube self), c))
        | None =>
            (match fst (check_services (get_loadbalancer_annotation ext)
                                       SERVICES c) with
             | Returns (Some r) => Returns r
             | Returns None => Returns (mkResult SKIPPED None)
             | Raises e => Raises e
             end, (mkPatch (Some cfg) true, c))
        end
    end.
Proof.
  unfold is_skip. unfold bind at 1. unfold try_except.
  unfold bind at 1. unfold on_world at 1. cbn [snd fst].
  rewrite on_store_read_config.
  destruct (config (store c) !! get_kubeconfig_key ext) as [cfg|];
    [|reflexivity].
  unfold bind at 1. unfold set_self at 1. unfold modify. cbn [fst snd ret].
  destruct (KubeClient ext cfg) as [msg|]; [reflexivity|].
  unfold bind at 1. unfold set_self at 1. unfold modify. cbn [fst snd].
  unfold bind at 1. unfold on_world. cbn [fst snd kubeconfig].
  destruct (check_services_spec (get_loadbalancer_annotation ext)
                SERVICES c) as [Hs _].
  destruct (check_services _ SERVICES c) as [o c'] eqn:E.
  cbn [snd fst] in *.
  subst c'. destruct o as [[r|]|e]; reflexivity.
Qed.

(** X9: when [run] returns, it returns [COMPLETED], each of the four
    services carries the load-balancer annotation, and a skip check made
    afterwards, with the kubeconfig item in the store and a client that can
    be created, answers [SKIPPED]. *)
Theorem run_then_is_skip_skips
        (self self' later : PatchLoadBalancerServicesStep) (c c' : Cluster)
        (r : Result) (cfg : dict) :
  run ext (self, c) = (Returns r, (self', c')) ->
  config (store c) !! get_kubeconfig_key ext = Some cfg ->
  KubeClient ext cfg = None ->
  r = mkResult COMPLETED None
  /\ (forall name,
        name ∈ SERVICES -> annotated (get_loadbalancer_annotation ext) c' name)
  /\ fst (is_skip ext (later, c')) = Returns (mkResult SKIPPED None).
Proof.
  intros Hrun Hcfg Hk. unfold run in Hrun. unfold bind at 1 in Hrun.
  cbn [get_self gets fst] in Hrun. destruct (kube self); [|discriminate].
  unfold bind, on_world in Hrun. cbn [fst snd] in Hrun.
  destruct (patch_services _ SERVICES c) as [[[]|e] c1] eqn:E;
    [|discriminate].
  injection Hrun as <- <- <-.
  pose proof (patch_services_annotates (get_loadbalancer_annotation ext)
                SERVICES c c1 E) as Ha.
  pose proof (patch_services_frame (get_loadbalancer_annotation ext)
                SERVICES c) as [Hst _].
  rewrite E in Hst. cbn [snd] in Hst.
  split; [reflexivity|]. split; [exact Ha|].
  rewrite kube_is_skip_eq, Hst, Hcfg, Hk. cbn [fst].
  now rewrite (proj1 (all_annotated_loops (get_loadbalancer_annotation ext)
                SERVICES c1 Ha)).
Qed.

(** X10: when the skip check answers [SKIPPED], a [run] made all the same
    returns [COMPLETED] and patches nothing. *)
Theorem skipped_run_patches_nothing
        (self : PatchLoadBalancerServicesStep) (c : Cluster) :
  fst (is_skip ext (self, c)) = Returns (mkResult SKIPPED None) ->
  run ext (snd (is_skip ext (self, c)))
  = (Returns (mkResult COMPLETED None), snd (is_skip ext (self, c)))
  /\ snd (snd (is_skip ext (self, c))) = c.
Proof.
  rewrite kube_is_skip_eq.
  destruct (config (store c) !! get_kubeconfig_key ext) as [cfg|];
    [|discriminate].
  destruct (KubeClient ext cfg) as [msg|]; [discriminate|].
  cbn [fst snd]. intros H.
  destruct (check_services_spec (get_loadbalancer_annotation ext)
                SERVICES c) as (_ & Hc & Hall).
  destruct (fst (check_services _ SERVICES c)) as [[r|]|e] eqn:E;
    try discriminate.
  - injection H as ->. now specialize (Hc _ eq_refl).
  - split; [|reflexivity].
    unfold run. unfold bind at 1. cbn [get_self gets fst kube].
    unfold bind, on_world. cbn [fst snd].
    now rewrite (proj2 (all_annotated_loops (get_loadbalancer_annotation ext)
                SERVICES c (Hall eq_refl))).
Qed.

(** X11: however [run] ends, with a result or with an exception half way,
    all it has done is to add the annotation, with the first ingress address
    as its value, to services that lacked it: the store, the other services,
    the other annotations and an annotation already set are as they were. *)
Theorem run_only_annotates
        (self : PatchLoadBalancerServicesStep) (c : Cluster) :
  only_annotated (get_loadbalancer_annotation ext) c
                 (snd (snd (run ext (self, c)))).
Proof.
  unfold run. unfold bind at 1. cbn [get_self gets fst].
  destruct (kube self); [|apply only_annotated_refl].
  unfold bind, on_world. cbn [fst snd].
  pose proof (patch_services_frame (get_loadbalancer_annotation ext)
                SERVICES c) as F.
  destruct (patch_services _ SERVICES c) as [[[]|e] c1]; exact F.
Qed.

(** X12: the skip check only reads: it leaves the store and the services as
    they are.  Without the kubeconfig item it fails with "K8S kubeconfig not
    found", a client that cannot be created fails it with the error's text,
    and it answers [COMPLETED] at the first service without the annotation,
    whatever the state of the services after it. *)
Theorem kube_is_skip_reads_only
        (self : PatchLoadBalancerServicesStep) (c : Cluster) :
  snd (snd (is_skip ext (self, c))) = c
  /\ (config (store c) !! get_kubeconfig_key ext = None ->
      fst (is_skip ext (self, c))
      = Returns (mkResult FAILED (Some "K8S kubeconfig not found")))
  /\ (forall cfg msg,
        config (store c) !! get_kubeconfig_key ext = Some cfg ->
        KubeClient ext cfg = Some msg ->
        fst (is_skip ext (self, c)) = Returns (mkResult FAILED (Some msg)))
  /\ (forall cfg svc a,
        config (store c) !! get_kubeconfig_key ext = Some cfg ->
        KubeClient ext cfg = None ->
        services c !! "traefik" = Some svc -> annotations svc = Some a ->
        a !! (get_loadbalancer_annotation ext) = None ->
        fst (is_skip ext (self, c)) = Returns (mkResult COMPLETED None)).
Proof.
  rewrite kube_is_skip_eq. split; [|split; [|split]].
  - destruct (config (store c) !! get_kubeconfig_key ext) as [cfg|];
      [|reflexivity].
    destruct (KubeClient ext cfg); reflexivity.
  - now intros ->.
  - intros cfg msg -> ->. reflexivity.
  - intros cfg svc a -> -> Hs Ha Hl. cbn [fst SERVICES check_services].
    unfold bind at 1. unfold kube_get. rewrite Hs.
    unfold bind at 1. unfold lift, not_annotated. rewrite Ha.
    rewrite bool_decide_true by assumption. reflexivity.
Qed.

End KubeFacts.

(** ** Charm URLs and channels *)

Section CharmFacts.

Import Stdlib.Strings.Ascii Charm.

Lemma free_of_split_pieces (sep : Ascii.ascii) (s : string) :
  free_of sep s = true -> split_pieces sep s = (s, []).
Proof.
  induction s as [|a s IH]; [reflexivity|]. cbn [free_of split_pieces].
  intros H. apply andb_prop in H as [Ha Hs]. rewrite (IH Hs).
  apply negb_true_iff in Ha. now rewrite Ha.
Qed.

Lemma free_of_split (sep : Ascii.ascii) (s : string) :
  free_of sep s = true -> split sep s = [s].
Proof. intros H. unfold split. now rewrite free_of_split_pieces. Qed.

Lemma split_nonempty (sep : Ascii.ascii) (s : string) :
  exists piece pieces, split sep s = piece :: pieces.
Proof. unfold split. destruct (split_pieces sep s); eauto. Qed.

Lemma split_pieces_append (sep : Ascii.ascii) (s t : string) :
  split_pieces sep (s +:+ String sep t)
  = (fst (split_pieces sep s), (snd (split_pieces sep s) ++ split sep t)%list).
Proof.
  induction s as [|a s IH].
  - change (EmptyString +:+ String sep t) with (String sep t).
    cbn [split_pieces]. unfold split. destruct (split_pieces sep t).
    now rewrite Ascii.eqb_refl.
  - rewrite append_cons. cbn [split_pieces]. rewrite IH.
    destruct (split_pieces sep s) as [p ps]. cbn [fst snd].
    destruct (Ascii.eqb a sep); reflexivity.
Qed.

Lemma split_append (sep : Ascii.ascii) (s t : string) :
  free_of sep s = true ->
  split sep (s +:+ String sep t) = s :: split sep t.
Proof.
  intros H. unfold split at 1. rewrite split_pieces_append.
  now rewrite (free_of_split_pieces _ _ H).
Qed.

Lemma last_split_append (sep : Ascii.ascii) (s t : string) :
  last (split sep (s +:+ String sep t)) = last (split sep t).
Proof.
  unfold split at 1. rewrite split_pieces_append.
  destruct (split_nonempty sep t) as (p & ps & E).
  rewrite app_comm_cons, last_app, E.
  destruct (last (p :: ps)) eqn:L; [reflexivity|].
  now apply last_None in L.
Qed.

Lemma rpartition_free (sep : Ascii.ascii) (s : string) :
  free_of sep s = true -> rpartition sep s = None.
Proof.
  induction s as [|a s IH]; [reflexivity|]. cbn [free_of rpartition].
  intros H. apply andb_prop in H as [Ha Hs]. rewrite (IH Hs).
  apply negb_true_iff in Ha. now rewrite Ha.
Qed.

Lemma rpartition_append (sep : Ascii.ascii) (s t : string) :
  free_of sep t = true -> rpartition sep (s +:+ String sep t) = Some (s, t).
Proof.
  intros H. induction s as [|a s IH].
  - change (EmptyString +:+ String sep t) with (String sep t).
    cbn [rpartition]. rewrite (rpartition_free _ _ H).
    now rewrite Ascii.eqb_refl.
  - rewrite append_cons. cbn [rpartition]. now rewrite IH.
Qed.

Lemma free_of_append (sep : Ascii.ascii) (s t : string) :
  free_of sep (s +:+ t) = free_of sep s && free_of sep t.
Proof.
  induction s as [|a s IH]; [reflexivity|].
  rewrite append_cons. cbn [free_of]. rewrite IH. apply andb_assoc.
Qed.

Lemma risk_cases (r : string) :
  r ∈ risks -> r = "stable" \/ r = "candidate" \/ r = "beta" \/ r = "edge".
Proof.
  unfold risks. rewrite !elem_of_cons, elem_of_nil. tauto.
Qed.

Lemma list_in_elem_of (x : string) (l : list string) :
  Openstack.list_in x l = true <-> x ∈ l.
Proof.
  unfold Openstack.list_in. induction l as [|y l IH]; cbn [existsb].
  - split; [discriminate|]. intros H. now apply elem_of_nil in H.
  - rewrite orb_true_iff, elem_of_cons, IH, String.eqb_eq. tauto.
Qed.

Lemma normalise_channel_with_slash (track risk : string) :
  normalise_channel (track +:+ "/" +:+ risk) = track +:+ "/" +:+ risk.
Proof.
  unfold normalise_channel.
  destruct (Openstack.list_in _ _) eqn:E; [|reflexivity].
  apply list_in_elem_of, risk_cases in E.
  assert (F : free_of "/" (track +:+ "/" +:+ risk) = false).
  { rewrite free_of_append. change ("/" +:+ risk) with (String "/" risk).
    cbn [free_of]. rewrite Ascii.eqb_refl. apply andb_false_r. }
  destruct E as [E|[E|[E|E]]]; rewrite E in F; discriminate.
Qed.

Lemma split_channel (track risk : string) :
  free_of "/" track = true -> free_of "/" risk = true ->
  split "/" (track +:+ "/" +:+ risk) = [track; risk].
Proof.
  intros Ht Hr. change ("/" +:+ risk) with (String "/" risk).
  rewrite (split_append _ _ _ Ht). now rewrite (free_of_split _ _ Hr).
Qed.

Lemma normalise_risk (channel : string) :
  channel ∈ risks -> normalise_channel channel = "latest/" +:+ channel.
Proof.
  intros H. unfold normalise_channel.
  now rewrite (proj2 (list_in_elem_of channel
                        ["stable"; "candidate"; "beta"; "edge"]) H).
Qed.

(** X13: normalising a channel twice is normalising it once; a bare risk
    becomes the two parts ["latest"] and the risk, and any other channel is
    left as it is. *)
Theorem normalise_channel_once (channel : string) :
  normalise_channel (normalise_channel channel) = normalise_channel channel
  /\ (channel ∈ risks ->
      split "/" (normalise_channel channel) = ["latest"; channel])
  /\ (channel ∉ risks -> normalise_channel channel = channel).
Proof.
  split; [|split].
  - assert (E : normalise_channel channel = channel
                \/ normalise_channel channel = "latest/" +:+ channel).
    { unfold normalise_channel. destruct (Openstack.list_in _ _); auto. }
    destruct E as [E|E]; rewrite E; [exact E|].
    exact (normalise_channel_with_slash "latest" channel).
  - intros H. rewrite (normalise_risk _ H).
    apply risk_cases in H. destruct H as [-> | [-> | [-> | ->]]]; reflexivity.
  - intros H. unfold normalise_channel.
    destruct (Openstack.list_in channel _) eqn:E; [|reflexivity].
    now apply list_in_elem_of in E.
Qed.

(** X14: from the URL of a charm, made of the series, a ["/"], the name, a
    ["-"] and the revision, the two extractions give back the name and the
    revision, provided the name holds no ["/"] and the revision neither
    ["/"] nor ["-"]; the name may hold ["-"]. *)
Theorem charm_url_round_trip (series name revision : string) :
  free_of "/" name = true ->
  free_of "/" revision = true ->
  free_of "-" revision = true ->
  _extract_charm_name (charm_url series name revision) = Returns name
  /\ _extract_charm_revision (charm_url series name revision)
     = Returns revision.
Proof.
  intros Hn Hr Hd. unfold charm_url. split.
  - unfold _extract_charm_name, item_last.
    change ("/" +:+ name +:+ "-" +:+ revision)
      with (String "/" (name +:+ "-" +:+ revision)).
    rewrite last_split_append. rewrite free_of_split.
    + cbn [last]. unfold rsplit1.
      change ("-" +:+ revision) with (String "-" revision).
      now rewrite (rpartition_append _ name _ Hd).
    + rewrite free_of_append, Hn.
      change ("-" +:+ revision) with (String "-" revision).
      cbn [free_of]. now rewrite Hr.
  - unfold _extract_charm_revision, item_last.
    assert (E : series +:+ "/" +:+ name +:+ "-" +:+ revision
                = (series +:+ "/" +:+ name) +:+ String "-" revision)
      by (now rewrite !append_assoc).
    rewrite E, last_split_append. now rewrite (free_of_split _ _ Hd).
Qed.

(** X15: the two extractions never raise; from a URL without ["-"] the
    revision extracted is the whole URL, and from one without ["/"] and
    without ["-"] the name extracted is the whole URL too. *)
Theorem charm_url_without_revision (charm_url : string) :
  (exists name, _extract_charm_name charm_url = Returns name)
  /\ (exists revision, _extract_charm_revision charm_url = Returns revision)
  /\ (free_of "-" charm_url = true ->
      _extract_charm_revision charm_url = Returns charm_url)
  /\ (free_of "-" charm_url = true -> free_of "/" charm_url = true ->
      _extract_charm_name charm_url = Returns charm_url).
Proof.
  assert (L : forall sep s, exists x, item_last (split sep s) = Returns x).
  { intros sep s. destruct (split_nonempty sep s) as (p & ps & ->).
    unfold item_last. destruct (last (p :: ps)) eqn:E; [eauto|].
    now apply last_None in E. }
  split; [|split; [|split]].
  - unfold _extract_charm_name. destruct (L "/"%char charm_url) as [x ->].
    unfold rsplit1. destruct (rpartition "-" x) as [[b t]|]; simpl; eauto.
  - apply L.
  - intros H. unfold _extract_charm_revision. now rewrite free_of_split.
  - intros Hd Hs. unfold _extract_charm_name. rewrite free_of_split by exact Hs.
    cbn [item_last last]. unfold rsplit1. now rewrite rpartition_free.
Qed.

Section Channels.

Variable version : Packaging.

(** X16: the new channel is not normalised: given without ["/"], a bare
    risk included, it makes the comparison raise [ValueError] whenever the
    current channel has its two parts, while a bare risk as the current
    channel is compared as ["latest/"] followed by the risk. *)
Theorem bare_new_channel_raises (channel new_channel : string) :
  (free_of "/" new_channel = true ->
   (exists track risk, split "/" (normalise_channel channel) = [track; risk]) ->
   channel_update_needed version channel new_channel
   = Raises (ValueError "not enough values to unpack (expected 2, got 1)"))
  /\ (channel ∈ risks ->
      channel_update_needed version channel new_channel
      = channel_update_needed version ("latest/" +:+ channel) new_channel).
Proof.
  split.
  - intros Hn (track & risk & Hc). unfold channel_update_needed.
    rewrite Hc. cbn [unpack2]. now rewrite (free_of_split _ _ Hn).
  - intros H. unfold channel_update_needed.
    change ("latest/" +:+ channel) with ("latest" +:+ "/" +:+ channel).
    rewrite (normalise_channel_with_slash "latest" channel).
    now rewrite (normalise_risk _ H).
Qed.




(** X18: between two tracks that differ the risks are not looked at, known
    or not: the answer is the comparison of the two tracks as versions, and
    [False] when one of them is not a version. *)
Theorem other_track_ignores_risks (track risk new_track new_risk : string) :
  free_of "/" track = true -> free_of "/" risk = true ->
  free_of "/" new_track = true -> free_of "/" new_risk = true ->
  track <> new_track ->
  channel_update_needed version (track +:+ "/" +:+ risk)
                        (new_track +:+ "/" +:+ new_risk)
  = Returns (match parse version track, parse version new_track with
             | Some current, Some new => lt version current new
             | _, _ => false
             end).
Proof.
  intros Ht Hr Hnt Hnr Hne. unfold channel_update_needed.
  rewrite normalise_channel_with_slash.
  rewrite (split_channel _ _ Ht Hr), (split_channel _ _ Hnt Hnr).
  cbn [unpack2]. rewrite (neqb_literal _ _ Hne). cbn [negb].
  destruct (parse version track); [|reflexivity].
  destruct (parse version new_track); reflexivity.
Qed.

End Channels.

End CharmFacts.

(** ** Users, machines and clouds *)

Section ListingFacts.

Import Json Pexpect Juju Listing.

(** X19: the skip checks of the creation and of the removal of a user are
    each other's opposite: one answers [SKIPPED] exactly when the other
    answers [COMPLETED]; they fail together, with the same message, and
    raise together, the same exception. *)
Theorem user_checks_are_opposite (env : Env) (username : string) :
  let create := fst (CreateJujuUserStep_is_skip env username) in
  let remove := fst (RemoveJujuUserStep_is_skip env username) in
  (create = Returns (result SKIPPED) <-> remove = Returns (result COMPLETED))
  /\ (create = Returns (result COMPLETED) <-> remove = Returns (result SKIPPED))
  /\ (forall msg, create = Returns (result_msg FAILED msg)
                  <-> remove = Returns (result_msg FAILED msg))
  /\ (forall e, create = Raises e <-> remove = Raises e).
Proof.
  unfold CreateJujuUserStep_is_skip, RemoveJujuUserStep_is_skip.
  cbv [bind gets lift try_except returns falls ret id fst result result_msg
       except_CalledProcessError].
  destruct (_juju_cmd env ["list-users"]) as [users|e].
  - destruct (user_names_of users) as [names|e].
    + destruct (existsb (is_str username) names); cbn [negb];
        repeat split; intros; congruence.
    + destruct e; repeat split; intros; congruence.
  - destruct e; repeat split; intros; congruence.
Qed.

Lemma machine_with_ip_cons (ip machine : string) (details : json)
      (items : list (string * json)) :
  machine_with_ip ip ((machine, details) :: items)
  = match has_ip ip details with
    | Returns true => Returns (Some machine)
    | Returns false => machine_with_ip ip items
    | Raises e => Raises e
    end.
Proof.
  cbn [machine_with_ip]. unfold has_ip.
  destruct (py_get details "ip-addresses"); reflexivity.
Qed.

(** X20: the search for the machine of an address stops at the first
    machine, in the order of the listing, that has the address: machines
    after it are not looked at, and it finds none exactly when every machine
    lacks the address.  A machine listed ahead of any match without
    addresses makes the search, and the skip check built on it, raise
    [TypeError]. *)
Theorem machine_with_ip_first_match (ip : string) (items : list (string * json)) :
  (forall machine,
      machine_with_ip ip items = Returns (Some machine)
      <-> exists pre details post,
          items = (pre ++ (machine, details) :: post)%list
          /\ Forall (fun kv => has_ip ip (snd kv) = Returns false) pre
          /\ has_ip ip details = Returns true)
  /\ (machine_with_ip ip items = Returns None
      <-> Forall (fun kv => has_ip ip (snd kv) = Returns false) items)
  /\ (forall env pre machine details post,
        items = (pre ++ (machine, details) :: post)%list ->
        Forall (fun kv => has_ip ip (snd kv) = Returns false) pre ->
        py_get details "ip-addresses" = Returns JNull ->
        _juju_cmd env (machines_query env)
        = Returns (JDict [("machines", JDict items)]) ->
        fst (AddJujuMachineStep_is_skip env ip)
        = Raises (TypeError "argument is not iterable")).
Proof.
  split; [|split].
  - induction items as [|[m d] items IH]; intros machine.
    + split; [discriminate|]. intros (pre & details & post & E & _).
      now destruct pre.
    + rewrite machine_with_ip_cons.
      destruct (has_ip ip d) as [[]|e] eqn:Hd.
      * split.
        -- intros [= <-]. exists [], d, items. auto.
        -- intros (pre & details & post & E & Hpre & Hm).
           destruct pre as [|[m' d'] pre].
           ++ now injection E as -> _ _.
           ++ injection E as -> -> _. apply Forall_cons in Hpre as [Hp _].
              cbn [snd] in Hp. congruence.
      * rewrite IH. split.
        -- intros (pre & details & post & -> & Hpre & Hm).
           exists ((m, d) :: pre), details, post.
           split; [reflexivity|]. split; [|exact Hm].
           apply Forall_cons. auto.
        -- intros (pre & details & post & E & Hpre & Hm).
           destruct pre as [|[m' d'] pre].
           ++ injection E as _ -> _. congruence.
           ++ injection E as -> -> ->. apply Forall_cons in Hpre as [_ Hp].
              exists pre, details, post. auto.
      * split; [discriminate|].
        intros (pre & details & post & E & Hpre & Hm).
        destruct pre as [|[m' d'] pre].
        -- injection E as _ -> _. congruence.
        -- injection E as -> -> _. apply Forall_cons in Hpre as [Hp _].
           cbn [snd] in Hp. congruence.
  - induction items as [|[m d] items IH].
    + split; [intros _; constructor|reflexivity].
    + rewrite machine_with_ip_cons, Forall_cons. cbn [snd].
      destruct (has_ip ip d) as [[]|e] eqn:Hd.
      * split; [discriminate|]. intros [H _]. discriminate.
      * rewrite IH. tauto.
      * split; [discriminate|]. intros [H _]. discriminate.
  - intros env pre machine details post -> Hpre Hd Hq.
    unfold AddJujuMachineStep_is_skip.
    cbv [bind gets lift try_except returns falls ret id fst].
    unfold machines_query in Hq. rewrite Hq.
    cbn [py_get_default member String.eqb Ascii.eqb Bool.eqb default py_items].
    assert (E : machine_with_ip ip (pre ++ (machine, details) :: post)
                = Raises (TypeError "argument is not iterable")).
    { clear Hq. induction pre as [|[m' d'] pre IH].
      - cbn [app machine_with_ip]. now rewrite Hd.
      - apply Forall_cons in Hpre as [Hp Hpre]. cbn [snd] in Hp.
        cbn [app]. rewrite machine_with_ip_cons, Hp. now apply IH. }
    unfold id. cbn [py_items]. rewrite E. reflexivity.
Qed.

(** X21: when the enrolment ends at the end of the stream with bytes that
    decode to a text without "ERROR", [run] reports the machine the skip
    check would report as present, and ["-1"] when the skip check would find
    none; a listing command that exits with an error fails the skip check,
    but gets out of [run] as the exception it is. *)
Theorem run_reports_what_the_check_finds
        (env : Env) (machine_ip : string) (h : Host) (raw text : string) :
  eof_text 1 (add_machine_session env machine_ip h) = Some raw ->
  decode raw = Returns text ->
  contains "ERROR" text = false ->
  let check := fst (AddJujuMachineStep_is_skip env machine_ip) in
  let ran := fst (AddJujuMachineStep_run env machine_ip h) in
  (forall machine,
      check = Returns (result_msg SKIPPED machine) ->
      ran = Returns (result_msg COMPLETED machine))
  /\ (check = Returns (result COMPLETED) ->
      ran = Returns (result_msg COMPLETED "-1"))
  /\ (forall text stderr,
        _juju_cmd env (machines_query env)
        = Raises (CalledProcessError text stderr) ->
        check = Returns (result_msg FAILED text)
        /\ ran = Raises (CalledProcessError text stderr)).
Proof.
  intros Heof Hd Hc check ran. subst check ran.
  assert (Hloop : loop_outcome 1 (add_machine_session env machine_ip h)
                  = Returns None).
  { rewrite (loop_outcome_eof _ _ _ Heof). unfold at_eof, eof_outcome.
    now rewrite Hd, Hc. }
  unfold AddJujuMachineStep_run, AddJujuMachineStep_is_skip, machines_query.
  cbv [bind try_except spawn_child modify gets open_wb set_logfile_read].
  set (log := add_machine_log_file env machine_ip).
  change (spawn_script (with_child _ h) (juju_binary env) _)
    with (add_machine_process env machine_ip h).
  match goal with
  | |- context [add_machine_loop _ ?x] => set (h0 := x)
  end.
  destruct (add_machine_loop_spec log (add_machine_process env machine_ip h)
                                  h0 EmptyString) as (h' & L1 & _ & _).
  { repeat split. }
  { apply lookup_insert_eq. }
  change (follow add_machine_reply (stdin (child h0))
                 (add_machine_process env machine_ip h))
    with (add_machine_session env machine_ip h) in L1.
  rewrite L1, Hloop.
  cbv [lift ret returns falls id fst result result_msg
       except_CalledProcessError].
  destruct (_juju_cmd env ["machines"; "-m"; CONTROLLER_MODEL env])
    as [machines|e].
  - destruct (py_get_default machines "machines" (JDict [])) as [ms|e].
    + destruct (py_items ms) as [items|e].
      * destruct (machine_with_ip machine_ip items) as [[m|]|e].
        -- repeat split; intros; cbn [fst] in *; congruence.
        -- repeat split; intros; cbn [fst] in *; congruence.
        -- destruct e; repeat split; intros; cbn [fst str] in *; congruence.
      * destruct e; repeat split; intros; cbn [fst str] in *; congruence.
    + destruct e; repeat split; intros; cbn [fst str] in *; congruence.
  - destruct e; repeat split; intros; cbn [fst str] in *; congruence.
Qed.

(** X22: a registration check that answers [COMPLETED] has put on the step
    the account found locally and the token the store holds for the user;
    when the store holds no token, or an empty one, the run made next fails
    with "No registration token found in Cluster database" and starts no
    process.  A check that answers otherwise leaves the token as it was. *)
Theorem register_check_hands_token_to_run
        (env : Env) (self self' : RegisterJujuUserStep) (r : Result) :
  RegisterJujuUserStep_is_skip env self = (Returns r, self') ->
  (result_type r = COMPLETED ->
   (exists user,
       get_juju_user env (username self) = Returns user
       /\ py_get user "token" = Returns (registration_token self'))
   /\ (exists account,
          load_account env (data_location self) = Returns account
          /\ juju_account self' = Some account)
   /\ (json_truthy (registration_token self') = false ->
       forall h, RegisterJujuUserStep_run env self' h
                 = (Returns (result_msg FAILED no_token_message), h)))
  /\ (result_type r <> COMPLETED ->
      registration_token self' = registration_token self).
Proof.
  unfold RegisterJujuUserStep_is_skip.
  cbv [bind gets lift try_except returns falls ret id modify result result_msg].
  destruct (load_account env (data_location self)) as [account|e] eqn:Ha.
  - destruct (_juju_cmd env ["show-user"]) as [user|e].
    + destruct (py_getitem user "user-name") as [name|e].
      * destruct (is_str (Juju.user account) name).
        -- intros [= <- <-]. split; [discriminate|reflexivity].
        -- cbn [set_juju_account username].
           destruct (get_juju_user env (username self)) as [u|e];
             [|destruct e; discriminate].
           destruct (py_get u "token") as [token|e] eqn:Ht;
             [|destruct e; discriminate].
           intros [= <- <-]. split; [|intros H; now destruct H].
           intros _. split; [eauto|]. split; [eauto|].
           intros Hf h. unfold RegisterJujuUserStep_run.
           cbn [set_registration_token registration_token] in *.
           now rewrite Hf.
      * destruct e; try discriminate.
        destruct (negb (contains "No controllers registered" stderr)).
        -- intros [= <- <-]. split; [discriminate|reflexivity].
        -- cbn [set_juju_account username].
           destruct (get_juju_user env (username self)) as [u|e];
             [|destruct e; discriminate].
           destruct (py_get u "token") as [token|e] eqn:Ht;
             [|destruct e; discriminate].
           intros [= <- <-]. split; [|intros H; now destruct H].
           intros _. split; [eauto|]. split; [eauto|].
           intros Hf h. unfold RegisterJujuUserStep_run.
           cbn [set_registration_token registration_token] in *.
           now rewrite Hf.
    + destruct e; try discriminate.
      destruct (negb (contains "No controllers registered" stderr)).
      * intros [= <- <-]. split; [discriminate|reflexivity].
      * cbn [set_juju_account username].
        destruct (get_juju_user env (username self)) as [u|e];
          [|destruct e; discriminate].
        destruct (py_get u "token") as [token|e] eqn:Ht;
          [|destruct e; discriminate].
        intros [= <- <-]. split; [|intros H; now destruct H].
        intros _. split; [eauto|]. split; [eauto|].
        intros Hf h. unfold RegisterJujuUserStep_run.
        cbn [set_registration_token registration_token] in *.
        now rewrite Hf.
  - destruct e; try discriminate.
    intros [= <- <-]. split; [discriminate|reflexivity].
Qed.

Lemma clouds_of_type_cons (cloud_type name : string) (details : json)
      (items : list (string * json)) :
  clouds_of_type cloud_type ((name, details) :: items)
  = match py_getitem details "type" with
    | Returns _ =>
        match clouds_of_type cloud_type items with
        | Returns clouds =>
            Returns (if has_type cloud_type details then name :: clouds
                     else clouds)
        | Raises e => Raises e
        end
    | Raises e => Raises e
    end.
Proof.
  cbn [clouds_of_type]. unfold has_type.
  destruct (py_getitem details "type"); reflexivity.
Qed.

(** X23: the clouds of a type are the names, in the order of the listing, of
    the entries whose type is the one asked for; the call returns exactly
    when the listing is an object of which every entry has a type: one entry
    without it, wherever it stands, makes the call raise. *)
Theorem get_clouds_filters_by_type
        (env : Env) (cloud_type : string) (local : bool) :
  let listing :=
    _juju_cmd env (["clouds"] ++ (if local then ["--client"] else []))%list in
  (forall clouds,
      get_clouds env cloud_type local = Returns clouds ->
      exists items,
        listing = Returns (JDict items)
        /\ clouds = fst <$> filter (fun kv => has_type cloud_type (snd kv)) items)
  /\ ((exists clouds, get_clouds env cloud_type local = Returns clouds)
      <-> exists items,
          listing = Returns (JDict items)
          /\ Forall (fun kv => exists t, py_getitem (snd kv) "type" = Returns t)
                    items).
Proof.
  intros listing. subst listing. unfold get_clouds.
  assert (C : forall items,
             (forall clouds,
                 clouds_of_type cloud_type items = Returns clouds ->
                 clouds = fst <$> filter (fun kv => has_type cloud_type (snd kv))
                                         items)
             /\ ((exists clouds, clouds_of_type cloud_type items = Returns clouds)
                 <-> Forall (fun kv => exists t,
                                 py_getitem (snd kv) "type" = Returns t) items)).
  { induction items as [|[n d] items [IH1 IH2]].
    - split; [now intros clouds [= <-]|]. split; [constructor|eauto].
    - rewrite clouds_of_type_cons, Forall_cons. cbn [snd].
      destruct (py_getitem d "type") as [t|e] eqn:Ht.
      + destruct (clouds_of_type cloud_type items) as [l|e].
        * split.
          -- intros clouds [= <-]. rewrite filter_cons. cbn [snd].
             rewrite (IH1 l eq_refl).
             destruct (has_type cloud_type d); reflexivity.
          -- split; [intros _; split; [eauto|apply IH2; eauto]|eauto].
        * split; [discriminate|].
          split; [intros [? ?]; discriminate|].
          intros [_ H]. apply IH2 in H as [? ?]. discriminate.
      + split; [discriminate|].
        split; [intros [? ?]; discriminate|].
        intros [[? ?] _]. discriminate. }
  destruct (_juju_cmd env _) as [j|e]; cbn [py_keys py_items].
  - destruct j as [| | | | |items]; cbn [py_keys py_items];
      try (split; [discriminate|];
           split; [intros [? ?]; discriminate
                  |intros (? & ? & _); discriminate]).
    destruct (C items) as [C1 C2]. split.
    + intros clouds H. exists items. split; [reflexivity|]. now apply C1.
    + rewrite C2. split; [eauto|]. now intros (items' & [= <-] & H).
  - split; [discriminate|].
    split; [intros [? ?]; discriminate|intros (? & ? & _); discriminate].
Qed.

End ListingFacts.

(** ** The steps that run commands *)

Section CommandFacts.

Import Stdlib.Strings.Ascii Json Juju Charm Listing Commands.

Lemma split_single (sep : ascii) (s x : string) :
  split sep s = [x] -> s = x /\ free_of sep x = true.
Proof.
  unfold split. revert x. induction s as [|c s IH]; intros x.
  - now intros [= <-].
  - cbn [split_pieces]. destruct (split_pieces sep s) as [p ps].
    destruct (Ascii.eqb c sep) eqn:Ec; [discriminate|].
    intros [= <- ->]. destruct (IH p eq_refl) as [-> Hp].
    split; [reflexivity|]. cbn [free_of]. now rewrite Ec, Hp.
Qed.

Lemma split_pair (sep : ascii) (s a b : string) :
  split sep s = [a; b] ->
  s = a +:+ String sep b /\ free_of sep a = true /\ free_of sep b = true.
Proof.
  unfold split. revert a. induction s as [|c s IH]; intros a.
  - discriminate.
  - cbn [split_pieces]. destruct (split_pieces sep s) as [p ps] eqn:E.
    destruct (Ascii.eqb_spec c sep) as [->|Hc].
    + intros [= <- -> ->].
      destruct (split_single sep s b) as [-> Hb].
      { unfold split. now rewrite E. }
      repeat split. exact Hb.
    + intros [= <- ->]. destruct (IH p eq_refl) as (-> & Hp & Hb).
      repeat split; [|exact Hb]. cbn [free_of]. rewrite Hp.
      apply Ascii.eqb_neq in Hc. now rewrite Hc.
Qed.

Lemma split_two_seps (sep : ascii) (a b c : string) :
  exists x y z l, split sep (a +:+ String sep (b +:+ String sep c))
                  = x :: y :: z :: l.
Proof.
  unfold split at 1. rewrite split_pieces_append.
  unfold split at 1. rewrite split_pieces_append.
  destruct (split_nonempty sep c) as (p & ps & ->).
  destruct (split_pieces sep a) as [pa psa].
  destruct (split_pieces sep b) as [pb psb]. cbn [fst snd].
  destruct psa as [|x psa]; cbn [app].
  - destruct psb as [|y psb]; cbn [app]; eauto.
  - destruct psa as [|y psa]; cbn [app]; eauto.
Qed.

Lemma hide_raises (arg : string) (e : exn) :
  hide arg = Raises e -> exists msg, e = ValueError msg.
Proof.
  unfold hide. destruct (contains "admin-secret" arg); [|discriminate].
  destruct (split "=" arg) as [|a [|b [|c l]]]; cbn [unpack2];
    try discriminate; intros [= <-]; eauto.
Qed.

Lemma hide_returns (arg hidden : string) :
  hide arg = Returns hidden -> shown_as arg hidden.
Proof.
  unfold hide, shown_as.
  destruct (contains "admin-secret" arg); [|intros [= <-]; now left].
  destruct (split "=" arg) as [|a [|b [|c l]]] eqn:E; cbn [unpack2];
    try discriminate.
  intros [= <-]. right. split; [reflexivity|].
  destruct (split_pair _ _ _ _ E) as (-> & Ha & Hb).
  exists a, b. repeat split; assumption.
Qed.

Lemma comprehension_hide_returns (cmd hidden : list string) :
  comprehension hide cmd = Returns hidden -> Forall2 shown_as cmd hidden.
Proof.
  revert hidden. induction cmd as [|arg cmd IH]; intros hidden.
  - intros [= <-]. constructor.
  - cbn [comprehension]. destruct (hide arg) as [h|e] eqn:Eh; [|discriminate].
    destruct (comprehension hide cmd) as [l|e]; [|discriminate].
    intros [= <-]. constructor; [now apply hide_returns|now apply IH].
Qed.

Lemma comprehension_hide_ValueError (cmd : list string) (e : exn) :
  comprehension hide cmd = Raises e -> exists msg, e = ValueError msg.
Proof.
  induction cmd as [|x cmd IH]; [discriminate|]. cbn [comprehension].
  destruct (hide x) as [h|e'] eqn:Ex.
  - destruct (comprehension hide cmd) as [l|e']; [discriminate|].
    intros [= <-]. now apply IH.
  - intros [= <-]. now apply (hide_raises x).
Qed.

Lemma comprehension_hide_raises (cmd : list string) (arg : string) (e : exn) :
  arg ∈ cmd -> hide arg = Raises e ->
  exists msg, comprehension hide cmd = Raises (ValueError msg).
Proof.
  intros Hin He. induction cmd as [|x cmd IH].
  - now apply elem_of_nil in Hin.
  - cbn [comprehension]. destruct (hide x) as [h|e'] eqn:Ex.
    + apply elem_of_cons in Hin as [->|Hin]; [congruence|].
      destruct (IH Hin) as [msg ->]. eauto.
    + destruct (hide_raises _ _ Ex) as [msg ->]. eauto.
Qed.

(** An argument that the loop of [hidden_cmd] can take apart. *)
Lemma hide_well_formed (option secret : string) :
  free_of "=" option = true -> free_of "=" secret = true ->
  contains "admin-secret" (option +:+ "=" +:+ secret) = true ->
  hide (option +:+ "=" +:+ secret) = Returns (option +:+ "=********").
Proof.
  intros Ho Hs Hc. unfold hide. rewrite Hc.
  change ("=" +:+ secret) with (String "=" secret).
  rewrite (split_append _ _ _ Ho), (free_of_split _ _ Hs). reflexivity.
Qed.

Lemma run_bootstrap_eq (env : Env) (answer : answers) (self : BootstrapJujuStep)
      (bootstrap_args : list string) (proxy_settings : Clusterd.dict)
      (sh : Shell) :
  let cmd := bootstrap_cmd env self bootstrap_args proxy_settings in
  BootstrapJujuStep_run env answer self bootstrap_args proxy_settings sh
  = match comprehension hide cmd with
    | Raises e => (Raises e, sh)
    | Returns hidden =>
        (match answer (ran sh) cmd with
         | Returns _ => Returns (result COMPLETED)
         | Raises (CalledProcessError text _) => Returns (result_msg FAILED text)
         | Raises e => Raises e
         end,
         mkShell (ran sh ++ [cmd])%list
                 (shown sh ++ ["Running command " +:+ join " " hidden])%list)
    end.
Proof.
  intros cmd. unfold BootstrapJujuStep_run. fold cmd.
  cbv [try_except bind lift show_command modify subprocess_run ret
       except_CalledProcessError_failed].
  cbn [ran shown].
  destruct (comprehension hide cmd) as [hidden|e] eqn:E.
  - destruct (answer _ cmd) as [out|e]; [reflexivity|].
    destruct e; reflexivity.
  - destruct (comprehension_hide_ValueError _ _ E) as [msg ->]. reflexivity.
Qed.

(** X24: when every argument of the bootstrap command that contains
    ["admin-secret"] is an option, one ["="] and a value, the debug log
    shows the command with the value of each such argument replaced by
    ["********"] and the other arguments as they are, while the command run
    is the one with the values; the result is [COMPLETED], or [FAILED] with
    the text of the error the command exits with. *)
Theorem bootstrap_shows_no_admin_secret
        (env : Env) (answer : answers) (self : BootstrapJujuStep)
        (bootstrap_args : list string) (proxy_settings : Clusterd.dict)
        (sh : Shell) :
  let cmd := bootstrap_cmd env self bootstrap_args proxy_settings in
  let out := BootstrapJujuStep_run env answer self bootstrap_args
                                   proxy_settings sh in
  Forall (fun arg => contains "admin-secret" arg = true ->
                     exists option secret,
                       arg = option +:+ "=" +:+ secret
                       /\ free_of "=" option = true
                       /\ free_of "=" secret = true) cmd ->
  exists hidden,
    Forall2 shown_as cmd hidden
    /\ shown (snd out)
       = (shown sh ++ ["Running command " +:+ join " " hidden])%list
    /\ ran (snd out) = (ran sh ++ [cmd])%list
    /\ fst out
       = match answer (ran sh) cmd with
         | Returns _ => Returns (result COMPLETED)
         | Raises (CalledProcessError text _) => Returns (result_msg FAILED text)
         | Raises e => Raises e
         end.
Proof.
  intros cmd out Hwf. subst out. rewrite run_bootstrap_eq. fold cmd.
  assert (H : exists hidden, comprehension hide cmd = Returns hidden).
  { clear -Hwf. induction cmd as [|arg cmd IH]; [now exists []|].
    apply Forall_cons in Hwf as [Ha Hwf]. destruct (IH Hwf) as [l El].
    cbn [comprehension]. rewrite El.
    destruct (contains "admin-secret" arg) eqn:Ec.
    - destruct (Ha eq_refl) as (o & v & -> & Ho & Hv).
      rewrite (hide_well_formed o v Ho Hv Ec). eauto.
    - unfold hide. rewrite Ec. eauto. }
  destruct H as [hidden E]. rewrite E. exists hidden.
  split; [now apply comprehension_hide_returns|]. repeat split.
Qed.

(** X25: an argument of the bootstrap command that contains
    ["admin-secret"] and has no ["="], or more than one, a secret with an
    ["="] in it for one, makes [run] raise [ValueError]: the error is not
    turned into a result, and the bootstrap command is neither shown nor
    run. *)
Theorem bootstrap_raises_on_odd_admin_secret
        (env : Env) (answer : answers) (self : BootstrapJujuStep)
        (bootstrap_args : list string) (proxy_settings : Clusterd.dict)
        (sh : Shell) (arg : string) :
  arg ∈ bootstrap_cmd env self bootstrap_args proxy_settings ->
  contains "admin-secret" arg = true ->
  free_of "=" arg = true
  \/ (exists option secret rest,
         arg = option +:+ "=" +:+ secret +:+ "=" +:+ rest) ->
  exists msg,
    BootstrapJujuStep_run env answer self bootstrap_args proxy_settings sh
    = (Raises (ValueError msg), sh).
Proof.
  intros Hin Hc Hodd. rewrite run_bootstrap_eq.
  assert (He : exists e, hide arg = Raises e).
  { unfold hide. rewrite Hc. destruct Hodd as [Hf|(o & v & r & ->)].
    - rewrite (free_of_split _ _ Hf). cbn [unpack2]. eauto.
    - change ("=" +:+ v +:+ "=" +:+ r) with (String "=" (v +:+ String "=" r)).
      destruct (split_two_seps "=" o v r) as (x & y & z & l & ->).
      cbn [unpack2]. eauto. }
  destruct He as [e He].
  destruct (comprehension_hide_raises _ _ _ Hin He) as [msg ->]. eauto.
Qed.

Lemma up_to_line_feed_spec (s token : string) :
  up_to_line_feed s = Some token ->
  free_of line_feed token = true
  /\ exists post, s = token +:+ String line_feed post.
Proof.
  revert token. induction s as [|a s IH]; intros token; [discriminate|].
  cbn [up_to_line_feed]. destruct (Ascii.eqb_spec a line_feed) as [->|Ha].
  - intros [= <-]. split; [reflexivity|]. now exists s.
  - destruct (up_to_line_feed s) as [t|]; [|discriminate].
    intros [= <-]. destruct (IH t eq_refl) as [Ht [post ->]].
    split; [|now exists post]. cbn [free_of]. rewrite Ht.
    apply Ascii.eqb_neq in Ha. now rewrite Ha.
Qed.

Lemma string_drop_add (n m : nat) (s : string) :
  string_drop (n + m) s = string_drop m (string_drop n s).
Proof.
  revert s. induction n as [|n IH]; intros s; [reflexivity|].
  destruct s as [|a s]; cbn [Nat.add string_drop]; [now destruct m|apply IH].
Qed.

Lemma search_registration_token_spec (stdout token : string) :
  search_registration_token stdout = Some token ->
  free_of line_feed token = true
  /\ exists pre post,
      stdout = pre +:+ registration_prefix +:+ token +:+ String line_feed post
      /\ forall n, occurs_at registration_prefix stdout n ->
                   String.length pre <= n.
Proof.
  unfold search_registration_token.
  destruct (lowest_index registration_prefix stdout) as [i|] eqn:Ei;
    [|discriminate].
  destruct (lowest_index_Some _ _ _ Ei) as [(pre & rest & E & Hl) Hmin].
  subst i. rewrite E at 1. rewrite string_drop_add, string_drop_app.
  rewrite (string_drop_app registration_prefix rest).
  intros H. destruct (up_to_line_feed_spec _ _ H) as [Hf [post ->]].
  split; [exact Hf|]. exists pre, post. split; [exact E|exact Hmin].
Qed.

(** X26: the creation of a user always runs the command that adds the
    user, then at most the two grants, in this order.  It returns
    [COMPLETED] only after the three commands, with the token read at the
    first occurrence of ["juju register "] in the output, no occurrence
    starting at a lower index: the text from there to the end of the line,
    which is not empty.  When the output holds
    no such line the user has been added all the same, no grant is run, and
    [AttributeError] gets out of [run]. *)
Theorem create_user_commands
        (env : Env) (answer : answers) (username : string) (sh : Shell) :
  let out := CreateJujuUserStep_run env answer username sh in
  (exists grants,
      ran (snd out) = (ran sh ++ add_user_cmd env username :: grants)%list
      /\ (grants = []
          \/ grants = [grant_superuser_cmd env username]
          \/ grants = [grant_superuser_cmd env username;
                       grant_admin_cmd env username]))
  /\ (forall token,
        fst out = Returns (result_msg COMPLETED token) ->
        ran (snd out)
        = (ran sh ++ [add_user_cmd env username;
                      grant_superuser_cmd env username;
                      grant_admin_cmd env username])%list
        /\ truthy token = true
        /\ free_of line_feed token = true
        /\ exists stdout pre post,
            answer (ran sh) (add_user_cmd env username) = Returns stdout
            /\ stdout = pre +:+ registration_prefix +:+ token
                        +:+ String line_feed post
            /\ forall n, occurs_at registration_prefix stdout n ->
                         String.length pre <= n)
  /\ (forall stdout,
        answer (ran sh) (add_user_cmd env username) = Returns stdout ->
        contains registration_prefix stdout = false ->
        fst out
        = Raises (AttributeError "'NoneType' object has no attribute 'group'")
        /\ ran (snd out) = (ran sh ++ [add_user_cmd env username])%list).
Proof.
  intros out. subst out. unfold CreateJujuUserStep_run.
  cbv [try_except bind lift show_command modify subprocess_run ret
       except_CalledProcessError_failed result_msg].
  cbn [ran shown].
  split; [|split].
  - destruct (answer (ran sh) (add_user_cmd env username)) as [stdout|e];
      [|destruct e; cbn [snd ran]; eauto].
    destruct (search_registration_token stdout) as [token|];
      [|cbn [snd ran]; eauto].
    destruct (truthy token); cbn [negb]; [|cbn [snd ran]; eauto].
    destruct (answer _ (grant_superuser_cmd env username)) as [o1|e1];
      [|destruct e1; cbn [snd ran]; rewrite <- ?app_assoc; cbn [app];
        eauto 6].
    destruct (answer _ (grant_admin_cmd env username)) as [o2|e2];
      [|destruct e2]; cbn [snd ran]; rewrite <- ?app_assoc; cbn [app];
      eauto 6.
  - intros t.
    destruct (answer (ran sh) (add_user_cmd env username)) as [stdout|e];
      [|destruct e; discriminate].
    destruct (search_registration_token stdout) as [token|] eqn:Et;
      [|discriminate].
    destruct (truthy token) eqn:Htok; cbn [negb]; [|discriminate].
    destruct (answer _ (grant_superuser_cmd env username)) as [o1|e1];
      [|destruct e1; discriminate].
    destruct (answer _ (grant_admin_cmd env username)) as [o2|e2];
      [|destruct e2; discriminate].
    cbn [fst snd ran]. intros [= <-].
    destruct (search_registration_token_spec _ _ Et)
      as (Hf & pre & post & E & Hmin).
    rewrite <- ?app_assoc. cbn [app].
    split; [reflexivity|]. split; [exact Htok|]. split; [exact Hf|].
    exists stdout, pre, post. split; [reflexivity|]. split; [exact E|exact Hmin].
  - intros stdout -> Hc.
    assert (E : search_registration_token stdout = None).
    { unfold search_registration_token.
      rewrite contains_lowest_index in Hc.
      now destruct (lowest_index registration_prefix stdout). }
    rewrite E. split; reflexivity.
Qed.

(** X27: a removal whose skip check answered [COMPLETED] holds the machine
    id the store gave for the node, and that id is in juju's listing; the
    run made next shows and runs one command, the removal of that machine,
    unless the id is [-1], in which case it fails without running
    anything, as does the run of a step that was never checked. *)
Theorem remove_machine_check_then_run
        (env : Env) (answer : answers) (self self' : RemoveJujuMachineStep)
        (r : Result) (sh : Shell) :
  RemoveJujuMachineStep_is_skip env self = (Returns r, self') ->
  result_type r = COMPLETED ->
  let out := RemoveJujuMachineStep_run env answer self' sh in
  (exists node,
      get_node_info env (remove_machine_name self) = Returns node
      /\ machine_id self' = Clusterd.machineid node)
  /\ (exists listing machines,
        _juju_cmd env (machines_query env) = Returns listing
        /\ py_get_default listing "machines" (JDict []) = Returns machines
        /\ py_in (str_of_int (machine_id self')) machines = Returns true)
  /\ (machine_id self' = (-1)%Z ->
      out = (Returns (result_msg FAILED no_machine_id_message), sh))
  /\ (machine_id self' <> (-1)%Z ->
      ran (snd out) = (ran sh ++ [remove_machine_cmd env (machine_id self')])%list
      /\ fst out
         = match answer (ran sh) (remove_machine_cmd env (machine_id self')) with
           | Returns _ => Returns (result COMPLETED)
           | Raises (CalledProcessError text _) =>
               Returns (result_msg FAILED text)
           | Raises e => Raises e
           end)
  /\ (forall name,
        RemoveJujuMachineStep_run env answer (new_remove_machine name) sh
        = (Returns (result_msg FAILED no_machine_id_message), sh)).
Proof.
  intros Hskip Hr out. subst out.
  split; [|split; [|split; [|split]]].
  - revert Hskip. unfold RemoveJujuMachineStep_is_skip.
    cbv [bind gets lift try_except returns falls ret id modify result
         result_msg except_CalledProcessError].
    destruct (get_node_info env (remove_machine_name self)) as [node|e].
    + cbn [machine_id remove_machine_name].
      destruct (_juju_cmd env _) as [l|e].
      * destruct (py_get_default l "machines" (JDict [])) as [ms|e].
        -- destruct (py_in _ ms) as [[]|e]; cbn [negb].
           ++ intros [= <- <-]. eauto.
           ++ intros [= <- <-]. eauto.
           ++ destruct e; intros [= <- <-]; eauto.
        -- destruct e; intros [= <- <-]; eauto.
      * destruct e; intros [= <- <-]; eauto.
    + destruct e; intros [= <- <-]; discriminate.
  - revert Hskip. unfold RemoveJujuMachineStep_is_skip, machines_query.
    cbv [bind gets lift try_except returns falls ret id modify result
         result_msg except_CalledProcessError].
    destruct (get_node_info env (remove_machine_name self)) as [node|e].
    + cbn [machine_id remove_machine_name].
      destruct (_juju_cmd env _) as [l|e].
      * destruct (py_get_default l "machines" (JDict [])) as [ms|e] eqn:Em.
        -- destruct (py_in _ ms) as [[]|e] eqn:Ei; cbn [negb].
           ++ intros [= <- <-]. cbn [machine_id]. eauto.
           ++ intros [= <- <-]. discriminate.
           ++ destruct e; intros [= <- <-]; discriminate.
        -- destruct e; intros [= <- <-]; discriminate.
      * destruct e; intros [= <- <-]; discriminate.
    + destruct e; intros [= <- <-]; discriminate.
  - intros E. unfold RemoveJujuMachineStep_run. rewrite E. reflexivity.
  - intros Hne. unfold RemoveJujuMachineStep_run.
    apply Z.eqb_neq in Hne. rewrite Hne.
    cbv [try_except bind lift show_command modify subprocess_run ret
         except_CalledProcessError_failed result_msg result].
    cbn [ran shown].
    destruct (answer (ran sh) _) as [o|e]; [split; reflexivity|].
    destruct e; split; reflexivity.
  - intros name. reflexivity.
Qed.

End CommandFacts.

(** ** The applications waited for *)

Section WaitingFacts.

Import Clusterd Openstack Planner.
Local Open Scope Z_scope.

Variable ext : Ext.

Lemma ceph_disabled_insert (key : string) (x : tfvalue) (v : tfvars) :
  key <> "enable-ceph" -> ceph_disabled (<[key := x]> v) = ceph_disabled v.
Proof.
  intros H. unfold ceph_disabled. now rewrite lookup_insert_ne.
Qed.

Lemma ceph_disabled_without_storage (self : DeployControlPlaneStep)
      (storage_nodes : list Node) (v : tfvars) :
  get_storage_tfvars ext self storage_nodes = Returns v ->
  ceph_disabled v = bool_decide (storage_nodes = []).
Proof.
  unfold get_storage_tfvars. destruct storage_nodes as [|n l].
  - intros [= <-]. reflexivity.
  - destruct (get_number_of_osds ext (machine_model self)); [|discriminate].
    intros [= <-]. rewrite !ceph_disabled_insert by discriminate. reflexivity.
Qed.

Lemma list_in_remove (x : string) (l : list string) :
  NoDup l -> list_in x (list_remove x l) = false.
Proof.
  induction l as [|y l IH]; intros H; [reflexivity|].
  apply NoDup_cons in H as [Hy Hl]. cbn [list_remove].
  destruct (String.eqb_spec x y) as [->|Hne].
  - apply not_true_is_false. intros Hin.
    now apply list_in_elem_of in Hin.
  - unfold list_in in *. cbn [existsb]. rewrite (IH Hl).
    apply String.eqb_neq in Hne. now rewrite Hne.
Qed.

(** X28: once the plan is applied, the deployment and the reapply wait for
    the same applications of the model: those juju names, less
    ["cinder-ceph"] when there is no storage node, and both return what the
    wait gives, [COMPLETED] or [FAILED] with the message of the waiting
    error.  With names that are distinct, ["cinder-ceph"] is then not
    waited for. *)
Theorem both_runs_wait_for_the_same_applications
        (self : DeployControlPlaneStep) (w : World) (apps : list string) :
  model self = OPENSTACK_MODEL ->
  get_application_names ext OPENSTACK_MODEL = Returns apps ->
  (forall v, update_tfvars_and_apply_tf ext CONFIG_KEY v = Returns tt) ->
  (exists v, get_storage_tfvars ext self (list_nodes_by_role (client w) "storage")
             = Returns v) ->
  (exists n, compute_os_api_scale (topology self)
               (Z.of_nat (length (list_nodes_by_role (client w) "control")))
             = Returns n) ->
  let awaited :=
    if bool_decide (list_nodes_by_role (client w) "storage" = [])
       && list_in "cinder-ceph" apps
    then list_remove "cinder-ceph" apps else apps in
  let result :=
    match waited (wait_until_active ext OPENSTACK_MODEL awaited
                                    OPENSTACK_DEPLOY_TIMEOUT) with
    | Returns (Some r) => Returns r
    | Returns None => Returns (mkResult COMPLETED None)
    | Raises e => Raises e
    end in
  fst (run ext (self, w)) = result
  /\ fst (reapply_run ext w) = result
  /\ (list_nodes_by_role (client w) "storage" = [] -> NoDup apps ->
      list_in "cinder-ceph" awaited = false).
Proof.
  intros Hm Happs Ha [v Hv] [n Hn] awaited result.
  assert (Hd : ceph_disabled v
               = bool_decide (list_nodes_by_role (client w) "storage" = [])).
  { now apply (ceph_disabled_without_storage self). }
  split; [|split].
  - cbv [run bind get_self set_self on_world on_client update_config modify
         gets lift try_except ret fst snd].
    destruct w as [c ram ts]. cbv [client with_client] in *.
    change (list_nodes_by_role (mkClient (nodes c) _) ?r)
      with (list_nodes_by_role c r).
    rewrite Hv, Hn, Ha, Hm, Happs.
    rewrite !ceph_disabled_insert by discriminate. rewrite Hd.
    fold awaited. rewrite wait_for_apps_eq. fold result. cbn [fst snd].
    unfold result. now destruct (waited _) as [[r|]|e].
  - cbv [reapply_run bind gets lift try_except ret]. rewrite Ha, Happs.
    fold awaited. rewrite wait_for_apps_eq.
    unfold result. now destruct (waited _) as [[r|]|e].
  - intros Hs Hnd. unfold awaited. rewrite Hs.
    rewrite bool_decide_true by reflexivity. cbn [andb].
    destruct (list_in "cinder-ceph" apps) eqn:E; [|exact E].
    now apply list_in_remove.
Qed.

End WaitingFacts.

(** ** The further properties at concrete deployments and clusters *)

Import Examples Scenarios.

(** After a run of the settled ["multi"] plan on the three-node deployment,
    a plan that leaves the database topology to ["auto"] passes the database
    guard. *)
Lemma auto_after_multi_passes :
  let w' := snd (snd (Openstack.run
                        slow_apps
                        (Openstack.settled slow_apps (plan "multi")
                                           multi_deployment,
                         multi_deployment))) in
  Openstack.persisted_database w'
  = Some (Openstack.database
            (Openstack.settled slow_apps (plan "multi") multi_deployment))
  /\ fst (Openstack.is_skip slow_apps (plan "auto", w'))
     <> Returns (mkResult FAILED (Some Openstack.database_changed_message)).
Proof.
  apply (persisted_database_passes_later_check
           slow_apps (plan "multi") (plan "auto") multi_deployment).
  right. reflexivity.
Defined.

(** On the three-node deployment a failing apply fails the run of the
    resolved plan, which has written the topology item by then. *)
Lemma failing_apply_fails_resolved_plan :
  let out := Openstack.run failing_apply (resolved_plan, multi_deployment) in
  fst out = Returns (mkResult FAILED (Some "terraform apply failed"))
  /\ Openstack.tasks (snd (snd out)) = Openstack.tasks multi_deployment
  /\ Openstack.persisted_topology (snd (snd out))
     = Some (<["database" := "multi"]> {["topology" := "multi"]}).
Proof.
  apply (failed_apply_keeps_written_topology
           failing_apply resolved_plan multi_deployment
           "terraform apply failed").
  - intros v. reflexivity.
  - eexists. vm_compute. reflexivity.
  - exists 3%Z. vm_compute. reflexivity.
Defined.

(** On the three-node deployment the run of a plan whose topology is still
    ["auto"] raises [ValueError]. *)
Lemma auto_topology_escapes_run :
  let out := Openstack.run slow_apps (plan "multi", multi_deployment) in
  fst out = Raises (ValueError "Unknown topology auto")
  /\ Openstack.tasks (snd (snd out)) = Openstack.tasks multi_deployment
  /\ Openstack.persisted_topology (snd (snd out))
     = Some (<["database" := "multi"]> {["topology" := "auto"]}).
Proof.
  apply (unresolved_topology_escapes_run slow_apps (plan "multi")
                                         multi_deployment).
  - discriminate.
  - discriminate.
  - discriminate.
  - vm_compute. discriminate.
  - eexists. vm_compute. reflexivity.
Defined.

(** With one service pinned and three not, a run pins the three and the next
    skip check answers [SKIPPED]. *)
Lemma fresh_services_are_pinned :
  let out := Kube.run metallb (checked_patch, fresh_services) in
  fst out = Returns (mkResult COMPLETED None)
  /\ (forall name,
        name ∈ Kube.SERVICES ->
        Kube.annotated (Kube.get_loadbalancer_annotation metallb)
                       (snd (snd out)) name)
  /\ fst (Kube.is_skip metallb (new_patch, snd (snd out)))
     = Returns (mkResult SKIPPED None).
Proof.
  intros out.
  assert (Hrun : Kube.run metallb (checked_patch, fresh_services)
                 = (Returns (mkResult COMPLETED None),
                    (fst (snd out), snd (snd out))))
    by (vm_compute; reflexivity).
  assert (Hcfg : Clusterd.config (Kube.store fresh_services)
                 !! Kube.get_kubeconfig_key metallb
                 = Some kubeconfig_item)
    by (vm_compute; reflexivity).
  assert (Hk : Kube.KubeClient metallb kubeconfig_item = None)
    by reflexivity.
  split; [vm_compute; reflexivity|].
  exact (proj2 (run_then_is_skip_skips metallb checked_patch _ new_patch
                  _ _ _ _ Hrun Hcfg Hk)).
Defined.

(** With the four services pinned the skip check answers [SKIPPED] and a run
    changes nothing. *)
Lemma pinned_services_are_left_alone :
  let checked := Kube.is_skip metallb (new_patch, pinned_services) in
  fst checked = Returns (mkResult SKIPPED None)
  /\ Kube.run metallb (snd checked)
     = (Returns (mkResult COMPLETED None), snd checked)
  /\ snd (snd checked) = pinned_services.
Proof.
  intros checked.
  assert (Hskip : fst (Kube.is_skip metallb (new_patch, pinned_services))
                  = Returns (mkResult SKIPPED None))
    by (vm_compute; reflexivity).
  split; [exact Hskip|].
  exact (skipped_run_patches_nothing metallb new_patch pinned_services Hskip).
Defined.

(** The URL of revision 50 of [cinder-k8s] gives back its name and its
    revision. *)
Lemma cinder_url_round_trip :
  Charm._extract_charm_name (Charm.charm_url "ch:amd64/jammy" "cinder-k8s" "50")
  = Returns "cinder-k8s"
  /\ Charm._extract_charm_revision
       (Charm.charm_url "ch:amd64/jammy" "cinder-k8s" "50")
     = Returns "50".
Proof.
  apply (charm_url_round_trip "ch:amd64/jammy" "cinder-k8s" "50");
    reflexivity.
Defined.


(** From the track ["2023.1"] to the track ["2023.2"] the risks, here
    unknown ones, play no part. *)
Lemma next_track_is_newer :
  Charm.channel_update_needed by_text "2023.1/nightly" "2023.2/weekly"
  = Returns true.
Proof.
  apply (other_track_ignores_risks by_text "2023.1" "nightly" "2023.2" "weekly");
    (reflexivity || discriminate).
Defined.

(** The machine enrolled at 10.0.0.6 is reported as machine 1, which is
    what the skip check finds. *)
Lemma enrolment_reports_machine_1 :
  Pexpect.eof_text 1
    (Juju.add_machine_session enrolled "10.0.0.6" (host quiet_end))
  = Some "created machine 1"
  /\ Py.decode "created machine 1" = Returns "created machine 1"
  /\ Py.contains "ERROR" "created machine 1" = false
  /\ fst (Juju.AddJujuMachineStep_is_skip enrolled "10.0.0.6")
     = Returns (Juju.result_msg SKIPPED "1")
  /\ fst (Juju.AddJujuMachineStep_run enrolled "10.0.0.6" (host quiet_end))
     = Returns (Juju.result_msg COMPLETED "1").
Proof.
  split; [reflexivity|]. split; [reflexivity|]. split; [reflexivity|].
  split; [reflexivity|].
  apply (proj1 (run_reports_what_the_check_finds
                  enrolled "10.0.0.6" (host quiet_end) "created machine 1"
                  "created machine 1" eq_refl eq_refl eq_refl) "1").
  reflexivity.
Defined.

(** On a host without a controller the registration check goes on to the
    store; the user has no token there, and the run fails without starting
    a process. *)
Lemma tokenless_registration_fails :
  Juju.RegisterJujuUserStep_is_skip first_contact new_registration
  = (Returns (Juju.result COMPLETED), checked_registration)
  /\ forall h,
      Juju.RegisterJujuUserStep_run first_contact checked_registration h
      = (Returns (Juju.result_msg FAILED Juju.no_token_message), h).
Proof.
  assert (H : Juju.RegisterJujuUserStep_is_skip first_contact new_registration
              = (Returns (Juju.result COMPLETED), checked_registration))
    by reflexivity.
  split; [exact H|].
  apply (proj1 (register_check_hands_token_to_run
                  first_contact new_registration checked_registration
                  (Juju.result COMPLETED) H) eq_refl).
  reflexivity.
Defined.

(** The bootstrap that sets the admin secret shows the command without the
    secret and runs it with the secret. *)
Lemma admin_secret_is_hidden :
  let cmd := Commands.bootstrap_cmd unreachable bootstrap secret_args ∅ in
  let out := Commands.BootstrapJujuStep_run unreachable all_succeed bootstrap
                                            secret_args ∅ nothing_ran in
  cmd = ["/snap/openstack/current/juju/bin/juju"; "bootstrap"; "--config";
         "admin-secret=s3cret"; "sunbeam"; "sunbeam-controller"]
  /\ exists hidden,
      Forall2 Commands.shown_as cmd hidden
      /\ Commands.shown (snd out)
         = (Commands.shown nothing_ran
            ++ ["Running command " +:+ Commands.join " " hidden])%list
      /\ Commands.ran (snd out) = (Commands.ran nothing_ran ++ [cmd])%list
      /\ fst out = Returns (Juju.result COMPLETED).
Proof.
  intros cmd out. split; [reflexivity|].
  apply (bootstrap_shows_no_admin_secret unreachable all_succeed bootstrap
                                         secret_args ∅ nothing_ran).
  repeat (apply Forall_cons; split); try (apply Forall_nil; exact I);
    try (intros H; vm_compute in H; discriminate H).
  intros _. exists "admin-secret", "s3cret". repeat split.
Defined.

(** The bootstrap whose admin secret holds an ["="] raises before anything
    is run. *)
Lemma odd_admin_secret_raises :
  exists msg,
    Commands.BootstrapJujuStep_run unreachable all_succeed bootstrap
                                   odd_secret_args ∅ nothing_ran
    = (Raises (ValueError msg), nothing_ran).
Proof.
  apply (bootstrap_raises_on_odd_admin_secret
           unreachable all_succeed bootstrap odd_secret_args ∅ nothing_ran
           "admin-secret=s3=cret").
  - refine (bool_decide_unpack _ _). vm_compute. exact I.
  - reflexivity.
  - right. exists "admin-secret", "s3", "cret". reflexivity.
Defined.

(** The removal of a node the store knows as machine 1 runs the removal of
    machine 1. *)
Lemma machine_1_is_removed :
  let out := Commands.RemoveJujuMachineStep_run
               enrolled all_succeed (Juju.mkRemoveMachine "node-1" 1)
               nothing_ran in
  Juju.RemoveJujuMachineStep_is_skip enrolled
    (Commands.new_remove_machine "node-1")
  = (Returns (Juju.result COMPLETED), Juju.mkRemoveMachine "node-1" 1)
  /\ Commands.ran (snd out)
     = [["/snap/openstack/current/juju/bin/juju"; "remove-machine"; "-m";
         "admin/controller"; "1"; "--no-prompt"]]
  /\ fst out = Returns (Juju.result COMPLETED).
Proof.
  intros out.
  assert (H : Juju.RemoveJujuMachineStep_is_skip
                enrolled (Commands.new_remove_machine "node-1")
              = (Returns (Juju.result COMPLETED),
                 Juju.mkRemoveMachine "node-1" 1)) by reflexivity.
  split; [exact H|].
  apply (proj1 (proj2 (proj2 (proj2
           (remove_machine_check_then_run
              enrolled all_succeed (Commands.new_remove_machine "node-1")
              (Juju.mkRemoveMachine "node-1" 1) (Juju.result COMPLETED)
              nothing_ran H eq_refl))))).
  discriminate.
Defined.

(** On the three-node deployment, which has no storage node, both runs wait
    for ["keystone"] and ["nova"] and fail with the same timeout. *)
Lemma both_runs_skip_cinder_ceph :
  let awaited := ["keystone"; "nova"] in
  let result :=
    Returns (mkResult FAILED (Some "timed out waiting for apps")) in
  fst (Openstack.run slow_apps (resolved_plan, multi_deployment)) = result
  /\ fst (Openstack.reapply_run slow_apps multi_deployment) = result
  /\ (Clusterd.list_nodes_by_role (Openstack.client multi_deployment) "storage"
      = [] ->
      NoDup ["keystone"; "cinder-ceph"; "nova"] ->
      Openstack.list_in "cinder-ceph" awaited = false).
Proof.
  apply (both_runs_wait_for_the_same_applications
           slow_apps resolved_plan multi_deployment
           ["keystone"; "cinder-ceph"; "nova"]).
  - reflexivity.
  - reflexivity.
  - intros v. reflexivity.
  - eexists. vm_compute. reflexivity.
  - exists 3%Z. vm_compute. reflexivity.
Defined.
